(** * UNS Estate OS: import pipeline, store operations and dashboard metrics

    A shallow embedding of the TypeScript sources
      - hooks/useExcelImport   (processFile, processEmployeeImport, processRentImport)
      - utils/validators.ts    (row schemas, validateDataIntegrity)
      - utils (isPropertyActive)
      - hooks/useDatabase.ts   (deleteProperty, addTenant, addEmployees, getPropertiesByStatus)
      - components/dashboard/Dashboard.tsx (metrics)
    followed by the properties proved about them.

    Conventions of the embedding.
      - A JavaScript string is the list of its UTF-16 code units.
      - A JavaScript number is [NaN], an integer ([Fin z]), an infinity, or
        any other number of a cell, which is given by the text that
        [String] returns for it; [parseInt] rounds what it reads to a
        double.  Arithmetic on the integer fields of the data model is
        exact (this is the behaviour of doubles up to 2^53).
      - React state is passed explicitly: a mutator is a function from the
        store to the result it returns and the next store.  Where a callback
        reads the store of the render that created it and writes through
        [setDb(prev => ...)], the two stores are two arguments.
      - Readings of the clock ([Date.now()], [new Date()]) are arguments,
        one for each place that reads it. *)

From Stdlib Require Import ZArith NArith List String Ascii Bool Lia.
From stdpp Require Import base option list gmap.
Import ListNotations.

Local Open Scope Z_scope.

(** ** JavaScript strings *)

Module JsString.

Abbreviation jsstring := (list N).

Fixpoint bytes (s : string) : list N :=
  match s with
  | EmptyString => []
  | String a r => N_of_ascii a :: bytes r
  end.

(** UTF-8 decoding of a source literal into code points. *)
Fixpoint decode (need : nat) (acc : N) (bs : list N) : list N :=
  match bs with
  | [] => []
  | b :: r =>
    match need with
    | O =>
        if (b <? 128)%N then b :: decode 0 0%N r
        else if (b <? 224)%N then decode 1 (b - 192)%N r
        else if (b <? 240)%N then decode 2 (b - 224)%N r
        else decode 3 (b - 240)%N r
    | S O => (acc * 64 + (b - 128))%N :: decode 0 0%N r
    | S n => decode n (acc * 64 + (b - 128))%N r
    end
  end.

(** UTF-16 encoding of one code point. *)
Definition units (cp : N) : list N :=
  if (cp <? 65536)%N then [cp]
  else [(55296 + (cp - 65536) / 1024)%N; (56320 + (cp - 65536) mod 1024)%N].

(** [js "..."] is the JavaScript string written as that literal. *)
Definition js (s : string) : jsstring :=
  flat_map units (decode 0 0%N (bytes s)).

(** The double quote character, U+0022. *)
Definition dquote : jsstring := [34%N].

Definition eqb (s t : jsstring) : bool := bool_decide (s = t).

(** [t] is a prefix of [s]. *)
Fixpoint startsWith (s t : jsstring) {struct t} : bool :=
  match t, s with
  | [], _ => true
  | a :: t', b :: s' => (a =? b)%N && startsWith s' t'
  | _ :: _, [] => false
  end.

(** [String.prototype.includes]: [t] occurs in [s] as a substring. *)
Fixpoint includes (s t : jsstring) : bool :=
  startsWith s t ||
  match s with
  | [] => false
  | _ :: s' => includes s' t
  end.

(** WhiteSpace and LineTerminator code units, as used by [trim] and by
    [parseInt]. *)
Definition isWhiteSpace (c : N) : bool :=
  existsb (N.eqb c)
  [9; 10; 11; 12; 13; 32; 160; 5760; 8232; 8233; 8239; 8287; 12288; 65279]%N
  || ((8192 <=? c) && (c <=? 8202))%N.

Fixpoint trimStart (s : jsstring) : jsstring :=
  match s with
  | [] => []
  | c :: r => if isWhiteSpace c then trimStart r else s
  end.

Definition trimEnd (s : jsstring) : jsstring := rev (trimStart (rev s)).

Definition trim (s : jsstring) : jsstring := trimEnd (trimStart s).

(** Decimal digits of a natural number, most significant first. *)
Fixpoint digits_fuel (fuel : nat) (n : N) (acc : jsstring) : jsstring :=
  match fuel with
  | O => acc
  | S f =>
    let acc' := (48 + n mod 10)%N :: acc in
    if (n <? 10)%N then acc' else digits_fuel f (n / 10)%N acc'
  end.

Definition digits (n : N) : jsstring :=
  digits_fuel (S (N.to_nat (N.log2 n))) n [].

(** Number-to-string of an integer value. *)
Definition ofZ (z : Z) : jsstring :=
  if z <? 0 then 45%N :: digits (Z.to_N (- z)) else digits (Z.to_N z).

End JsString.
Import JsString.

(** ** JavaScript values found in spreadsheet cells *)

(** A number.  [Fin z] is an integer that the number type holds; as the
    value of a cell it stands for an integer of magnitude at most 2^53 only,
    where every integer is a double and [Number::toString] gives its decimal
    digits.  [Inf] is an infinity.  [Other text] is any other finite number
    of a cell, one with a fraction or of magnitude above 2^53, given by the
    text that [Number::toString] returns for it (12.5, 5e-7, 1e+21): the
    pipelines read a cell through [||] and [String] only, and such a number
    is never zero. *)
Inductive Num : Type :=
  | NaN
  | Fin (z : Z)
  | Inf (negative : bool)
  | Other (text : jsstring).

Inductive JsVal : Type :=
  | JUndefined
  | JNull
  | JBool (b : bool)
  | JNum (n : Num)
  | JStr (s : jsstring).

(** The values that stand for the content of a cell: an integer is a [Fin]
    up to magnitude 2^53, and an [Other] beyond it. *)
Definition isCellValue (v : JsVal) : bool :=
  match v with
  | JNum (Fin z) => Z.abs z <=? 2 ^ 53
  | _ => true
  end.

(** ToBoolean. *)
Definition truthy (v : JsVal) : bool :=
  match v with
  | JUndefined | JNull => false
  | JBool b => b
  | JNum NaN => false
  | JNum (Fin z) => negb (z =? 0)
  | JNum (Inf _) | JNum (Other _) => true
  | JStr s => negb (eqb s [])
  end.

(** [a || b]. *)
Definition jsOr (a b : JsVal) : JsVal := if truthy a then a else b.

(** [String(v)], for the values of cells. *)
Definition toString (v : JsVal) : jsstring :=
  match v with
  | JUndefined => js "undefined"
  | JNull => js "null"
  | JBool true => js "true"
  | JBool false => js "false"
  | JNum NaN => js "NaN"
  | JNum (Fin z) => ofZ z
  | JNum (Inf false) => js "Infinity"
  | JNum (Inf true) => js "-Infinity"
  | JNum (Other text) => text
  | JStr s => s
  end.

(** Value of a digit in the given radix, if the code unit is one. *)
Definition digitValue (radix : Z) (c : N) : option Z :=
  let c := Z.of_N c in
  let v :=
    if (48 <=? c) && (c <=? 57) then Some (c - 48)
    else if (97 <=? c) && (c <=? 122) then Some (c - 87)
    else if (65 <=? c) && (c <=? 90) then Some (c - 55)
    else None in
  match v with
  | Some d => if d <? radix then Some d else None
  | None => None
  end.

(** The longest prefix of digits, read left to right; [None] when the
    prefix is empty. *)
Fixpoint readDigits (radix : Z) (acc : option Z) (s : jsstring) : option Z :=
  match s with
  | [] => acc
  | c :: r =>
      match digitValue radix c with
      | Some d => readDigits radix (Some (radix * default 0 acc + d)) r
      | None => acc
      end
  end.

(** The double nearest to the integer [n >= 0], ties to the even
    significand: the integers below 2^53 are doubles; above, 53 bits are
    kept.  From 2^1024 on the result stands for Infinity. *)
Definition roundDouble (n : Z) : Z :=
  if n <? 2 ^ 53 then n
  else
    let e := Z.log2 n - 52 in
    let q := Z.shiftr n e in
    let r := n - Z.shiftl q e in
    let half := Z.shiftl 1 (e - 1) in
    let q' := if (half <? r) || ((r =? half) && Z.odd q) then q + 1 else q in
    Z.shiftl q' e.

(** [parseInt(s)] with no radix argument: leading white space is skipped, a
    sign is read, a prefix 0x or 0X selects radix 16, and the longest prefix
    of digits is read as an integer, which is rounded to a double; no digit
    gives NaN. *)
Definition parseInt (s : jsstring) : Num :=
  let s1 := trimStart s in
  let negative := startsWith s1 (js "-") in
  let s2 :=
    if startsWith s1 (js "-") || startsWith s1 (js "+") then skipn 1 s1 else s1 in
  let hex := startsWith s2 (js "0x") || startsWith s2 (js "0X") in
  let radix := if hex then 16 else 10 in
  let s3 := if hex then skipn 2 s2 else s2 in
  match readDigits radix None s3 with
  | Some m =>
      let d := roundDouble m in
      if d <? 2 ^ 1024 then Fin (if negative then - d else d) else Inf negative
  | None => NaN
  end.

(** [n || d] for a number [n] and a numeric literal [d], read as the integer
    of a field of the data model; an infinity or a number with a fraction
    has no such reading. *)
Definition numOr (n : Num) (d : Z) : Z :=
  match jsOr (JNum n) (JNum (Fin d)) with
  | JNum (Fin z) => z
  | _ => d
  end.

(** ** Rows of a worksheet *)

(** A row as produced by [sheet_to_json]: column label to cell value.
    Reading a label that is not present gives [undefined]. *)
Abbreviation Row := (gmap (list N) JsVal).

Definition cell (row : Row) (label : string) : JsVal :=
  default JUndefined (row !! js label).

(** One cell of a row literal, and the row literal [{label: value, ...}]. *)
Definition col (label : string) (v : JsVal) : list N * JsVal := (js label, v).

Definition mkRow (cells : list (list N * JsVal)) : Row := list_to_map cells.

(** *** Row schemas (zod): [z.string()], [.optional()], [z.any()] *)

Definition isString (v : JsVal) : bool :=
  match v with JStr _ => true | _ => false end.

Definition isOptionalString (v : JsVal) : bool :=
  match v with JStr _ | JUndefined => true | _ => false end.

(** [ExcelPropertyRowSchema.safeParse(row).success] *)
Definition validateExcelPropertyRow (row : Row) : bool :=
  isString (cell row "ｱﾊﾟｰﾄ") &&
  isOptionalString (cell row "住所") &&
  isOptionalString (cell row "契約開始日") &&
  isOptionalString (cell row "契約終了").

(** [ExcelTenantRowSchema.safeParse(row).success] *)
Definition validateExcelTenantRow (row : Row) : bool :=
  isString (cell row "ｱﾊﾟｰﾄ") &&
  isString (cell row "カナ") &&
  isOptionalString (cell row "入居").

(** [ExcelEmployeeRowSchema.safeParse(row).success] *)
Definition validateExcelEmployeeRow (row : Row) : bool :=
  isString (cell row "氏名") &&
  isString (cell row "カナ") &&
  isOptionalString (cell row "派遣先").

(** ** Data model (types/database) *)

Inductive Status : Type := active | inactive.

Definition Status_eqb (a b : Status) : bool :=
  match a, b with
  | active, active | inactive, inactive => true
  | _, _ => false
  end.

Module Property.
Record t : Type := mk {
  id : Z;
  name : jsstring;
  room_number : option jsstring;
  postal_code : option jsstring;
  address_auto : jsstring;
  address_detail : option jsstring;
  address : jsstring;
  type : jsstring;
  capacity : Z;
  rent_cost : Z;
  rent_price_uns : Z;
  parking_cost : Z;
  manager_name : option jsstring;
  manager_phone : option jsstring;
  contract_start : jsstring;
  contract_end : option jsstring;
}.
End Property.

Module Tenant.
Record t : Type := mk {
  id : Z;
  employee_id : jsstring;
  name : jsstring;
  name_kana : jsstring;
  property_id : Z;
  rent_contribution : Z;
  parking_fee : Z;
  entry_date : jsstring;
  status : Status;
}.
End Tenant.

Module Employee.
Record t : Type := mk {
  id : jsstring;
  name : jsstring;
  name_kana : jsstring;
  company : jsstring;
  full_data : option Row;
}.
End Employee.

Module Config.
Record t : Type := mk {
  companyName : jsstring;
  closingDay : Z;
}.
End Config.

Module Database.
Record t : Type := mk {
  properties : list Property.t;
  tenants : list Tenant.t;
  employees : list Employee.t;
  config : Config.t;
  version : jsstring;
  last_sync : jsstring;
}.
End Database.

(** ** Referential integrity (validators.ts, validateDataIntegrity) *)

Module Integrity.

Record error : Type := mkError {
  type : jsstring;
  message : jsstring;
}.

Record result : Type := mkResult {
  valid : bool;
  errors : list error;
}.

(** [db.properties.find(p => p.id === tenant.property_id)] *)
Definition findProperty (properties : list Property.t) (tenant : Tenant.t)
  : option Property.t :=
  find (fun p => Property.id p =? Tenant.property_id tenant) properties.

Definition fkError (tenant : Tenant.t) : error :=
  {| type := js "FK_ERROR";
     message :=
       js "Inquilino " ++ dquote ++ Tenant.name tenant ++ dquote ++
       js " asignado a propiedad inexistente (ID: " ++
       ofZ (Tenant.property_id tenant) ++ js ")" |}.

(** Body of the first loop. *)
Definition fkStep (properties : list Property.t)
    (errors : list error) (tenant : Tenant.t) : list error :=
  match findProperty properties tenant with
  | Some _ => errors
  | None => errors ++ [fkError tenant]
  end.

(** [db.tenants.filter(t => t.property_id === property.id &&
    t.status === 'active').length] *)
Definition tenantCount (tenants : list Tenant.t) (property : Property.t) : Z :=
  Z.of_nat (length (List.filter
    (fun t => (Tenant.property_id t =? Property.id property)
              && Status_eqb (Tenant.status t) active) tenants)).

Definition capacityError (tenants : list Tenant.t) (property : Property.t)
  : error :=
  {| type := js "CAPACITY_ERROR";
     message :=
       js "Propiedad " ++ dquote ++ Property.name property ++ dquote ++
       js " excede capacidad (" ++ ofZ (tenantCount tenants property) ++
       js "/" ++ ofZ (Property.capacity property) ++ js ")" |}.

(** Body of the second loop. *)
Definition capacityStep (tenants : list Tenant.t)
    (errors : list error) (property : Property.t) : list error :=
  if tenantCount tenants property >? Property.capacity property
  then errors ++ [capacityError tenants property]
  else errors.

Definition validateDataIntegrity
    (properties : list Property.t) (tenants : list Tenant.t) : result :=
  let errors := fold_left (fkStep properties) tenants [] in
  let errors := fold_left (capacityStep tenants) properties errors in
  {| valid := (length errors =? 0)%nat; errors := errors |}.

End Integrity.

(** ** Excel import (useExcelImport) *)

Module ExcelImport.

Record rowError : Type := mkRowError {
  row : Z;
  field : jsstring;
  message : jsstring;
}.

Inductive importType : Type := employees_type | rent_management.

Record importData : Type := mkData {
  properties : option (list Property.t);
  tenants : option (list Tenant.t);
  employees : option (list Employee.t);
}.

Record ImportResult : Type := mkResult {
  success : bool;
  type : option importType;
  data : option importData;
  errors : list rowError;
  summary : jsstring;
}.

(** What the pipelines read of a parsed workbook: [workbook.SheetNames] and
    [XLSX.utils.sheet_to_json(workbook.Sheets[name], { defval: '' })]. *)
Record Workbook : Type := mkWorkbook {
  SheetNames : list jsstring;
  sheet_to_json : jsstring -> list Row;
}.

(** [array.forEach((x, index) => ...)] on a loop state. *)
Fixpoint forEachFrom {S A : Type} (f : S -> A -> Z -> S)
    (index : Z) (l : list A) (s : S) : S :=
  match l with
  | [] => s
  | x :: r => forEachFrom f (index + 1) r (f s x index)
  end.

Definition forEach {S A : Type} (f : S -> A -> Z -> S) (l : list A) (s : S) : S :=
  forEachFrom f 0 l s.

Definition nl : jsstring := [10%N].

(** A cell that the row schema has checked to be a string or absent,
    after [|| ''] (or another string default). *)
Definition stringOr (v : JsVal) (d : jsstring) : jsstring :=
  match jsOr v (JStr d) with
  | JStr s => s
  | _ => d
  end.

(** [parseInt(String(v || d)) || d] *)
Definition intCell (v : JsVal) (d : Z) : Z :=
  numOr (parseInt (toString (jsOr v (JNum (Fin d))))) d.

(** *** Sheet classification tokens *)

Definition isEmployeeSheet (n : jsstring) : bool :=
  includes n (js "Genzai") || includes n (js "Ukeoi") || includes n (js "社員").

Definition isPropertySheet (n : jsstring) : bool :=
  includes n (js "会社寮情報") || includes n (js "物件").

Definition isTenantSheet (n : jsstring) : bool :=
  includes n (js "入居者一覧") || includes n (js "入居").

(** *** processEmployeeImport *)

Record empAcc : Type := mkEmpAcc {
  emp_errors : list rowError;
  emp_employees : list Employee.t;
}.

Definition employeeStep (acc : empAcc) (r : Row) (index : Z) : empAcc :=
  if negb (validateExcelEmployeeRow r) then
    mkEmpAcc
      (emp_errors acc ++
         [mkRowError (index + 1) (js "múltiples") (js "Datos incompletos")])
      (emp_employees acc)
  else
    let id := trim (toString (jsOr (cell r "社員No") (cell r "ID"))) in
    let name := trim (toString (jsOr (cell r "氏名") (cell r "Name"))) in
    if eqb id [] || eqb name [] then
      mkEmpAcc
        (emp_errors acc ++
           [mkRowError (index + 1) (js "ID/Nombre") (js "ID y Nombre requeridos")])
        (emp_employees acc)
    else
      mkEmpAcc
        (emp_errors acc)
        (emp_employees acc ++
           [Employee.mk id name
              (trim (toString (jsOr (cell r "カナ") (JStr []))))
              (trim (toString (jsOr (cell r "派遣先") (JStr []))))
              (Some r)]).

Definition employeeSummary (rows employees errors : nat) : jsstring :=
  trim (nl ++ js "Importación de Empleados:" ++ nl ++
        js "- Total filas procesadas: " ++ ofZ (Z.of_nat rows) ++ nl ++
        js "- Empleados válidos: " ++ ofZ (Z.of_nat employees) ++ nl ++
        js "- Errores encontrados: " ++ ofZ (Z.of_nat errors) ++ nl ++
        js "    ").

Definition processEmployeeImport (workbook : Workbook)
    (sheetNames : list jsstring) : ImportResult :=
  match find isEmployeeSheet sheetNames with
  | None =>
      mkResult false None None [] (js "Hoja de empleados no encontrada")
  | Some empSheet =>
      let data := sheet_to_json workbook empSheet in
      let acc := forEach employeeStep data (mkEmpAcc [] []) in
      mkResult
        (length (emp_errors acc) =? 0)%nat
        (Some employees_type)
        (Some (mkData None None (Some (emp_employees acc))))
        (emp_errors acc)
        (employeeSummary (length data) (length (emp_employees acc))
           (length (emp_errors acc)))
  end.

(** *** processRentImport *)

Record rentAcc : Type := mkRentAcc {
  rent_errors : list rowError;
  rent_properties : list Property.t;
  rent_tenants : list Tenant.t;
}.

(** [array.map((e, i) => ...)] *)
Fixpoint mapiFrom {A B : Type} (f : A -> Z -> B) (i : Z) (l : list A) : list B :=
  match l with
  | [] => []
  | x :: r => f x i :: mapiFrom f (i + 1) r
  end.

Definition notFoundMessage (apt : jsstring) : jsstring :=
  js "Propiedad " ++ dquote ++ apt ++ dquote ++ js " no encontrada".

Definition rentSummary (properties tenants errors integrity : nat) : jsstring :=
  trim (nl ++ js "Importación de Gestión de Rentas:" ++ nl ++
        js "- Propiedades: " ++ ofZ (Z.of_nat properties) ++ nl ++
        js "- Inquilinos: " ++ ofZ (Z.of_nat tenants) ++ nl ++
        js "- Errores de validación: " ++ ofZ (Z.of_nat errors) ++ nl ++
        js "- Errores de integridad: " ++ ofZ (Z.of_nat integrity) ++ nl ++
        js "    ").

Section Clock.

(** Readings of the clock during one run: [Date.now()] while the
    property row, respectively the tenant row, of a given index is
    processed, and [new Date().toISOString().split('T')[0]] for a tenant
    row. *)
Variable propertyNow : Z -> Z.
Variable tenantNow : Z -> Z.
Variable tenantToday : Z -> jsstring.

Definition propertyStep (acc : rentAcc) (r : Row) (index : Z) : rentAcc :=
  if negb (validateExcelPropertyRow r) then
    mkRentAcc
      (rent_errors acc ++
         [mkRowError (index + 1) (js "propiedad") (js "Campos requeridos faltantes")])
      (rent_properties acc) (rent_tenants acc)
  else
    let name := trim (toString (jsOr (cell r "ｱﾊﾟｰﾄ") (cell r "物件名"))) in
    if eqb name [] then
      mkRentAcc
        (rent_errors acc ++
           [mkRowError (index + 1) (js "nombre") (js "Nombre de propiedad requerido")])
        (rent_properties acc) (rent_tenants acc)
    else
      mkRentAcc
        (rent_errors acc)
        (rent_properties acc ++
           [{| Property.id := propertyNow index + index;
               Property.name := name;
               Property.room_number := None;
               Property.postal_code := None;
               Property.address_auto :=
                 trim (toString (jsOr (cell r "住所") (JStr [])));
               Property.address_detail := None;
               Property.address :=
                 trim (toString (jsOr (cell r "住所") (JStr [])));
               Property.type := js "1K";
               Property.capacity := intCell (cell r "入居人数") 2;
               Property.rent_cost := intCell (cell r "家賃") 0;
               Property.rent_price_uns := intCell (cell r "USN家賃") 0;
               Property.parking_cost := intCell (cell r "駐車場代") 0;
               Property.manager_name := None;
               Property.manager_phone := None;
               Property.contract_start := stringOr (cell r "契約開始日") [];
               Property.contract_end := Some (stringOr (cell r "契約終了") []) |}])
        (rent_tenants acc).

(** [properties.find(p => p.name === apt)] *)
Definition findByName (properties : list Property.t) (apt : jsstring)
  : option Property.t :=
  find (fun p => eqb (Property.name p) apt) properties.

Definition tenantStep (acc : rentAcc) (r : Row) (index : Z) : rentAcc :=
  if negb (validateExcelTenantRow r) then
    mkRentAcc
      (rent_errors acc ++
         [mkRowError (index + 1) (js "inquilino") (js "Campos requeridos faltantes")])
      (rent_properties acc) (rent_tenants acc)
  else
    let apt := trim (toString (cell r "ｱﾊﾟｰﾄ")) in
    let kana := trim (toString (cell r "カナ")) in
    if eqb apt [] || eqb kana [] then
      mkRentAcc
        (rent_errors acc ++
           [mkRowError (index + 1) (js "apt/kana") (js "Apartamento y Kana requeridos")])
        (rent_properties acc) (rent_tenants acc)
    else
      match findByName (rent_properties acc) apt with
      | None =>
          mkRentAcc
            (rent_errors acc ++
               [mkRowError (index + 1) (js "apartamento") (notFoundMessage apt)])
            (rent_properties acc) (rent_tenants acc)
      | Some prop =>
          mkRentAcc
            (rent_errors acc)
            (rent_properties acc)
            (rent_tenants acc ++
               [{| Tenant.id := tenantNow index + index;
                   Tenant.employee_id := js "IMP-" ++ ofZ index;
                   Tenant.name := kana;
                   Tenant.name_kana := kana;
                   Tenant.property_id := Property.id prop;
                   Tenant.rent_contribution := intCell (cell r "家賃") 0;
                   Tenant.parking_fee := intCell (cell r "駐車場") 0;
                   Tenant.entry_date :=
                     stringOr (cell r "入居") (tenantToday index);
                   Tenant.status := active |}])
      end.

Definition processRentImport (workbook : Workbook)
    (sheetNames : list jsstring) : ImportResult :=
  let acc := mkRentAcc [] [] [] in
  let acc :=
    match find isPropertySheet sheetNames with
    | Some propSheet =>
        forEach propertyStep (sheet_to_json workbook propSheet) acc
    | None => acc
    end in
  let acc :=
    match find isTenantSheet sheetNames with
    | Some tenantSheet =>
        forEach tenantStep (sheet_to_json workbook tenantSheet) acc
    | None => acc
    end in
  let integrityCheck :=
    Integrity.validateDataIntegrity (rent_properties acc) (rent_tenants acc) in
  mkResult
    ((length (rent_errors acc) =? 0)%nat && Integrity.valid integrityCheck)
    (Some rent_management)
    (Some (mkData (Some (rent_properties acc)) (Some (rent_tenants acc)) None))
    (rent_errors acc ++
       mapiFrom
         (fun e i => mkRowError i (Integrity.type e) (Integrity.message e))
         0 (Integrity.errors integrityCheck))
    (rentSummary (length (rent_properties acc)) (length (rent_tenants acc))
       (length (rent_errors acc))
       (length (Integrity.errors integrityCheck))).

(** *** processFile *)

(** What is thrown inside the [try] block before the sheets are
    classified: an [Error] with its message, or some other value. *)
Inductive thrown : Type :=
| ErrorObject (message : jsstring)
| OtherValue.

(** The file as [processFile] meets it: whether [window.XLSX] is
    present, and whether reading the bytes into a workbook threw. *)
Record File : Type := mkFile {
  XLSX_loaded : bool;
  read : thrown + Workbook;
}.

Definition caught (e : thrown) : ImportResult :=
  mkResult false None None []
    (js "Error: " ++
     match e with
     | ErrorObject m => m
     | OtherValue => js "Error desconocido"
     end).

Definition processFile (file : File) : ImportResult :=
  if negb (XLSX_loaded file) then
    caught (ErrorObject (js "Librería XLSX no cargada"))
  else
    match read file with
    | inl e => caught e
    | inr workbook =>
        let sheetNames := SheetNames workbook in
        let hasEmployees := existsb isEmployeeSheet sheetNames in
        let hasProperties := existsb isPropertySheet sheetNames in
        let hasTenants := existsb isTenantSheet sheetNames in
        if hasEmployees then processEmployeeImport workbook sheetNames
        else if hasProperties || hasTenants then
          processRentImport workbook sheetNames
        else
          mkResult false None None []
            (js "No se detectó formato válido de importación")
    end.

End Clock.

End ExcelImport.

(** ** Dates *)

(** Days from 1970-01-01 to the given civil date (proleptic Gregorian). *)
Definition daysFromCivil (y m d : Z) : Z :=
  let y' := if m <=? 2 then y - 1 else y in
  let era := y' / 400 in
  let yoe := y' - era * 400 in
  let doy := (153 * (if m >? 2 then m - 3 else m + 9) + 2) / 5 + d - 1 in
  let doe := yoe * 365 + yoe / 4 - yoe / 100 + doy in
  era * 146097 + doe - 719468.

Definition daysInMonth (y m : Z) : Z :=
  if m =? 2 then
    if ((y mod 4 =? 0) && negb (y mod 100 =? 0)) || (y mod 400 =? 0) then 29 else 28
  else if (m =? 4) || (m =? 6) || (m =? 9) || (m =? 11) then 30 else 31.

Definition decimalDigit (c : N) : option Z := digitValue 10 c.

(** The date-only form YYYY-MM-DD of the ECMAScript date-time string
    format, read as UTC midnight in milliseconds since the epoch; every
    other string is left unparsed.  This is one instance of the parser
    argument of the definitions below, used to run them on examples. *)
Definition parseDateOnly (s : jsstring) : option Z :=
  match s with
  | [y1; y2; y3; y4; 45%N; m1; m2; 45%N; d1; d2] =>
      match decimalDigit y1, decimalDigit y2, decimalDigit y3, decimalDigit y4,
            decimalDigit m1, decimalDigit m2, decimalDigit d1, decimalDigit d2 with
      | Some a, Some b, Some c, Some d, Some e, Some f, Some g, Some h =>
          let y := 1000 * a + 100 * b + 10 * c + d in
          let m := 10 * e + f in
          let dd := 10 * g + h in
          if (1 <=? m) && (m <=? 12) && (1 <=? dd) && (dd <=? daysInMonth y m)
          then Some (daysFromCivil y m dd * 86400000)
          else None
      | _, _, _, _, _, _, _, _ => None
      end
  | _ => None
  end.

Section Dates.

(** [new Date(s).getTime()]: the time value in milliseconds, [None] for an
    Invalid Date (whose time value is NaN). *)
Variable Date_parse : jsstring -> option Z.

(** [new Date().getTime()], the same instant for all readings within one
    evaluation. *)
Variable now : Z.

(** [!p.contract_end] *)
Definition noContractEnd (p : Property.t) : bool :=
  match Property.contract_end p with
  | None => true
  | Some s => eqb s []
  end.

(** [new Date(s) > new Date()]; a comparison with NaN is false. *)
Definition dateAfterNow (s : jsstring) : bool :=
  match Date_parse s with
  | Some t => t >? now
  | None => false
  end.

(** utils: isPropertyActive *)
Definition isPropertyActive (p : Property.t) : bool :=
  if noContractEnd p then true
  else
    let d := Date_parse (default [] (Property.contract_end p)) in
    match d with
    | None => true
    | Some t => t >? now
    end.

(** useDatabase: getPropertiesByStatus *)
Definition getPropertiesByStatus (db : Database.t) (wantActive : bool)
  : list Property.t :=
  List.filter
    (fun p =>
       if noContractEnd p then wantActive
       else
         let isActive := dateAfterNow (default [] (Property.contract_end p)) in
         if wantActive then isActive else negb isActive)
    (Database.properties db).

End Dates.

(** ** Dashboard metrics (components/dashboard/Dashboard.tsx) *)

Module Dashboard.

Inductive alertType : Type := warning | danger.
Inductive severityLevel : Type := low | medium | high.

Record AlertItem : Type := mkAlert {
  type : alertType;
  msg : jsstring;
  severity : option severityLevel;
  timestamp : option jsstring;
}.

(** The quotient [occupancyRate] is a floating-point computation and is
    not part of this record. *)
Record DashboardMetrics : Type := mkMetrics {
  totalProperties : Z;
  occupiedCount : Z;
  totalCapacity : Z;
  profit : Z;
  totalCollected : Z;
  totalPropCost : Z;
  totalTargetUNS : Z;
  alerts : list AlertItem;
}.

(** [array.reduce((acc, x) => acc + f(x), 0)] *)
Definition sumBy {A : Type} (f : A -> Z) (l : list A) : Z :=
  fold_left (fun acc x => acc + f x) l 0.

Definition isAlertType (k : alertType) (a : AlertItem) : bool :=
  match k, type a with
  | warning, warning | danger, danger => true
  | _, _ => false
  end.

(** [Math.ceil(diffTime / (1000 * 60 * 60 * 24))] for [diffTime >= 0]. *)
Definition ceilDays (diffTime : Z) : Z :=
  (diffTime + (1000 * 60 * 60 * 24 - 1)) / (1000 * 60 * 60 * 24).

Definition zeroRentTenants (db : Database.t) : list Tenant.t :=
  List.filter
    (fun t => Status_eqb (Tenant.status t) active
              && (Tenant.rent_contribution t =? 0))
    (Database.tenants db).

(** The danger alert, with its reading of [new Date().toISOString()]. *)
Definition zeroRentAlert (nowISO : jsstring) (n : Z) : AlertItem :=
  mkAlert danger
    (js "⚠️ " ++ ofZ n ++ js " inquilino(s) sin renta configurada")
    (Some high) (Some nowISO).

(** The body of [metrics] after the filter and the [forEach], the only
    places that read the clock against a contract: [activeProps] is the
    result of the filter, [expiry] the alerts after the [forEach], and
    [dangerStamp] the reading of [new Date().toISOString()] for the danger
    alert.  [t.property_id !== null] holds of every tenant of the store type
    and is left out of [occupiedCount]. *)
Definition metricsOf (activeProps : list Property.t) (expiry : list AlertItem)
    (dangerStamp : jsstring) (db : Database.t) : DashboardMetrics :=
  let totalProperties := Z.of_nat (length activeProps) in
  let occupiedCount :=
    Z.of_nat (length (List.filter
      (fun t => Status_eqb (Tenant.status t) active) (Database.tenants db))) in
  let totalCapacity :=
    sumBy (fun b => numOr (Fin (Property.capacity b)) 0) activeProps in
  let totalRentCollected :=
    sumBy (fun t => match Tenant.status t with
                    | active => Tenant.rent_contribution t
                    | inactive => 0
                    end) (Database.tenants db) in
  let totalParkingCollected :=
    sumBy (fun t => match Tenant.status t with
                    | active => Tenant.parking_fee t
                    | inactive => 0
                    end) (Database.tenants db) in
  let totalCollected := totalRentCollected + totalParkingCollected in
  let totalPropCost :=
    fold_left
      (fun acc p => acc + numOr (Fin (Property.rent_cost p)) 0
                        + numOr (Fin (Property.parking_cost p)) 0)
      activeProps 0 in
  let totalTargetUNS :=
    sumBy (fun p => numOr (Fin (Property.rent_price_uns p)) 0) activeProps in
  let profit := totalCollected - totalPropCost in
  let alerts := expiry in
  let zeroRent := zeroRentTenants db in
  let alerts :=
    if Z.of_nat (length zeroRent) >? 0
    then alerts ++ [zeroRentAlert dangerStamp (Z.of_nat (length zeroRent))]
    else alerts in
  mkMetrics totalProperties occupiedCount totalCapacity profit
    totalCollected totalPropCost totalTargetUNS alerts.

(** [array.filter((x, i) => f(x, i))], the indices counted from [i]. *)
Fixpoint filterFrom {A : Type} (f : A -> Z -> bool) (i : Z) (l : list A)
  : list A :=
  match l with
  | [] => []
  | x :: r =>
      if f x i then x :: filterFrom f (i + 1) r else filterFrom f (i + 1) r
  end.

(** *** The metrics with every reading of the clock *)

Section Readings.

Variable Date_parse : jsstring -> option Z.

(** The readings of the clock during one evaluation of the metrics:
    [filterNow i] is the [new Date()] of the filter for the property at
    index [i]; [today] is the [new Date()] read once before the alerts are
    built; [stamp k] is the [new Date().toISOString()] of the warning for
    the active property at index [k]; [dangerStamp] is that of the danger
    alert. *)
Variable filterNow : Z -> Z.
Variable today : Z.
Variable stamp : Z -> jsstring.
Variable dangerStamp : jsstring.

Definition activePropsAt (db : Database.t) : list Property.t :=
  filterFrom
    (fun p i =>
       noContractEnd p
       || dateAfterNow Date_parse (filterNow i)
            (default [] (Property.contract_end p)))
    0 (Database.properties db).

(** Body of [activeProps.forEach] that pushes the expiry warnings. *)
Definition contractStepAt (alerts : list AlertItem) (p : Property.t) (k : Z)
  : list AlertItem :=
  if noContractEnd p then alerts
  else
    match Date_parse (default [] (Property.contract_end p)) with
    | None => alerts
    | Some endDate =>
        let diffTime := Z.abs (endDate - today) in
        let diffDays := ceilDays diffTime in
        if diffDays <=? 60 then
          alerts ++
            [mkAlert warning
               (js "📋 Contrato de " ++ Property.name p ++ js " vence en " ++
                ofZ diffDays ++ js " días")
               (Some (if diffDays <=? 30 then high else medium))
               (Some (stamp k))]
        else alerts
    end.

Definition metricsAt (db : Database.t) : DashboardMetrics :=
  let activeProps := activePropsAt db in
  metricsOf activeProps (ExcelImport.forEach contractStepAt activeProps [])
    dangerStamp db.

End Readings.

(** *** The metrics when the clock reads the same instant throughout *)

Section Metrics.

Variable Date_parse : jsstring -> option Z.
Variable now : Z.
(** [new Date().toISOString()] *)
Variable nowISO : jsstring.

Definition activeProps (db : Database.t) : list Property.t :=
  List.filter
    (fun p =>
       noContractEnd p
       || dateAfterNow Date_parse now (default [] (Property.contract_end p)))
    (Database.properties db).

(** Body of [activeProps.forEach] that pushes the expiry warnings. *)
Definition contractStep (alerts : list AlertItem) (p : Property.t)
  : list AlertItem :=
  if noContractEnd p then alerts
  else
    match Date_parse (default [] (Property.contract_end p)) with
    | None => alerts
    | Some endDate =>
        let diffTime := Z.abs (endDate - now) in
        let diffDays := ceilDays diffTime in
        if diffDays <=? 60 then
          alerts ++
            [mkAlert warning
               (js "📋 Contrato de " ++ Property.name p ++ js " vence en " ++
                ofZ diffDays ++ js " días")
               (Some (if diffDays <=? 30 then high else medium))
               (Some nowISO)]
        else alerts
    end.

Definition metrics (db : Database.t) : DashboardMetrics :=
  let activeProps := activeProps db in
  metricsOf activeProps (fold_left contractStep activeProps []) nowISO db.

End Metrics.

End Dashboard.

(** ** The store and its mutators (hooks/useDatabase.ts) *)

Module Store.

Record fieldError : Type := mkFieldError {
  field : jsstring;
  message : jsstring;
}.

(** What a mutator returns: [{ success }], with [error], [errors] or
    [count] when the source gives them. *)
Record response : Type := mkResponse {
  success : bool;
  error : option jsstring;
  errors : option (list fieldError);
  count : option Z;
}.

Definition setProperties (db : Database.t) (ps : list Property.t) : Database.t :=
  Database.mk ps (Database.tenants db) (Database.employees db)
    (Database.config db) (Database.version db) (Database.last_sync db).

Definition setTenants (db : Database.t) (ts : list Tenant.t) : Database.t :=
  Database.mk (Database.properties db) ts (Database.employees db)
    (Database.config db) (Database.version db) (Database.last_sync db).

Definition setEmployees (db : Database.t) (es : list Employee.t) : Database.t :=
  Database.mk (Database.properties db) (Database.tenants db) es
    (Database.config db) (Database.version db) (Database.last_sync db).

(** [{ ...tenant, id }] *)
Definition withId (tenant : Tenant.t) (id : Z) : Tenant.t :=
  Tenant.mk id (Tenant.employee_id tenant) (Tenant.name tenant)
    (Tenant.name_kana tenant) (Tenant.property_id tenant)
    (Tenant.rent_contribution tenant) (Tenant.parking_fee tenant)
    (Tenant.entry_date tenant) (Tenant.status tenant).

(** *** deleteProperty *)

Definition deleteProperty (db : Database.t) (id : Z) : response * Database.t :=
  (mkResponse true None None None,
   Database.mk
     (List.filter (fun p => negb (Property.id p =? id)) (Database.properties db))
     (List.filter (fun t => negb (Tenant.property_id t =? id)) (Database.tenants db))
     (Database.employees db) (Database.config db)
     (Database.version db) (Database.last_sync db)).

(** *** addEmployees *)

(** [prev.employees.find(e => e.id === emp.id)] *)
Definition findEmployee (employees : list Employee.t) (emp : Employee.t)
  : option Employee.t :=
  find (fun e => eqb (Employee.id e) (Employee.id emp)) employees.

Definition addEmployees (db : Database.t) (employees : list Employee.t)
  : response * Database.t :=
  (mkResponse true None None (Some (Z.of_nat (length employees))),
   setEmployees db
     (Database.employees db ++
      List.filter
        (fun emp =>
           match findEmployee (Database.employees db) emp with
           | Some _ => false
           | None => true
           end)
        employees)).

(** *** getTenantsByProperty *)

Definition getTenantsByProperty (db : Database.t) (propertyId : Z)
    (activeOnly : bool) : list Tenant.t :=
  List.filter
    (fun t => (Tenant.property_id t =? propertyId)
              && (negb activeOnly || Status_eqb (Tenant.status t) active))
    (Database.tenants db).

(** *** validateTenant and addTenant *)

Section Zod.

(** Of the zod library: the format check of [z.string().datetime()] and
    the default messages of the two checks that are given none. *)
Variable isDatetime : jsstring -> bool.
Variable tooBigMessage : jsstring.
Variable datetimeMessage : jsstring.

Definition issueIf (failed : bool) (field message : jsstring)
  : list fieldError :=
  if failed then [mkFieldError field message] else [].

(** The issues of [TenantSchema.parse], in the order of the schema. *)
Definition TenantSchema_issues (t : Tenant.t) : list fieldError :=
  issueIf (length (Tenant.employee_id t) <? 1)%nat
    (js "employee_id") (js "ID empleado requerido") ++
  issueIf (50 <? length (Tenant.employee_id t))%nat
    (js "employee_id") tooBigMessage ++
  issueIf (length (Tenant.name t) <? 1)%nat
    (js "name") (js "Nombre requerido") ++
  issueIf (length (Tenant.name_kana t) <? 1)%nat
    (js "name_kana") (js "Nombre en Kana requerido") ++
  issueIf (negb (Tenant.property_id t >? 0))
    (js "property_id") (js "ID propiedad inválido") ++
  issueIf (Tenant.rent_contribution t <? 0)
    (js "rent_contribution") (js "Renta no puede ser negativa") ++
  issueIf (Tenant.parking_fee t <? 0)
    (js "parking_fee") (js "Parking no puede ser negativo") ++
  issueIf (negb (isDatetime (Tenant.entry_date t)))
    (js "entry_date") datetimeMessage.

Record validation : Type := mkValidation {
  v_success : bool;
  v_errors : list fieldError;
}.

Definition validateTenant (t : Tenant.t) : validation :=
  match TenantSchema_issues t with
  | [] => mkValidation true []
  | issues => mkValidation false issues
  end.

(** [db.tenants.find(t => t.employee_id === tenant.employee_id &&
    t.status === 'active')] *)
Definition findActiveByEmployee (tenants : list Tenant.t) (tenant : Tenant.t)
  : option Tenant.t :=
  find (fun t => eqb (Tenant.employee_id t) (Tenant.employee_id tenant)
                 && Status_eqb (Tenant.status t) active) tenants.

(** [tenant] is the argument of type [Omit<Tenant, 'id'>]: its [id] is
    not read.  [db] is the store of the render in which the callback was
    created: the guards read [db.properties] and [db.tenants] of that
    closure.  [prev] is the latest store, to which [setDb(prev => ...)]
    applies the append; it is [db] unless the store has been written since
    that render.  [nowValidate] and [nowInsert] are the two readings of
    [Date.now()]. *)
Definition addTenant (db prev : Database.t) (nowValidate nowInsert : Z)
    (tenant : Tenant.t) : response * Database.t :=
  match find (fun p => Property.id p =? Tenant.property_id tenant)
             (Database.properties db) with
  | None => (mkResponse false (Some (js "Propiedad no existe")) None None, prev)
  | Some _ =>
      match findActiveByEmployee (Database.tenants db) tenant with
      | Some _ =>
          (mkResponse false (Some (js "ID empleado ya asignado")) None None, prev)
      | None =>
          let validation := validateTenant (withId tenant nowValidate) in
          if negb (v_success validation) then
            (mkResponse false None (Some (v_errors validation)) None, prev)
          else
            (mkResponse true None None None,
             setTenants prev (Database.tenants prev ++ [withId tenant nowInsert]))
      end
  end.

End Zod.

End Store.

(** ** Rent allocation *)

Module RentAllocation.

Definition setRent (t : Tenant.t) (amount : Z) : Tenant.t :=
  Tenant.mk (Tenant.id t) (Tenant.employee_id t) (Tenant.name t)
    (Tenant.name_kana t) (Tenant.property_id t) amount
    (Tenant.parking_fee t) (Tenant.entry_date t) (Tenant.status t).

(** Modelled from the spec: the function behind [onDistributeEvenly] is
    not among the sources (RentManager only declares the callback and
    calls it with the property id).  Following the specification: with
    the property's [rent_price_uns] and its active tenants in store order,
    [base] is the floor of the quotient and [remainder] the rest; the
    first tenant is assigned [base + remainder], every other one [base];
    with no active tenant nothing is distributed and an error is
    reported ([None]). *)
Definition distributeEvenly (property : Property.t)
    (activeTenants : list Tenant.t) : option (list Tenant.t) :=
  match activeTenants with
  | [] => None
  | first :: others =>
      let tenantCount := Z.of_nat (length activeTenants) in
      let base := Property.rent_price_uns property / tenantCount in
      let remainder := Property.rent_price_uns property mod tenantCount in
      Some (setRent first (base + remainder)
            :: map (fun t => setRent t base) others)
  end.

Definition assigned (ts : list Tenant.t) : list Z :=
  map Tenant.rent_contribution ts.

End RentAllocation.

(** ** Entity schemas (validators.ts) *)

Module Validators.
Import Store.

(** [\d] *)
Definition isDigit (c : N) : bool := ((48 <=? c) && (c <=? 57))%N.

(** [/^\d{3}-?\d{4}$/.test(s)] *)
Definition isPostalCode (s : jsstring) : bool :=
  match s with
  | [_; _; _; _; _; _; _] => forallb isDigit s
  | [a; b; c; h; d; e; f; g] =>
      forallb isDigit [a; b; c] && (h =? 45)%N && forallb isDigit [d; e; f; g]
  | _ => false
  end.

(** [/^\d{10,11}$/.test(s)] *)
Definition isPhone (s : jsstring) : bool :=
  ((length s =? 10)%nat || (length s =? 11)%nat) && forallb isDigit s.

(** An optional key of a schema: absent, it raises no issue. *)
Definition optionalIssue {A : Type} (check : A -> list fieldError) (v : option A)
  : list fieldError :=
  match v with
  | Some x => check x
  | None => []
  end.

Definition validationOf (issues : list fieldError) : validation :=
  match issues with
  | [] => mkValidation true []
  | _ => mkValidation false issues
  end.

Section Zod.

(** Of the zod library: the format check of [z.string().datetime()] and the
    default messages of the checks that are given none. *)
Variable isDatetime : jsstring -> bool.
Variable tooBigMessage : jsstring.
Variable tooBigNumberMessage : jsstring.
Variable datetimeMessage : jsstring.

(** The issues of [PropertySchema.parse], in the order of the schema. *)
Definition PropertySchema_issues (p : Property.t) : list fieldError :=
  issueIf (length (Property.name p) <? 2)%nat
    (js "name") (js "Nombre debe tener al menos 2 caracteres") ++
  issueIf (100 <? length (Property.name p))%nat
    (js "name") tooBigMessage ++
  optionalIssue
    (fun s => issueIf (negb (isPostalCode s))
                (js "postal_code") (js "Código postal inválido (formato: 123-4567)"))
    (Property.postal_code p) ++
  issueIf (length (Property.address p) <? 5)%nat
    (js "address") (js "Dirección debe tener al menos 5 caracteres") ++
  issueIf (Property.capacity p <? 1)
    (js "capacity") (js "Capacidad mínima: 1") ++
  issueIf (20 <? Property.capacity p)
    (js "capacity") tooBigNumberMessage ++
  issueIf (Property.rent_cost p <? 0)
    (js "rent_cost") (js "Costo no puede ser negativo") ++
  issueIf (Property.rent_price_uns p <? 0)
    (js "rent_price_uns") (js "Precio UNS no puede ser negativo") ++
  issueIf (Property.parking_cost p <? 0)
    (js "parking_cost") (js "Costo parking no puede ser negativo") ++
  optionalIssue
    (fun s => issueIf (negb (isPhone s))
                (js "manager_phone") (js "Teléfono debe tener 10-11 dígitos"))
    (Property.manager_phone p) ++
  issueIf (negb (isDatetime (Property.contract_start p)))
    (js "contract_start") datetimeMessage ++
  optionalIssue
    (fun s => issueIf (negb (isDatetime s)) (js "contract_end") datetimeMessage)
    (Property.contract_end p).

Definition validateProperty (p : Property.t) : validation :=
  validationOf (PropertySchema_issues p).

(** The issues of [EmployeeSchema.parse]. *)
Definition EmployeeSchema_issues (e : Employee.t) : list fieldError :=
  issueIf (length (Employee.id e) <? 1)%nat
    (js "id") (js "ID requerido") ++
  issueIf (length (Employee.name e) <? 1)%nat
    (js "name") (js "Nombre requerido") ++
  issueIf (length (Employee.name_kana e) <? 1)%nat
    (js "name_kana") (js "Nombre kana requerido").

Definition validateEmployee (e : Employee.t) : validation :=
  validationOf (EmployeeSchema_issues e).

End Zod.

End Validators.

(** ** The other operations of the store (hooks/useDatabase.ts) *)

Module StoreCrud.
Import Store Validators.

(** [Partial<Property>]: [None] is a key that the update does not carry. *)
Record PartialProperty : Type := mkPartialProperty {
  pp_id : option Z;
  pp_name : option jsstring;
  pp_room_number : option (option jsstring);
  pp_postal_code : option (option jsstring);
  pp_address_auto : option jsstring;
  pp_address_detail : option (option jsstring);
  pp_address : option jsstring;
  pp_type : option jsstring;
  pp_capacity : option Z;
  pp_rent_cost : option Z;
  pp_rent_price_uns : option Z;
  pp_parking_cost : option Z;
  pp_manager_name : option (option jsstring);
  pp_manager_phone : option (option jsstring);
  pp_contract_start : option jsstring;
  pp_contract_end : option (option jsstring);
}.

(** [{ ...existing, ...updates }] *)
Definition mergeProperty (existing : Property.t) (updates : PartialProperty)
  : Property.t :=
  {| Property.id := default (Property.id existing) (pp_id updates);
     Property.name := default (Property.name existing) (pp_name updates);
     Property.room_number :=
       default (Property.room_number existing) (pp_room_number updates);
     Property.postal_code :=
       default (Property.postal_code existing) (pp_postal_code updates);
     Property.address_auto :=
       default (Property.address_auto existing) (pp_address_auto updates);
     Property.address_detail :=
       default (Property.address_detail existing) (pp_address_detail updates);
     Property.address := default (Property.address existing) (pp_address updates);
     Property.type := default (Property.type existing) (pp_type updates);
     Property.capacity := default (Property.capacity existing) (pp_capacity updates);
     Property.rent_cost := default (Property.rent_cost existing) (pp_rent_cost updates);
     Property.rent_price_uns :=
       default (Property.rent_price_uns existing) (pp_rent_price_uns updates);
     Property.parking_cost :=
       default (Property.parking_cost existing) (pp_parking_cost updates);
     Property.manager_name :=
       default (Property.manager_name existing) (pp_manager_name updates);
     Property.manager_phone :=
       default (Property.manager_phone existing) (pp_manager_phone updates);
     Property.contract_start :=
       default (Property.contract_start existing) (pp_contract_start updates);
     Property.contract_end :=
       default (Property.contract_end existing) (pp_contract_end updates) |}.

(** [Partial<Tenant>] *)
Record PartialTenant : Type := mkPartialTenant {
  pt_id : option Z;
  pt_employee_id : option jsstring;
  pt_name : option jsstring;
  pt_name_kana : option jsstring;
  pt_property_id : option Z;
  pt_rent_contribution : option Z;
  pt_parking_fee : option Z;
  pt_entry_date : option jsstring;
  pt_status : option Status;
}.

Definition mergeTenant (existing : Tenant.t) (updates : PartialTenant) : Tenant.t :=
  {| Tenant.id := default (Tenant.id existing) (pt_id updates);
     Tenant.employee_id :=
       default (Tenant.employee_id existing) (pt_employee_id updates);
     Tenant.name := default (Tenant.name existing) (pt_name updates);
     Tenant.name_kana := default (Tenant.name_kana existing) (pt_name_kana updates);
     Tenant.property_id :=
       default (Tenant.property_id existing) (pt_property_id updates);
     Tenant.rent_contribution :=
       default (Tenant.rent_contribution existing) (pt_rent_contribution updates);
     Tenant.parking_fee :=
       default (Tenant.parking_fee existing) (pt_parking_fee updates);
     Tenant.entry_date := default (Tenant.entry_date existing) (pt_entry_date updates);
     Tenant.status := default (Tenant.status existing) (pt_status updates) |}.

(** [Partial<Employee>] *)
Record PartialEmployee : Type := mkPartialEmployee {
  pe_id : option jsstring;
  pe_name : option jsstring;
  pe_name_kana : option jsstring;
  pe_company : option jsstring;
  pe_full_data : option (option Row);
}.

Definition mergeEmployee (existing : Employee.t) (updates : PartialEmployee)
  : Employee.t :=
  {| Employee.id := default (Employee.id existing) (pe_id updates);
     Employee.name := default (Employee.name existing) (pe_name updates);
     Employee.name_kana :=
       default (Employee.name_kana existing) (pe_name_kana updates);
     Employee.company := default (Employee.company existing) (pe_company updates);
     Employee.full_data :=
       default (Employee.full_data existing) (pe_full_data updates) |}.

(** [Partial<Config>] *)
Record PartialConfig : Type := mkPartialConfig {
  pc_companyName : option jsstring;
  pc_closingDay : option Z;
}.

Definition setConfig (db : Database.t) (c : Config.t) : Database.t :=
  Database.mk (Database.properties db) (Database.tenants db)
    (Database.employees db) c (Database.version db) (Database.last_sync db).

(** [{ ...property, id }] *)
Definition withPropertyId (p : Property.t) (id : Z) : Property.t :=
  {| Property.id := id; Property.name := Property.name p;
     Property.room_number := Property.room_number p;
     Property.postal_code := Property.postal_code p;
     Property.address_auto := Property.address_auto p;
     Property.address_detail := Property.address_detail p;
     Property.address := Property.address p;
     Property.type := Property.type p; Property.capacity := Property.capacity p;
     Property.rent_cost := Property.rent_cost p;
     Property.rent_price_uns := Property.rent_price_uns p;
     Property.parking_cost := Property.parking_cost p;
     Property.manager_name := Property.manager_name p;
     Property.manager_phone := Property.manager_phone p;
     Property.contract_start := Property.contract_start p;
     Property.contract_end := Property.contract_end p |}.

(** [list.map(x => key(x) === id ? updated : x)] *)
Definition replaceWhere {A : Type} (hit : A -> bool) (updated : A) (l : list A)
  : list A :=
  map (fun x => if hit x then updated else x) l.

Definition okResponse : response := mkResponse true None None None.

Definition failed (message : string) : response :=
  mkResponse false (Some (js message)) None None.

Definition invalid (v : validation) : response :=
  mkResponse false None (Some (v_errors v)) None.

(** *** Queries *)

Definition getProperty (db : Database.t) (id : Z) : option Property.t :=
  find (fun p => Property.id p =? id) (Database.properties db).

Definition getEmployeeById (db : Database.t) (id : jsstring) : option Employee.t :=
  find (fun e => eqb (Employee.id e) id) (Database.employees db).

(** *** deleteTenant and updateConfig *)

Definition deleteTenant (db : Database.t) (id : Z) : response * Database.t :=
  (okResponse,
   setTenants db
     (List.filter (fun t => negb (Tenant.id t =? id)) (Database.tenants db))).

Definition updateConfig (db : Database.t) (config : PartialConfig)
  : response * Database.t :=
  (okResponse,
   setConfig db
     {| Config.companyName :=
          default (Config.companyName (Database.config db)) (pc_companyName config);
        Config.closingDay :=
          default (Config.closingDay (Database.config db)) (pc_closingDay config) |}).

Section Zod.

Variable isDatetime : jsstring -> bool.
Variable tooBigMessage : jsstring.
Variable tooBigNumberMessage : jsstring.
Variable datetimeMessage : jsstring.

(** *** addProperty and updateProperty *)

(** [property] is the argument of type [Omit<Property, 'id'>]: its [id] is
    not read.  [nowValidate] and [nowInsert] are the two readings of
    [Date.now()]. *)
Definition addProperty (db : Database.t) (nowValidate nowInsert : Z)
    (property : Property.t) : response * Database.t :=
  let validation :=
    validateProperty isDatetime tooBigMessage tooBigNumberMessage datetimeMessage
      (withPropertyId property nowValidate) in
  if negb (v_success validation) then (invalid validation, db)
  else
    (okResponse,
     setProperties db
       (Database.properties db ++ [withPropertyId property nowInsert])).

Definition updateProperty (db : Database.t) (id : Z) (updates : PartialProperty)
  : response * Database.t :=
  match find (fun p => Property.id p =? id) (Database.properties db) with
  | None => (failed "Propiedad no encontrada", db)
  | Some existing =>
      let updated := mergeProperty existing updates in
      let validation :=
        validateProperty isDatetime tooBigMessage tooBigNumberMessage
          datetimeMessage updated in
      if negb (v_success validation) then (invalid validation, db)
      else
        (okResponse,
         setProperties db
           (replaceWhere (fun p => Property.id p =? id) updated
              (Database.properties db)))
  end.

(** *** updateTenant *)

Definition updateTenant (db : Database.t) (id : Z) (updates : PartialTenant)
  : response * Database.t :=
  match find (fun t => Tenant.id t =? id) (Database.tenants db) with
  | None => (failed "Inquilino no encontrado", db)
  | Some existing =>
      let updated := mergeTenant existing updates in
      let validation :=
        validateTenant isDatetime tooBigMessage datetimeMessage updated in
      if negb (v_success validation) then (invalid validation, db)
      else
        (okResponse,
         setTenants db
           (replaceWhere (fun t => Tenant.id t =? id) updated
              (Database.tenants db)))
  end.

(** *** updateEmployee *)

Definition updateEmployee (db : Database.t) (id : jsstring)
    (updates : PartialEmployee) : response * Database.t :=
  match find (fun e => eqb (Employee.id e) id) (Database.employees db) with
  | None => (failed "Empleado no encontrado", db)
  | Some existing =>
      let updated := mergeEmployee existing updates in
      let validation := validateEmployee updated in
      if negb (v_success validation) then (invalid validation, db)
      else
        (okResponse,
         setEmployees db
           (replaceWhere (fun e => eqb (Employee.id e) id) updated
              (Database.employees db)))
  end.

End Zod.

End StoreCrud.

(** ** Property helpers (extractArea) *)

Module PropertyUtils.
Import Validators.

(** U+3012, the postal mark. *)
Definition postalMark : N := 12306%N.

(** Leading [\s*]: the white space is skipped as far as it goes. *)
Definition skipSpaces (s : jsstring) : jsstring := trimStart s.

(** [n] digits at the head of [s], and what follows them. *)
Fixpoint takeDigits (n : nat) (s : jsstring) : option jsstring :=
  match n with
  | O => Some s
  | S k =>
      match s with
      | c :: r => if isDigit c then takeDigits k r else None
      | [] => None
      end
  end.

(** A match of [/〒?\s*\d{3}-?\d{4}\s*/] anchored at the head of [s]: what is
    left of [s] after the match.  Each greedy choice of the pattern is the
    only one that can succeed, so there is no other way to match. *)
Definition postalAtHead (s : jsstring) : option jsstring :=
  let s1 := match s with
            | c :: r => if (c =? postalMark)%N then r else s
            | [] => s
            end in
  match takeDigits 3 (skipSpaces s1) with
  | None => None
  | Some s2 =>
      let s3 := match s2 with
                | c :: r => if (c =? 45)%N then r else s2
                | [] => s2
                end in
      match takeDigits 4 s3 with
      | None => None
      | Some s4 => Some (skipSpaces s4)
      end
  end.

(** [address.replace(/〒?\s*\d{3}-?\d{4}\s*/, '')]: the leftmost match is
    removed. *)
Fixpoint removePostal (s : jsstring) : jsstring :=
  match postalAtHead s with
  | Some rest => rest
  | None =>
      match s with
      | [] => []
      | c :: r => c :: removePostal r
      end
  end.










End PropertyUtils.

(** ** Rent manager totals (components/properties/RentManager.tsx) *)

Module RentManager.

Record totals : Type := mkTotals {
  totalRent : Z;
  totalParking : Z;
  totalAll : Z;
}.

Definition computeTotals (tenants : list Tenant.t) : totals :=
  let totalRent :=
    fold_left (fun acc t => acc + numOr (Fin (Tenant.rent_contribution t)) 0)
      tenants 0 in
  let totalParking :=
    fold_left (fun acc t => acc + numOr (Fin (Tenant.parking_fee t)) 0)
      tenants 0 in
  mkTotals totalRent totalParking (totalRent + totalParking).

Definition isFull (property : Property.t) (tenants : list Tenant.t) : bool :=
  totalRent (computeTotals tenants) >=? Property.rent_price_uns property.

(** [tenants.filter(t => t.rent_contribution === 0).length], shown when
    [tenants.some(t => t.rent_contribution === 0)]. *)
Definition unconfigured (tenants : list Tenant.t) : option Z :=
  if existsb (fun t => Tenant.rent_contribution t =? 0) tenants
  then Some (Z.of_nat (length
         (List.filter (fun t => Tenant.rent_contribution t =? 0) tenants)))
  else None.

End RentManager.

(** ** Notifications (hooks/useNotifications.tsx) *)

Module Notifications.

Inductive ntype : Type := n_success | n_error | n_warning | n_info.

(** What the button of a notification runs: a callback of the caller, kept
    as a token, or the callback that [confirm] builds, which runs
    [onConfirm] and then removes the notification [id]. *)
Inductive callback : Type :=
  | Opaque (token : Z)
  | ConfirmThenRemove (onConfirm : Z) (id : jsstring).

Record Action : Type := mkAction {
  label : jsstring;
  onClick : callback;
}.

Record Notification : Type := mkNotification {
  id : jsstring;
  type : ntype;
  title : jsstring;
  message : jsstring;
  duration : option Z;
  action : option Action;
  timestamp : jsstring;
}.

(** The optional argument [options] of [notify]. *)
Record options : Type := mkOptions {
  o_duration : option Z;
  o_action : option Action;
}.

(** The state of the hook, [notifications] and [timeoutRefs.current], and
    the timers of the runtime that are set and have neither fired nor been
    cleared: handle to the id whose removal the timer runs. *)
Record state : Type := mkState {
  notifications : list Notification;
  timeoutRefs : gmap (list N) Z;
  pending : gmap Z (list N);
}.

Definition initial : state := mkState [] ∅ ∅.

(** What one call of [notify] reads from its environment: the id built from
    [Date.now()] and [Math.random()], the handle that [setTimeout] returns
    if it is called, and [new Date().toISOString()]. *)
Record tick : Type := mkTick {
  t_id : jsstring;
  t_handle : Z;
  t_iso : jsstring;
}.

(** [array.slice(0, n)] *)
Definition slice0 {A : Type} (l : list A) (n : Z) : list A :=
  if n <? 0 then firstn (Z.to_nat (Z.of_nat (length l) + n)) l
  else firstn (Z.to_nat n) l.

(** [options?.duration] and [options?.action] *)
Definition durationOf (o : option options) : option Z :=
  match o with Some x => o_duration x | None => None end.

Definition actionOf (o : option options) : option Action :=
  match o with Some x => o_action x | None => None end.

Definition removeNotification (st : state) (id : jsstring) : state :=
  let '(refs, timers) :=
    match timeoutRefs st !! id with
    | Some timeout =>
        if negb (timeout =? 0)
        then (delete id (timeoutRefs st), delete timeout (pending st))
        else (timeoutRefs st, pending st)
    | None => (timeoutRefs st, pending st)
    end in
  mkState
    (List.filter (fun n => negb (eqb (Notifications.id n) id)) (notifications st))
    refs timers.

Section Config.

Variable maxNotifications : Z.
Variable defaultDuration : Z.

Definition notify (st : state) (t : tick) (type : ntype)
    (title message : jsstring) (o : option options) : jsstring * state :=
  let id := t_id t in
  let duration := default defaultDuration (durationOf o) in
  let notification :=
    mkNotification id type title message
      (if duration >? 0 then Some duration else None)
      (actionOf o) (t_iso t) in
  let updated := notification :: notifications st in
  let shown := slice0 updated maxNotifications in
  if duration >? 0 then
    (id, mkState shown (<[id := t_handle t]> (timeoutRefs st))
           (<[t_handle t := id]> (pending st)))
  else (id, mkState shown (timeoutRefs st) (pending st)).

Definition success (st : state) (t : tick) (title message : jsstring)
    (o : option options) : jsstring * state :=
  notify st t n_success title message o.

Definition error (st : state) (t : tick) (title message : jsstring)
    (o : option options) : jsstring * state :=
  notify st t n_error title message
    (Some (mkOptions (Some (default 6000 (durationOf o))) (actionOf o))).

Definition warning (st : state) (t : tick) (title message : jsstring)
    (o : option options) : jsstring * state :=
  notify st t n_warning title message o.

Definition info (st : state) (t : tick) (title message : jsstring)
    (o : option options) : jsstring * state :=
  notify st t n_info title message o.

Definition validationError (st : state) (t : tick) (field message : jsstring)
  : jsstring * state :=
  error st t (js "Campo: " ++ field) message None.

(** The [id] of the pair that [loading] returns; its [remove] is
    [removeNotification] at that id. *)
Definition loading (st : state) (t : tick) (message : jsstring)
  : jsstring * state :=
  notify st t n_info (js "Procesando...") message
    (Some (mkOptions (Some (-1)) None)).

Definition confirm (st : state) (t : tick) (title message : jsstring)
    (onConfirm : Z) : state :=
  snd (notify st t n_warning title message
         (Some (mkOptions (Some (-1))
                  (Some (mkAction (js "Confirmar")
                           (ConfirmThenRemove onConfirm (t_id t))))))).

End Config.

(** The button of a notification is pressed. *)
Definition click (st : state) (n : Notification) : state :=
  match action n with
  | Some a =>
      match onClick a with
      | ConfirmThenRemove _ id => removeNotification st id
      | Opaque _ => st
      end
  | None => st
  end.

(** The timer with the given handle fires and runs its callback. *)
Definition fire (st : state) (handle : Z) : state :=
  match pending st !! handle with
  | Some id =>
      removeNotification
        (mkState (notifications st) (timeoutRefs st) (delete handle (pending st)))
        id
  | None => st
  end.

(** [clearTimeout] on every handle of [timeoutRefs]. *)
Definition clearTimers (refs : gmap (list N) Z) (timers : gmap Z (list N))
  : gmap Z (list N) :=
  map_fold (fun _ timeout acc => delete timeout acc) timers refs.

Definition clearAll (st : state) : state :=
  mkState [] ∅ (clearTimers (timeoutRefs st) (pending st)).

End Notifications.

(** ** The import view (components/import/ImportView.tsx) *)

Module ImportView.
Import ExcelImport.

Inductive status : Type :=
  | status_idle | status_loading | status_success | status_error.

Record view : Type := mkView {
  importStatus : status;
  importData : option importData;
  errors : list rowError;
  toasts : Notifications.state;
}.

(** [String.prototype.endsWith] *)
Definition endsWith (s suffix : jsstring) : bool :=
  startsWith (rev s) (rev suffix).

(** The hook is used with its default configuration. *)
Definition maxNotifications : Z := 5.
Definition defaultDuration : Z := 4000.

(** The panel with the button that runs [handleSync] is rendered. *)
Definition syncOffered (v : view) : bool :=
  match importStatus v, importData v with
  | status_success, Some _ => true
  | _, _ => false
  end.

Section Clock.

Variable propertyNow : Z -> Z.
Variable tenantNow : Z -> Z.
Variable tenantToday : Z -> jsstring.

(** [processFile] catches what is thrown while the file is read, so the
    [catch] of [processExcelFile] is not entered.  The three ticks are those
    of the notifications of the loader, of the outcome and of the warning. *)
Definition processExcelFile (v : view) (name : jsstring) (file : File)
    (tLoader tOutcome tWarning : Notifications.tick) : view :=
  if negb (endsWith name (js ".xlsx")) && negb (endsWith name (js ".xlsm")) then
    mkView (importStatus v) (importData v) (errors v)
      (snd (Notifications.error maxNotifications defaultDuration (toasts v)
              tOutcome (js "Formato inválido")
              (js "Solo se aceptan archivos .xlsx y .xlsm") None))
  else
    let '(loader, toasts1) :=
      Notifications.loading maxNotifications defaultDuration (toasts v)
        tLoader (js "Analizando archivo Excel...") in
    let result := processFile propertyNow tenantNow tenantToday file in
    let v2 :=
      match success result, data result with
      | true, Some d =>
          let toasts2 :=
            snd (Notifications.success maxNotifications defaultDuration toasts1
                   tOutcome (js "Archivo validado")
                   (js "Excel procesado correctamente") None) in
          let toasts3 :=
            if (0 <? length (ExcelImport.errors result))%nat then
              snd (Notifications.warning maxNotifications defaultDuration toasts2
                     tWarning (js "Validación parcial")
                     (ofZ (Z.of_nat (length (ExcelImport.errors result))) ++
                      js " advertencia(s) encontrada(s)")
                     (Some (Notifications.mkOptions (Some 6000) None)))
            else toasts2 in
          mkView status_success (Some d) (ExcelImport.errors result) toasts3
      | _, _ =>
          mkView status_error (importData v) (ExcelImport.errors result)
            (snd (Notifications.error maxNotifications defaultDuration toasts1
                    tOutcome (js "Error de validación") (summary result) None))
      end in
    mkView (importStatus v2) (importData v2) (errors v2)
      (Notifications.removeNotification (toasts v2) loader).

End Clock.

(** [handleSync]: the data handed to [onSyncSuccess], if any, and the view
    afterwards. *)
Definition handleSync (v : view) (t : Notifications.tick)
  : option ExcelImport.importData * view :=
  match importData v with
  | Some d =>
      (Some d,
       mkView status_idle None []
         (snd (Notifications.success maxNotifications defaultDuration (toasts v)
                 t (js "Sincronización exitosa")
                 (js "Datos importados correctamente") None)))
  | None => (None, v)
  end.

End ImportView.

(** * Notions used in the statements *)

Module Notions.
Import Integrity Store ExcelImport.

(** ** Referential integrity *)

(** The tenant's [property_id] is the id of no property of the set. *)
Definition unresolved (properties : list Property.t) (t : Tenant.t) : bool :=
  negb (existsb (fun p => Property.id p =? Tenant.property_id t) properties).

(** More active tenants point at the property than it has places. *)
Definition overCapacity (tenants : list Tenant.t) (p : Property.t) : bool :=
  tenantCount tenants p >? Property.capacity p.

(** ** The store *)

Definition ids (es : list Employee.t) : list jsstring := map Employee.id es.

(** The candidates that [addEmployees] appends. *)
Definition fresh (store : list Employee.t) (employees : list Employee.t)
  : list Employee.t :=
  List.filter
    (fun emp => match findEmployee store emp with Some _ => false | None => true end)
    employees.

Definition twice (db : Database.t) (employees : list Employee.t) : Database.t :=
  snd (addEmployees (snd (addEmployees db employees)) employees).

(** Number of active tenants that carry the employee id. *)
Definition activeCount (e : jsstring) (ts : list Tenant.t) : nat :=
  length (List.filter
    (fun t => eqb (Tenant.employee_id t) e && Status_eqb (Tenant.status t) active)
    ts).

(** ** Rent allocation *)

Definition sumZ (l : list Z) : Z := fold_right Z.add 0 l.

(** ** Excel import *)

Definition employeeMarkers : list jsstring := [js "Genzai"; js "Ukeoi"; js "社員"].
Definition propertyMarkers : list jsstring := [js "会社寮情報"; js "物件"].
Definition tenantMarkers : list jsstring := [js "入居者一覧"; js "入居"].

(** The name contains one of the tokens as a substring. *)
Definition containsMarker (tokens : list jsstring) (n : jsstring) : Prop :=
  exists tok pre post, In tok tokens /\ n = pre ++ tok ++ post.

(** Some sheet name contains one of the tokens. *)
Definition hasMarker (tokens names : list jsstring) : Prop :=
  exists n, In n names /\ containsMarker tokens n.

(** A value of a cell that the monetary reading
    [parseInt(String(cell || 0)) || 0] turns into an integer: its digits do
    not read to an infinity (2^1024 or more). *)
Definition readable (v : JsVal) : bool :=
  isCellValue v &&
  match parseInt (toString (jsOr v (JNum (Fin 0)))) with
  | Inf _ => false
  | _ => true
  end.

(** The monetary columns of a property row and of a tenant row. *)
Definition propertyMoney : list string :=
  ["家賃"%string; "USN家賃"%string; "駐車場代"%string].

Definition tenantMoney : list string := ["家賃"%string; "駐車場"%string].

(** The loop state after the property sheet. *)
Definition afterProperties (propertyNow : Z -> Z)
    (workbook : Workbook) (sheetNames : list jsstring) : rentAcc :=
  match find isPropertySheet sheetNames with
  | Some propSheet =>
      forEach (propertyStep propertyNow) (sheet_to_json workbook propSheet)
        (mkRentAcc [] [] [])
  | None => mkRentAcc [] [] []
  end.

(** The property candidates of the run. *)
Definition candidateProperties (propertyNow : Z -> Z)
    (workbook : Workbook) (sheetNames : list jsstring) : list Property.t :=
  rent_properties (afterProperties propertyNow workbook sheetNames).

(** What the tenant rows [rows], numbered from [i], add when the candidate
    properties are [candidates]. *)
Definition tenantRows (tenantNow : Z -> Z) (tenantToday : Z -> jsstring)
    (candidates : list Property.t) (i : Z) (rows : list Row) : rentAcc :=
  forEachFrom (tenantStep tenantNow tenantToday) i rows
    (mkRentAcc [] candidates []).

End Notions.

(** * Sample stores and workbooks *)

Module Samples.
Import Store ExcelImport.

(** useDatabase: INITIAL_DB, at some instant of creation. *)
Definition INITIAL_DB : Database.t :=
  Database.mk [] [] [] (Config.mk (js "UNS-KIKAKU") 0)
    (js "7.0") (js "2026-01-01T00:00:00.000Z").

Definition tanaka : Employee.t :=
  Employee.mk (js "E001") (js "田中") (js "タナカ") (js "UNS") None.

(** Another record under the id of [tanaka]. *)
Definition suzuki : Employee.t :=
  Employee.mk (js "E001") (js "鈴木") (js "スズキ") (js "UNS") None.

Definition sato : Employee.t :=
  Employee.mk (js "E002") (js "佐藤") (js "サトウ") (js "UNS") None.

Definition sakura : Property.t :=
  {| Property.id := 1; Property.name := js "Sakura";
     Property.room_number := None; Property.postal_code := None;
     Property.address_auto := js "東京都新宿区1-2-3";
     Property.address_detail := None;
     Property.address := js "東京都新宿区1-2-3";
     Property.type := js "1K"; Property.capacity := 1;
     Property.rent_cost := 50000; Property.rent_price_uns := 80000;
     Property.parking_cost := 0;
     Property.manager_name := None; Property.manager_phone := None;
     Property.contract_start := js "2025-04-01";
     Property.contract_end := None |}.

Definition tenantOf (id : Z) (employee : string) (property : Z) (rent : Z)
    (st : Status) : Tenant.t :=
  {| Tenant.id := id; Tenant.employee_id := js employee;
     Tenant.name := js "タナカ"; Tenant.name_kana := js "タナカ";
     Tenant.property_id := property; Tenant.rent_contribution := rent;
     Tenant.parking_fee := 0; Tenant.entry_date := js "2025-04-01T00:00:00Z";
     Tenant.status := st |}.

Definition oneTenantDb : Database.t :=
  setTenants (setProperties INITIAL_DB [sakura]) [tenantOf 10 "E001" 1 40000 active].

Definition withContractEnd (p : Property.t) (e : option jsstring) : Property.t :=
  {| Property.id := Property.id p; Property.name := Property.name p;
     Property.room_number := Property.room_number p;
     Property.postal_code := Property.postal_code p;
     Property.address_auto := Property.address_auto p;
     Property.address_detail := Property.address_detail p;
     Property.address := Property.address p;
     Property.type := Property.type p; Property.capacity := Property.capacity p;
     Property.rent_cost := Property.rent_cost p;
     Property.rent_price_uns := Property.rent_price_uns p;
     Property.parking_cost := Property.parking_cost p;
     Property.manager_name := Property.manager_name p;
     Property.manager_phone := Property.manager_phone p;
     Property.contract_start := Property.contract_start p;
     Property.contract_end := e |}.

Definition badEnd : Property.t := withContractEnd sakura (Some (js "not-a-date")).

Definition badEndDb : Database.t := Store.setProperties INITIAL_DB [badEnd].

(** 2026-11-02T00:00:00Z *)
Definition today : Z := 20759 * 86400000.

Definition zeroRentDb : Database.t :=
  Store.setTenants (Store.setProperties INITIAL_DB [sakura])
    [tenantOf 10 "E001" 1 0 active; tenantOf 11 "E002" 1 0 active;
     tenantOf 12 "E003" 1 0 inactive; tenantOf 13 "E004" 1 40000 active].

Definition threeTenants : list Tenant.t :=
  [tenantOf 10 "E001" 1 0 active;
   tenantOf 11 "E002" 1 0 active;
   tenantOf 12 "E003" 1 0 active].

Definition property100 : Property.t :=
  {| Property.id := 1; Property.name := js "Sakura";
     Property.room_number := None; Property.postal_code := None;
     Property.address_auto := []; Property.address_detail := None;
     Property.address := js "東京都新宿区1-2-3";
     Property.type := js "1K"; Property.capacity := 3;
     Property.rent_cost := 90; Property.rent_price_uns := 100;
     Property.parking_cost := 0;
     Property.manager_name := None; Property.manager_phone := None;
     Property.contract_start := []; Property.contract_end := None |}.

Definition propertyNow (index : Z) : Z := 1700000000000.
Definition tenantNow (index : Z) : Z := 1700000000005.
Definition tenantToday (index : Z) : jsstring := js "2026-11-02".

(** A workbook with the sheets 物件 and 入居. *)
Definition rentWorkbook (propertyRows tenantRows : list Row) : Workbook :=
  mkWorkbook [js "物件"; js "入居"]
    (fun n =>
       if eqb n (js "物件") then propertyRows
       else if eqb n (js "入居") then tenantRows
       else []).

Definition run : Workbook -> list jsstring -> ImportResult :=
  processRentImport propertyNow tenantNow tenantToday.

Definition sakuraRow : Row :=
  mkRow [col "ｱﾊﾟｰﾄ" (JStr (js "Sakura")); col "入居人数" (JNum (Fin 2));
         col "家賃" (JNum (Fin 50000)); col "USN家賃" (JNum (Fin 80000))].

Definition tenantRow (apt kana : string) : Row :=
  mkRow [col "ｱﾊﾟｰﾄ" (JStr (js apt)); col "カナ" (JStr (js kana));
         col "家賃" (JNum (Fin 40000))].

Definition propertiesOf (res : ImportResult) : list Property.t :=
  match data res with
  | Some d => default [] (properties d)
  | None => []
  end.

Definition tenantsOf (res : ImportResult) : list Tenant.t :=
  match data res with
  | Some d => default [] (tenants d)
  | None => []
  end.

End Samples.

(** * Further notions and samples *)

Module MoreNotions.
Import Integrity Store ExcelImport Notions.

(** The loop state of [processRentImport] after both sheets. *)
Definition afterTenants (propertyNow tenantNow : Z -> Z)
    (tenantToday : Z -> jsstring)
    (workbook : Workbook) (sheetNames : list jsstring) : rentAcc :=
  let acc := afterProperties propertyNow workbook sheetNames in
  match find isTenantSheet sheetNames with
  | Some tenantSheet =>
      forEach (tenantStep tenantNow tenantToday)
        (sheet_to_json workbook tenantSheet) acc
  | None => acc
  end.

(** The rows of the sheet that a pipeline picks, none when it picks no
    sheet. *)
Definition rowsOf (pick : jsstring -> bool) (workbook : Workbook)
    (sheetNames : list jsstring) : list Row :=
  match find pick sheetNames with
  | Some sheet => sheet_to_json workbook sheet
  | None => []
  end.

(** The clock never runs backwards from one row to the next. *)
Definition monotone (clock : Z -> Z) : Prop :=
  forall i j, 0 <= i -> i <= j -> clock i <= clock j.

(** The employee candidate read from the row [r]. *)
Definition readFrom (r : Row) (e : Employee.t) : Prop :=
  Employee.id e = trim (toString (jsOr (cell r "社員No") (cell r "ID"))) /\
  Employee.name e = trim (toString (jsOr (cell r "氏名") (cell r "Name"))) /\
  Employee.full_data e = Some r.

(** Each number of the list is smaller than all that follow it. *)
Fixpoint increasing (l : list Z) : Prop :=
  match l with
  | [] => True
  | x :: r => (forall y, In y r -> x < y) /\ increasing r
  end.

(** The fields that the loops of [processRentImport] give their errors. *)
Definition rowErrorFields : list jsstring :=
  [js "propiedad"; js "nombre"; js "inquilino"; js "apt/kana"; js "apartamento"].

(** ** The store and its schemas *)

(** Every tenant of the store passes [TenantSchema]. *)
Definition tenantsPass (isDatetime : jsstring -> bool)
    (tooBigMessage datetimeMessage : jsstring) (db : Database.t) : Prop :=
  forall t, In t (Database.tenants db) ->
    TenantSchema_issues isDatetime tooBigMessage datetimeMessage t = [].

(** Every property of the store passes [PropertySchema]. *)
Definition propertiesPass (isDatetime : jsstring -> bool)
    (tooBigMessage tooBigNumberMessage datetimeMessage : jsstring)
    (db : Database.t) : Prop :=
  forall p, In p (Database.properties db) ->
    Validators.PropertySchema_issues isDatetime tooBigMessage tooBigNumberMessage
      datetimeMessage p = [].

(** ** The dashboard *)

(** The milliseconds of a day. *)
Definition DAY : Z := 1000 * 60 * 60 * 24.

(** The warning that the dashboard shows for a contract of [p] that ends in
    [days] days. *)
Definition expiryAlert (nowISO : jsstring) (p : Property.t) (days : Z)
  : Dashboard.AlertItem :=
  Dashboard.mkAlert Dashboard.warning
    (js "📋 Contrato de " ++ Property.name p ++ js " vence en " ++
     ofZ days ++ js " días")
    (Some (if days <=? 30 then Dashboard.high else Dashboard.medium))
    (Some nowISO).

(** The tenants of the store that are active. *)
Definition activeTenants (db : Database.t) : list Tenant.t :=
  List.filter (fun t => Status_eqb (Tenant.status t) active) (Database.tenants db).

(** ** Notifications *)

(** The bookkeeping of the timers is in step: [timeoutRefs] holds the handle
    [h] for the id [i] exactly when the timer [h] is pending and will remove
    [i], and no handle is falsy. *)
Definition timersAgree (st : Notifications.state) : Prop :=
  (forall i h, Notifications.timeoutRefs st !! i = Some h <->
               Notifications.pending st !! h = Some i) /\
  (forall i, Notifications.timeoutRefs st !! i <> Some 0).

(** No notification shown carries the id. *)
Definition notShown (st : Notifications.state) (i : jsstring) : Prop :=
  forall n, In n (Notifications.notifications st) -> Notifications.id n <> i.

End MoreNotions.

Module MoreSamples.
Import Store ExcelImport Samples.

(** A workbook with the one sheet 社員 and its rows. *)
Definition employeeWorkbook (rows : list Row) : Workbook :=
  mkWorkbook [js "社員"] (fun _ => rows).

Definition employeeRow (no name kana : string) : Row :=
  mkRow [col "社員No" (JStr (js no)); col "氏名" (JStr (js name));
         col "カナ" (JStr (js kana))].

(** A workbook with a tenant sheet and no property sheet. *)
Definition tenantOnlyWorkbook (rows : list Row) : Workbook :=
  mkWorkbook [js "入居"] (fun _ => rows).

(** A clock that advances by one millisecond from row to row. *)
Definition ticking (index : Z) : Z := 1700000000000 + index.

(** An employee as the import leaves it when the カナ cell is blank. *)
Definition blankKana : Employee.t :=
  Employee.mk (js "E009") (js "山田") [] (js "UNS") None.

Definition blankKanaDb : Database.t := setEmployees INITIAL_DB [blankKana].

(** An update that carries only a new company. *)
Definition newCompany : StoreCrud.PartialEmployee :=
  StoreCrud.mkPartialEmployee None None None (Some (js "KIKAKU")) None.

(** Readings of the environment of [notify]. *)
Definition tickOf (id : string) (handle : Z) : Notifications.tick :=
  Notifications.mkTick (js id) handle (js "2026-11-02T00:00:00.000Z").

(** The notifications after one success toast on the empty list. *)
Definition oneToast : Notifications.state :=
  snd (Notifications.success 5 4000 Notifications.initial (tickOf "1-0.5" 7)
         (js "Guardado") (js "Propiedad guardada") None).

(** The import view before any file is chosen. *)
Definition idleView : ImportView.view :=
  ImportView.mkView ImportView.status_idle None [] Notifications.initial.

(** A file that parses to a workbook with one property and one tenant. *)
Definition rentFile : File :=
  mkFile true (inr (rentWorkbook [sakuraRow] [tenantRow "Sakura" "タナカ"])).

End MoreSamples.

(** * Properties *)

(** ** The embedding on literals *)

Example js_ascii : js "Genzai" = [71; 101; 110; 122; 97; 105]%N.
Proof. reflexivity. Qed.

Example js_kanji : js "社員" = [31038; 21729]%N.
Proof. reflexivity. Qed.

Example js_halfwidth : js "ｱﾊﾟｰﾄ" = [65393; 65418; 65439; 65392; 65412]%N.
Proof. reflexivity. Qed.

Example js_astral : js "📋" = [55357; 56523]%N.
Proof. reflexivity. Qed.

Example ofZ_examples :
  ofZ 0 = js "0" /\ ofZ 50000 = js "50000" /\ ofZ (-12) = js "-12" /\ ofZ 1024 = js "1024".
Proof. repeat split; reflexivity. Qed.

Example trim_example : trim (js "  Sakura　") = js "Sakura".
Proof. reflexivity. Qed.

Example parseInt_examples :
  parseInt (js "50000") = Fin 50000 /\
  parseInt (js "  42abc") = Fin 42 /\
  parseInt (js "abc") = NaN /\
  parseInt (js "") = NaN /\
  parseInt (js "-500") = Fin (-500) /\
  parseInt (js "0x1F") = Fin 31 /\
  parseInt (js "12.9") = Fin 12 /\
  parseInt (js "+7") = Fin 7.
Proof. repeat split; reflexivity. Qed.

Example cell_lookup :
  let r := mkRow [col "ｱﾊﾟｰﾄ" (JStr (js "Sakura")); col "家賃" (JNum (Fin 50000))] in
  cell r "ｱﾊﾟｰﾄ" = JStr (js "Sakura") /\ cell r "家賃" = JNum (Fin 50000) /\
  cell r "カナ" = JUndefined.
Proof. vm_compute. auto. Qed.

Example parseDateOnly_examples :
  parseDateOnly (js "1970-01-01") = Some 0 /\
  parseDateOnly (js "2026-03-31") = Some (20543 * 86400000) /\
  parseDateOnly (js "2026-02-30") = None /\
  parseDateOnly (js "not-a-date") = None.
Proof. repeat split; reflexivity. Qed.

(** ** Strings *)

Lemma eqb_true (s t : jsstring) : eqb s t = true <-> s = t.
Proof. unfold eqb. apply bool_decide_eq_true. Qed.

Lemma eqb_false (s t : jsstring) : eqb s t = false <-> s <> t.
Proof. unfold eqb. apply bool_decide_eq_false. Qed.

Lemma startsWith_spec (s t : jsstring) :
  startsWith s t = true <-> exists post, s = t ++ post.
Proof.
  revert s. induction t as [|a t IH]; intros s; simpl.
  - split; [intros _; exists s; reflexivity | reflexivity].
  - destruct s as [|b s].
    + split; [discriminate | intros [post H]; discriminate].
    + rewrite andb_true_iff, N.eqb_eq, IH. split.
      * intros [-> [post ->]]. exists post. reflexivity.
      * intros [post H]. injection H as -> ->. split; [reflexivity | eauto].
Qed.

(** [includes] is substring containment. *)
Lemma includes_spec (s t : jsstring) :
  includes s t = true <-> exists pre post, s = pre ++ t ++ post.
Proof.
  induction s as [|c s IH].
  - simpl. rewrite orb_false_r, startsWith_spec. split.
    + intros [post H]. exists [], post. exact H.
    + intros [pre [post H]]. destruct pre; simpl in H.
      * exists post. exact H.
      * discriminate.
  - cbn [includes]. rewrite orb_true_iff, startsWith_spec, IH. split.
    + intros [[post H] | [pre [post H]]].
      * exists [], post. exact H.
      * exists (c :: pre), post. rewrite H. reflexivity.
    + intros [pre [post H]]. destruct pre as [|c' pre]; simpl in H.
      * left. exists post. exact H.
      * right. injection H as _ H. exists pre, post. exact H.
Qed.

Lemma includes_middle (pre t post : jsstring) :
  includes (pre ++ t ++ post) t = true.
Proof. apply includes_spec. exists pre, post. reflexivity. Qed.

(** ** Referential integrity *)

Module IntegrityFacts.
Import Integrity Notions.

Lemma findProperty_unresolved properties t :
  findProperty properties t = None <-> unresolved properties t = true.
Proof.
  unfold findProperty, unresolved.
  induction properties as [|p ps IH]; simpl; [tauto|].
  destruct (Property.id p =? Tenant.property_id t); simpl.
  - split; discriminate.
  - exact IH.
Qed.

Lemma unresolved_spec properties t :
  unresolved properties t = true <->
  forall p, In p properties -> Property.id p <> Tenant.property_id t.
Proof.
  unfold unresolved. rewrite negb_true_iff. split.
  - intros H p Hp Heq.
    assert (Hex : existsb (fun p => Property.id p =? Tenant.property_id t) properties = true).
    { apply existsb_exists. exists p. split; [exact Hp | apply Z.eqb_eq, Heq]. }
    congruence.
  - intros H. destruct (existsb _ properties) eqn:E; [|reflexivity].
    apply existsb_exists in E. destruct E as [p [Hp Heq]].
    apply Z.eqb_eq in Heq. destruct (H p Hp Heq).
Qed.

Lemma fkLoop properties tenants init :
  fold_left (fkStep properties) tenants init =
  init ++ map fkError (List.filter (unresolved properties) tenants).
Proof.
  revert init. induction tenants as [|t ts IH]; intros init; simpl.
  - rewrite app_nil_r. reflexivity.
  - rewrite IH. unfold fkStep.
    destruct (findProperty properties t) eqn:E.
    + destruct (unresolved properties t) eqn:U; [|reflexivity].
      apply findProperty_unresolved in U. congruence.
    + apply findProperty_unresolved in E. rewrite E. simpl.
      rewrite <- app_assoc. reflexivity.
Qed.

Lemma capacityLoop tenants properties init :
  fold_left (capacityStep tenants) properties init =
  init ++ map (capacityError tenants) (List.filter (overCapacity tenants) properties).
Proof.
  revert init. induction properties as [|p ps IH]; intros init; simpl.
  - rewrite app_nil_r. reflexivity.
  - rewrite IH. unfold capacityStep, overCapacity.
    destruct (tenantCount tenants p >? Property.capacity p); simpl.
    + rewrite <- app_assoc. reflexivity.
    + reflexivity.
Qed.

Lemma errors_eq properties tenants :
  errors (validateDataIntegrity properties tenants) =
  map fkError (List.filter (unresolved properties) tenants) ++
  map (capacityError tenants) (List.filter (overCapacity tenants) properties).
Proof.
  unfold validateDataIntegrity. simpl.
  rewrite capacityLoop, fkLoop. reflexivity.
Qed.

Lemma valid_iff properties tenants :
  valid (validateDataIntegrity properties tenants) = true <->
  errors (validateDataIntegrity properties tenants) = [].
Proof.
  unfold validateDataIntegrity. simpl.
  destruct (fold_left _ properties _); simpl; split; congruence.
Qed.

(** C3: [valid] holds exactly when the error list is empty; the error
    list is one FK error per tenant whose [property_id] is the id of no
    property, in tenant order, followed by one capacity error per property
    that has strictly more active tenants than places, in property order;
    the capacity message contains the pair count/capacity.  Both loops run
    over the whole set. *)
Theorem C3_validateDataIntegrity_exhaustive
    (properties : list Property.t) (tenants : list Tenant.t) :
  let r := validateDataIntegrity properties tenants in
  let offendingTenants := List.filter (unresolved properties) tenants in
  let offendingProperties := List.filter (overCapacity tenants) properties in
  (valid r = true <-> errors r = []) /\
  errors r =
    map fkError offendingTenants ++
    map (capacityError tenants) offendingProperties /\
  (forall t, In t offendingTenants <->
     In t tenants /\
     forall p, In p properties -> Property.id p <> Tenant.property_id t) /\
  (forall p, In p offendingProperties <->
     In p properties /\
     Z.of_nat (length (List.filter
       (fun t => (Tenant.property_id t =? Property.id p)
                 && Status_eqb (Tenant.status t) active) tenants))
     > Property.capacity p) /\
  (forall t, type (fkError t) = js "FK_ERROR") /\
  (forall p, type (capacityError tenants p) = js "CAPACITY_ERROR" /\
     includes (message (capacityError tenants p))
       (ofZ (tenantCount tenants p) ++ js "/" ++ ofZ (Property.capacity p)) = true).
Proof.
  cbv zeta. split; [apply valid_iff|]. split; [apply errors_eq|].
  split; [|split; [|split]].
  - intros t. rewrite filter_In, unresolved_spec. reflexivity.
  - intros p. rewrite filter_In. unfold overCapacity, tenantCount.
    rewrite Z.gtb_gt. reflexivity.
  - reflexivity.
  - intros p. split; [reflexivity|].
    unfold capacityError. cbn [message].
    replace (js "Propiedad " ++ dquote ++ Property.name p ++ dquote ++
             js " excede capacidad (" ++ ofZ (tenantCount tenants p) ++
             js "/" ++ ofZ (Property.capacity p) ++ js ")")
      with ((js "Propiedad " ++ dquote ++ Property.name p ++ dquote ++
             js " excede capacidad (") ++
            (ofZ (tenantCount tenants p) ++ js "/" ++ ofZ (Property.capacity p)) ++
            js ")").
    + apply includes_middle.
    + repeat rewrite <- app_assoc. reflexivity.
Qed.

End IntegrityFacts.

(** ** Store mutators *)

Module StoreFacts.
Import Store Notions.

(** C8: [deleteProperty] answers [{ success: true }]; the properties that
    remain are those whose id differs from the given one, and the tenants
    that remain are those whose [property_id] differs from it, both in
    their former order; employees, config, version and last_sync are
    untouched. *)
Theorem C8_deleteProperty_cascade (db : Database.t) (id : Z) :
  let r := fst (deleteProperty db id) in
  let db' := snd (deleteProperty db id) in
  r = mkResponse true None None None /\
  (forall p, In p (Database.properties db') <->
             In p (Database.properties db) /\ Property.id p <> id) /\
  (forall t, In t (Database.tenants db') <->
             In t (Database.tenants db) /\ Tenant.property_id t <> id) /\
  Database.properties db' =
    List.filter (fun p => negb (Property.id p =? id)) (Database.properties db) /\
  Database.tenants db' =
    List.filter (fun t => negb (Tenant.property_id t =? id)) (Database.tenants db) /\
  Database.employees db' = Database.employees db /\
  Database.config db' = Database.config db /\
  Database.version db' = Database.version db /\
  Database.last_sync db' = Database.last_sync db.
Proof.
  cbv zeta. unfold deleteProperty. cbn [fst snd].
  cbn [Database.properties Database.tenants Database.employees
       Database.config Database.version Database.last_sync].
  split; [reflexivity|].
  split.
  { intros p. rewrite filter_In, negb_true_iff, Z.eqb_neq. reflexivity. }
  split.
  { intros t. rewrite filter_In, negb_true_iff, Z.eqb_neq. reflexivity. }
  repeat split; reflexivity.
Qed.

(** A store none of whose entities carries the id is left as it is. *)
Lemma deleteProperty_absent (db : Database.t) (id : Z) :
  (forall p, In p (Database.properties db) -> Property.id p <> id) ->
  (forall t, In t (Database.tenants db) -> Tenant.property_id t <> id) ->
  snd (deleteProperty db id) = db.
Proof.
  intros Hp Ht. destruct db as [ps ts es c v l]. unfold deleteProperty.
  cbn [snd Database.properties Database.tenants Database.employees
       Database.config Database.version Database.last_sync] in *.
  f_equal.
  - induction ps as [|p ps IH]; simpl; [reflexivity|].
    destruct (Z.eqb_spec (Property.id p) id) as [E|E]; simpl.
    + destruct (Hp p (or_introl eq_refl) E).
    + rewrite IH; [reflexivity|]. intros q Hq. apply Hp. right. exact Hq.
  - induction ts as [|t ts IH]; simpl; [reflexivity|].
    destruct (Z.eqb_spec (Tenant.property_id t) id) as [E|E]; simpl.
    + destruct (Ht t (or_introl eq_refl) E).
    + rewrite IH; [reflexivity|]. intros q Hq. apply Ht. right. exact Hq.
Qed.

(** *** addEmployees *)

Lemma findEmployee_None store emp :
  findEmployee store emp = None <-> ~ In (Employee.id emp) (ids store).
Proof.
  unfold findEmployee, ids. induction store as [|e es IH]; simpl; [tauto|].
  destruct (eqb (Employee.id e) (Employee.id emp)) eqn:E.
  - apply eqb_true in E. split; [discriminate | intros H; destruct H; left; exact E].
  - apply eqb_false in E. rewrite IH. tauto.
Qed.

Lemma fresh_In store employees emp :
  In emp (fresh store employees) <->
  In emp employees /\ ~ In (Employee.id emp) (ids store).
Proof.
  unfold fresh. rewrite filter_In, <- findEmployee_None.
  destruct (findEmployee store emp); split; intros [H1 H2];
    split; congruence.
Qed.

(** Once the candidates have been merged, none of them is fresh. *)
Lemma fresh_again store employees :
  fresh (store ++ fresh store employees) employees = [].
Proof.
  assert (H : forall emp, In emp employees ->
            In (Employee.id emp) (ids (store ++ fresh store employees))).
  { intros emp Hin. unfold ids. rewrite map_app, in_app_iff.
    destruct (findEmployee store emp) as [e|] eqn:E.
    - left. apply find_some in E. destruct E as [He Hid].
      apply eqb_true in Hid. rewrite <- Hid. apply in_map. exact He.
    - right. apply findEmployee_None in E.
      apply (in_map Employee.id). apply fresh_In. split; assumption. }
  revert H. generalize (store ++ fresh store employees) as st.
  intros st H. unfold fresh.
  induction employees as [|emp es IH]; simpl; [reflexivity|].
  destruct (findEmployee st emp) eqn:E.
  - apply IH. intros e He. apply H. right. exact He.
  - apply findEmployee_None in E. destruct E. apply H. left. reflexivity.
Qed.

Lemma NoDup_ids_filter (keep : Employee.t -> bool) es :
  List.NoDup (ids es) -> List.NoDup (ids (List.filter keep es)).
Proof.
  unfold ids. induction es as [|e es IH]; simpl; intros H; [constructor|].
  apply List.NoDup_cons_iff in H. destruct H as [Hnotin Hnd].
  destruct (keep e); simpl; [|apply IH; exact Hnd].
  apply List.NoDup_cons_iff. split; [|apply IH; exact Hnd].
  intros Hin. apply Hnotin. apply in_map_iff in Hin.
  destruct Hin as [e' [Heq Hin']]. apply filter_In in Hin'.
  apply in_map_iff. exists e'. tauto.
Qed.

Lemma NoDup_ids_merge store employees :
  List.NoDup (ids store) -> List.NoDup (ids employees) ->
  List.NoDup (ids (store ++ fresh store employees)).
Proof.
  intros Hs He. unfold ids. rewrite map_app.
  apply List.NoDup_app; [exact Hs | apply (NoDup_ids_filter _ _ He) |].
  intros x Hx Hx'. apply in_map_iff in Hx'. destruct Hx' as [e [Heq Hin]].
  apply fresh_In in Hin. subst x. tauto.
Qed.

Lemma addEmployees_snd db employees :
  snd (addEmployees db employees) =
  setEmployees db (Database.employees db ++ fresh (Database.employees db) employees).
Proof. reflexivity. Qed.

(** C5, as the code has it: [addEmployees] answers success with the
    number of candidates; the store's employees are kept as they are and
    followed by the candidates whose id is not yet in the store, so a
    candidate whose id is already there is skipped without update or
    error; merging the same candidates once more changes nothing; and
    when neither the store nor the candidate list holds an id twice, the
    store after the second merge holds every candidate id exactly once. *)
Theorem C5_addEmployees_first_write_wins
    (db : Database.t) (employees : list Employee.t) :
  let r1 := fst (addEmployees db employees) in
  let db1 := snd (addEmployees db employees) in
  let db2 := snd (addEmployees db1 employees) in
  r1 = mkResponse true None None (Some (Z.of_nat (length employees))) /\
  db1 = setEmployees db
          (Database.employees db ++ fresh (Database.employees db) employees) /\
  (forall emp, In emp (fresh (Database.employees db) employees) <->
     In emp employees /\ ~ In (Employee.id emp) (ids (Database.employees db))) /\
  db2 = db1 /\
  (List.NoDup (ids (Database.employees db)) ->
   List.NoDup (ids employees) ->
   List.NoDup (ids (Database.employees db2)) /\
   forall emp, In emp employees ->
     In (Employee.id emp) (ids (Database.employees db2))).
Proof.
  cbv zeta.
  assert (Hidem : snd (addEmployees (snd (addEmployees db employees)) employees)
                  = snd (addEmployees db employees)).
  { rewrite !addEmployees_snd. unfold setEmployees.
    cbn [Database.employees Database.properties Database.tenants
         Database.config Database.version Database.last_sync].
    rewrite fresh_again, app_nil_r. reflexivity. }
  split; [reflexivity|]. split; [reflexivity|].
  split; [intros emp; apply fresh_In|].
  split; [exact Hidem|].
  intros Hs He. rewrite Hidem, addEmployees_snd.
  unfold setEmployees. cbn [Database.employees].
  split; [apply NoDup_ids_merge; assumption|].
  intros emp Hin. unfold ids. rewrite map_app, in_app_iff.
  destruct (findEmployee (Database.employees db) emp) as [e|] eqn:E.
  - left. apply find_some in E. destruct E as [Hin' Hid].
    apply eqb_true in Hid. rewrite <- Hid. apply in_map. exact Hin'.
  - right. apply findEmployee_None in E.
    apply (in_map Employee.id). apply fresh_In. split; assumption.
Qed.

(** *** addTenant *)

Lemma Status_eqb_true a b : Status_eqb a b = true <-> a = b.
Proof. destruct a, b; simpl; split; congruence. Qed.

Lemma findActiveByEmployee_None ts tenant :
  findActiveByEmployee ts tenant = None ->
  activeCount (Tenant.employee_id tenant) ts = 0%nat.
Proof.
  unfold findActiveByEmployee, activeCount.
  induction ts as [|t ts IH]; simpl; [reflexivity|].
  destruct (eqb (Tenant.employee_id t) (Tenant.employee_id tenant)
            && Status_eqb (Tenant.status t) active); [discriminate|exact IH].
Qed.

Lemma findActiveByEmployee_Some_iff ts tenant :
  (exists t, findActiveByEmployee ts tenant = Some t) <->
  exists t, In t ts /\ Tenant.employee_id t = Tenant.employee_id tenant /\
            Tenant.status t = active.
Proof.
  unfold findActiveByEmployee. split.
  - intros [t H]. apply find_some in H. destruct H as [Hin H].
    apply andb_true_iff in H. destruct H as [H1 H2].
    apply eqb_true in H1. apply Status_eqb_true in H2. eauto.
  - intros [t [Hin [H1 H2]]].
    destruct (find _ ts) as [t'|] eqn:E; [eauto|].
    pose proof (find_none _ _ E t Hin) as Hf. cbv beta in Hf.
    apply eqb_true in H1. apply Status_eqb_true in H2.
    rewrite H1, H2 in Hf. discriminate.
Qed.

Lemma activeCount_app e ts us :
  activeCount e (ts ++ us) = (activeCount e ts + activeCount e us)%nat.
Proof. unfold activeCount. rewrite List.filter_app, length_app. reflexivity. Qed.

Section AddTenant.

Variable isDatetime : jsstring -> bool.
Variables tooBigMessage datetimeMessage : jsstring.

Let add := addTenant isDatetime tooBigMessage datetimeMessage.

(** C10: the guards of [addTenant] read the store [db] of the render in
    which the callback was created, and the append goes to the latest store
    [prev].  The call answers failure and leaves the latest store as it is
    when an active tenant of the rendered store already carries the
    employee id, or when no property of the rendered store has the given
    [property_id]; whatever the input, a failure leaves the latest store as
    it is and a success appends exactly the new tenant to it.  An employee
    id gains at most one active tenant by a call, and none beyond the first
    when the rendered store holds the tenants of the latest store.  The
    answer does not depend on the latest store: a call that succeeds for an
    active tenant gives its employee id one more active tenant there,
    however many it has. *)
Theorem C10_addTenant_guards
    (db prev : Database.t) (nowValidate nowInsert : Z) (tenant : Tenant.t) :
  let r := fst (add db prev nowValidate nowInsert tenant) in
  let db' := snd (add db prev nowValidate nowInsert tenant) in
  ((exists t, In t (Database.tenants db) /\
              Tenant.employee_id t = Tenant.employee_id tenant /\
              Tenant.status t = active) \/
   (forall p, In p (Database.properties db) ->
              Property.id p <> Tenant.property_id tenant) ->
   success r = false /\ db' = prev) /\
  (success r = false -> db' = prev) /\
  (success r = true ->
   db' = setTenants prev (Database.tenants prev ++ [withId tenant nowInsert])) /\
  (forall e, activeCount e (Database.tenants db')
             <= S (activeCount e (Database.tenants prev)))%nat /\
  (Database.tenants db = Database.tenants prev ->
   forall e, activeCount e (Database.tenants db')
             <= Nat.max 1 (activeCount e (Database.tenants prev)))%nat /\
  (forall prev' nowInsert', fst (add db prev' nowValidate nowInsert' tenant) = r) /\
  (success r = true -> Tenant.status tenant = active ->
   activeCount (Tenant.employee_id tenant) (Database.tenants db')
   = S (activeCount (Tenant.employee_id tenant) (Database.tenants prev))).
Proof.
  cbv zeta. unfold add, addTenant.
  destruct (find _ (Database.properties db)) as [p|] eqn:Ep.
  2:{ cbn [fst snd success].
      split; [|split; [|split; [|split; [|split; [|split]]]]]; try congruence; intros; try lia.
      split; reflexivity. }
  destruct (findActiveByEmployee (Database.tenants db) tenant) as [t|] eqn:Et.
  { cbn [fst snd success].
    split; [|split; [|split; [|split; [|split; [|split]]]]]; try congruence; intros; try lia.
    split; reflexivity. }
  destruct (negb (v_success _)) eqn:Ev; cbn [fst snd success].
  { split; [|split; [|split; [|split; [|split; [|split]]]]]; try congruence; intros; try lia.
    split; reflexivity. }
  assert (Hcount : forall e,
            activeCount e (Database.tenants prev ++ [withId tenant nowInsert]) =
            (activeCount e (Database.tenants prev) +
             if eqb (Tenant.employee_id tenant) e
                && Status_eqb (Tenant.status tenant) active
             then 1 else 0)%nat).
  { intros e. rewrite activeCount_app. unfold activeCount at 2. cbn [List.filter].
    cbn [withId Tenant.employee_id Tenant.status].
    destruct (eqb (Tenant.employee_id tenant) e
              && Status_eqb (Tenant.status tenant) active); reflexivity. }
  split; [|split; [|split; [|split; [|split; [|split]]]]]; try congruence.
  - intros [Hex | Hno].
    + apply findActiveByEmployee_Some_iff in Hex. destruct Hex as [t Ht].
      congruence.
    + apply find_some in Ep. destruct Ep as [Hin Hid].
      apply Z.eqb_eq in Hid. destruct (Hno p Hin Hid).
  - intros e. unfold setTenants. cbn [Database.tenants]. rewrite Hcount.
    destruct (_ && _); lia.
  - intros Hsame e. unfold setTenants. cbn [Database.tenants]. rewrite Hcount.
    destruct (eqb (Tenant.employee_id tenant) e) eqn:Ee; cbn [andb]; [|lia].
    apply eqb_true in Ee. subst e. rewrite <- Hsame.
    rewrite (findActiveByEmployee_None _ _ Et).
    destruct (Status_eqb (Tenant.status tenant) active); simpl; lia.
  - intros _ Hactive. unfold setTenants. cbn [Database.tenants]. rewrite Hcount.
    rewrite (proj2 (eqb_true _ _) eq_refl), Hactive. cbn. lia.
Qed.

End AddTenant.

End StoreFacts.


(** *** The store mutators on concrete stores *)

Module StoreExamples.
Import Store Notions Samples StoreFacts.

(** C5 as stated fails: a candidate list that holds the id E001 twice,
    merged twice into the empty store, leaves two employees with that id. *)
Lemma C5_duplicate_ids_in_one_list :
  ids (Database.employees (twice INITIAL_DB [tanaka; suzuki]))
    = [js "E001"; js "E001"] /\
  ~ List.NoDup (ids (Database.employees (twice INITIAL_DB [tanaka; suzuki]))).
Proof.
  assert (E : ids (Database.employees (twice INITIAL_DB [tanaka; suzuki]))
              = [js "E001"; js "E001"]) by (vm_compute; reflexivity).
  split; [exact E|]. rewrite E. intros H.
  apply List.NoDup_cons_iff in H. destruct H as [H _]. apply H. left. reflexivity.
Qed.

Lemma NoDup_ids_tanaka : List.NoDup (ids [tanaka]).
Proof.
  apply List.NoDup_cons; [intros H; destruct H | apply List.NoDup_nil].
Defined.

Lemma NoDup_ids_tanaka_sato : List.NoDup (ids [tanaka; sato]).
Proof.
  apply List.NoDup_cons.
  - intros [H | H]; [vm_compute in H; discriminate H | destruct H].
  - apply List.NoDup_cons; [intros H; destruct H | apply List.NoDup_nil].
Defined.

(** The theorem of C5 at a store that already holds E001, merged with the
    candidates E001 and E002. *)
Lemma C5_first_write_wins_witness :
  List.NoDup (ids (Database.employees (setEmployees INITIAL_DB [tanaka]))) /\
  List.NoDup (ids [tanaka; sato]) /\
  List.NoDup (ids (Database.employees
    (twice (setEmployees INITIAL_DB [tanaka]) [tanaka; sato]))).
Proof.
  split; [exact NoDup_ids_tanaka|]. split; [exact NoDup_ids_tanaka_sato|].
  destruct (C5_addEmployees_first_write_wins
              (setEmployees INITIAL_DB [tanaka]) [tanaka; sato])
    as (_ & _ & _ & _ & H).
  exact (proj1 (H NoDup_ids_tanaka NoDup_ids_tanaka_sato)).
Defined.

Example addEmployees_skips_existing :
  Database.employees (snd (addEmployees (setEmployees INITIAL_DB [tanaka]) [suzuki; sato]))
  = [tanaka; sato].
Proof. vm_compute. reflexivity. Qed.

(** The theorem of C10 at a store whose only tenant is active under E001,
    asked to add another tenant under E001. *)
Lemma C10_addTenant_guards_witness :
  (exists t, In t (Database.tenants oneTenantDb) /\
             Tenant.employee_id t = Tenant.employee_id (tenantOf 0 "E001" 1 0 active) /\
             Tenant.status t = active) /\
  Store.success (fst (addTenant (fun _ => true) [] [] oneTenantDb oneTenantDb 11 12
                        (tenantOf 0 "E001" 1 0 active))) = false /\
  snd (addTenant (fun _ => true) [] [] oneTenantDb oneTenantDb 11 12
         (tenantOf 0 "E001" 1 0 active)) = oneTenantDb.
Proof.
  assert (H : exists t, In t (Database.tenants oneTenantDb) /\
             Tenant.employee_id t = Tenant.employee_id (tenantOf 0 "E001" 1 0 active) /\
             Tenant.status t = active).
  { exists (tenantOf 10 "E001" 1 40000 active).
    split; [left; reflexivity | split; reflexivity]. }
  split; [exact H|].
  exact (proj1 (C10_addTenant_guards (fun _ => true) [] [] oneTenantDb oneTenantDb
                  11 12 (tenantOf 0 "E001" 1 0 active)) (or_introl H)).
Defined.

Example addTenant_unknown_property :
  addTenant (fun _ => true) [] [] oneTenantDb oneTenantDb 11 12
    (tenantOf 0 "E002" 7 0 active)
  = (mkResponse false (Some (js "Propiedad no existe")) None None, oneTenantDb).
Proof. vm_compute. reflexivity. Qed.

Example addTenant_appends :
  Database.tenants
    (snd (addTenant (fun _ => true) [] [] oneTenantDb oneTenantDb 11 12
            (tenantOf 0 "E002" 1 0 active)))
  = [tenantOf 10 "E001" 1 40000 active; tenantOf 12 "E002" 1 0 active].
Proof. vm_compute. reflexivity. Qed.

(** C10 as stated fails: two calls made from one render, so that both read
    the store of that render, for the same employee id.  The second call
    succeeds although the latest store already holds an active tenant with
    the id, and the store ends with two active tenants under it. *)
Lemma C10_two_calls_one_render :
  let rendered := oneTenantDb in
  let first := addTenant (fun _ => true) [] [] rendered rendered 11 12
                 (tenantOf 0 "E002" 1 0 active) in
  let second := addTenant (fun _ => true) [] [] rendered (snd first) 13 14
                  (tenantOf 0 "E002" 1 0 active) in
  Store.success (fst first) = true /\
  In (tenantOf 12 "E002" 1 0 active) (Database.tenants (snd first)) /\
  Store.success (fst second) = true /\
  activeCount (js "E002") (Database.tenants (snd second)) = 2%nat.
Proof.
  vm_compute. split; [reflexivity|]. split; [|split; reflexivity].
  right. left. reflexivity.
Qed.

(** Scenario of the specification: capacity 1 with two active tenants
    gives one CAPACITY_ERROR that names the property and the pair 2/1. *)
Example capacity_scenario :
  Integrity.validateDataIntegrity [sakura]
    [tenantOf 10 "E001" 1 40000 active; tenantOf 11 "E002" 1 40000 active]
  = Integrity.mkResult false
      [Integrity.mkError (js "CAPACITY_ERROR")
         (js "Propiedad " ++ dquote ++ js "Sakura" ++ dquote ++
          js " excede capacidad (2/1)")].
Proof. vm_compute. reflexivity. Qed.

End StoreExamples.


(** ** Dashboard metrics *)

Module DashboardFacts.
Import Dashboard.

Section ActiveSet.

Variable Date_parse : jsstring -> option Z.
Variable now : Z.

Lemma noContractEnd_false p s :
  Property.contract_end p = Some s -> s <> [] -> noContractEnd p = false.
Proof.
  intros H Hs. unfold noContractEnd. rewrite H. apply eqb_false. exact Hs.
Qed.

Lemma activeProps_In db p :
  In p (activeProps Date_parse now db) <->
  In p (Database.properties db) /\
  (noContractEnd p = true \/
   exists t, Date_parse (default [] (Property.contract_end p)) = Some t /\ t > now).
Proof.
  unfold activeProps. rewrite filter_In, orb_true_iff. unfold dateAfterNow.
  destruct (Date_parse (default [] (Property.contract_end p))) as [t|].
  - rewrite Z.gtb_gt. split.
    + intros [H [H1 | H1]]; [tauto | split; [exact H | right; eauto]].
    + intros [H [H1 | [t' [Ht Hgt]]]]; [tauto|].
      injection Ht as <-. tauto.
  - split.
    + intros [H [H1 | H1]]; [tauto | discriminate].
    + intros [H [H1 | [t' [Ht _]]]]; [tauto | discriminate].
Qed.

(** What the aggregator does include: a property with no [contract_end],
    and one whose [contract_end] parses to an instant after now. *)
Lemma activeProps_absent_or_future db p :
  In p (Database.properties db) ->
  Property.contract_end p = None \/
  (exists s t, Property.contract_end p = Some s /\ Date_parse s = Some t /\ t > now) ->
  In p (activeProps Date_parse now db) /\ isPropertyActive Date_parse now p = true.
Proof.
  intros Hin H. rewrite activeProps_In. unfold isPropertyActive.
  destruct H as [H | [s [t [Hs [Ht Hgt]]]]].
  - unfold noContractEnd. rewrite H. tauto.
  - rewrite Hs. cbn [from_option id]. rewrite Ht. split.
    + split; [exact Hin|]. right. exists t. cbn [from_option id]. tauto.
    + destruct (noContractEnd p); [reflexivity|]. apply Z.gtb_gt. exact Hgt.
Qed.

(** C1, on the code: a property whose [contract_end] is a non-empty string
    that does not parse is active for [isPropertyActive], and yet it is
    neither in the active set of the dashboard metrics nor among
    [getPropertiesByStatus(true)]. *)
Theorem C1_unparseable_end_not_counted (db : Database.t) (p : Property.t)
    (s : jsstring) :
  In p (Database.properties db) ->
  Property.contract_end p = Some s ->
  s <> [] ->
  Date_parse s = None ->
  isPropertyActive Date_parse now p = true /\
  ~ In p (activeProps Date_parse now db) /\
  ~ In p (getPropertiesByStatus Date_parse now db true).
Proof.
  intros Hin Hs Hne Hparse.
  pose proof (noContractEnd_false p s Hs Hne) as Hno.
  split; [|split].
  - unfold isPropertyActive. rewrite Hno, Hs. cbn [from_option id].
    rewrite Hparse. reflexivity.
  - rewrite activeProps_In. intros [_ [H | [t [Ht _]]]].
    + congruence.
    + rewrite Hs in Ht. cbn [from_option id] in Ht. congruence.
  - unfold getPropertiesByStatus. rewrite filter_In. intros [_ H].
    rewrite Hno, Hs in H. cbn [from_option id] in H. unfold dateAfterNow in H.
    rewrite Hparse in H. discriminate.
Qed.

End ActiveSet.

(** *** The zero-rent alert *)

Section Alerts.

Variable Date_parse : jsstring -> option Z.
Variable filterNow : Z -> Z.
Variable today : Z.
Variable stamp : Z -> jsstring.
Variable dangerStamp : jsstring.

Lemma contractStepAt_danger alerts p k :
  List.filter (isAlertType danger) (contractStepAt Date_parse today stamp alerts p k)
  = List.filter (isAlertType danger) alerts.
Proof.
  unfold contractStepAt. destruct (noContractEnd p); [reflexivity|].
  destruct (Date_parse _) as [t|]; [|reflexivity].
  destruct (ceilDays (Z.abs (t - today)) <=? 60); [|reflexivity].
  rewrite List.filter_app. cbn. rewrite app_nil_r. reflexivity.
Qed.

Lemma contractLoopAt_danger ps k alerts :
  List.filter (isAlertType danger)
    (ExcelImport.forEachFrom (contractStepAt Date_parse today stamp) k ps alerts)
  = List.filter (isAlertType danger) alerts.
Proof.
  revert k alerts. induction ps as [|p ps IH]; intros k alerts; simpl.
  - reflexivity.
  - rewrite IH. apply contractStepAt_danger.
Qed.

Lemma zeroRentTenants_In db t :
  In t (zeroRentTenants db) <->
  In t (Database.tenants db) /\ Tenant.status t = active /\
  Tenant.rent_contribution t = 0.
Proof.
  unfold zeroRentTenants. rewrite filter_In, andb_true_iff, Z.eqb_eq.
  destruct (Tenant.status t); simpl; intuition congruence.
Qed.

(** C9: whatever the clock reads during the evaluation, the danger alerts
    of the metrics are exactly one alert carrying the number of active
    tenants with [rent_contribution = 0] when there is at least one such
    tenant, and none otherwise; the message contains that number. *)
Theorem C9_single_zero_rent_alert (db : Database.t) :
  let n := Z.of_nat (length (zeroRentTenants db)) in
  let dangers :=
    List.filter (isAlertType danger)
      (alerts (metricsAt Date_parse filterNow today stamp dangerStamp db)) in
  dangers = (if n >? 0 then [zeroRentAlert dangerStamp n] else []) /\
  (n > 0 <-> exists t, In t (Database.tenants db) /\ Tenant.status t = active /\
                       Tenant.rent_contribution t = 0) /\
  (forall t, In t (zeroRentTenants db) <->
     In t (Database.tenants db) /\ Tenant.status t = active /\
     Tenant.rent_contribution t = 0) /\
  type (zeroRentAlert dangerStamp n) = danger /\
  includes (msg (zeroRentAlert dangerStamp n)) (ofZ n) = true.
Proof.
  cbv zeta. split; [|split; [|split; [|split]]].
  - unfold metricsAt, metricsOf, ExcelImport.forEach. cbn [alerts].
    destruct (Z.of_nat (length (zeroRentTenants db)) >? 0).
    + rewrite List.filter_app, contractLoopAt_danger. reflexivity.
    + rewrite contractLoopAt_danger. reflexivity.
  - destruct (zeroRentTenants db) as [|t ts] eqn:E.
    + simpl. split; [lia|]. intros [t Ht]. apply zeroRentTenants_In in Ht.
      rewrite E in Ht. destruct Ht.
    + split; [|simpl; lia]. intros _. exists t. apply zeroRentTenants_In.
      rewrite E. left. reflexivity.
  - apply zeroRentTenants_In.
  - reflexivity.
  - unfold zeroRentAlert. cbn [msg]. apply includes_middle.
Qed.

End Alerts.

End DashboardFacts.


(** *** The metrics on concrete stores *)

Module DashboardExamples.
Import Dashboard DashboardFacts Samples.

(** The dashboard on the store whose single property has the contract end
    not-a-date: the helper calls it active, the metrics count no property. *)
Example badEnd_metrics :
  isPropertyActive parseDateOnly today badEnd = true /\
  totalProperties (metrics parseDateOnly today (js "2026-11-02T00:00:00.000Z") badEndDb) = 0 /\
  totalCapacity (metrics parseDateOnly today (js "2026-11-02T00:00:00.000Z") badEndDb) = 0 /\
  totalTargetUNS (metrics parseDateOnly today (js "2026-11-02T00:00:00.000Z") badEndDb) = 0 /\
  getPropertiesByStatus parseDateOnly today badEndDb true = [] /\
  getPropertiesByStatus parseDateOnly today badEndDb false = [badEnd].
Proof. vm_compute. repeat split; reflexivity. Qed.

(** The theorem of C1 at that store. *)
Lemma C1_unparseable_end_witness :
  In badEnd (Database.properties badEndDb) /\
  Property.contract_end badEnd = Some (js "not-a-date") /\
  js "not-a-date" <> [] /\
  parseDateOnly (js "not-a-date") = None /\
  isPropertyActive parseDateOnly today badEnd = true /\
  ~ In badEnd (activeProps parseDateOnly today badEndDb) /\
  ~ In badEnd (getPropertiesByStatus parseDateOnly today badEndDb true).
Proof.
  assert (H1 : In badEnd (Database.properties badEndDb)) by (left; reflexivity).
  assert (H2 : Property.contract_end badEnd = Some (js "not-a-date")) by reflexivity.
  assert (H3 : js "not-a-date" <> []) by (vm_compute; discriminate).
  assert (H4 : parseDateOnly (js "not-a-date") = None) by (vm_compute; reflexivity).
  split; [exact H1|]. split; [exact H2|]. split; [exact H3|]. split; [exact H4|].
  exact (C1_unparseable_end_not_counted parseDateOnly today badEndDb badEnd
           (js "not-a-date") H1 H2 H3 H4).
Defined.

Example future_end_counted :
  let p := withContractEnd sakura (Some (js "2027-03-31")) in
  activeProps parseDateOnly today (Store.setProperties INITIAL_DB [p]) = [p] /\
  isPropertyActive parseDateOnly today p = true.
Proof. vm_compute. split; reflexivity. Qed.

(** Two active tenants without rent give one alert that says 2. *)
Example zero_rent_metrics :
  alerts (metrics parseDateOnly today (js "2026-11-02T00:00:00.000Z") zeroRentDb)
  = [mkAlert danger (js "⚠️ 2 inquilino(s) sin renta configurada")
       (Some high) (Some (js "2026-11-02T00:00:00.000Z"))].
Proof. vm_compute. reflexivity. Qed.

Example expiry_warning :
  let p := withContractEnd sakura (Some (js "2026-11-30")) in
  alerts (metrics parseDateOnly today (js "2026-11-02T00:00:00.000Z")
            (Store.setProperties INITIAL_DB [p]))
  = [mkAlert warning (js "📋 Contrato de Sakura vence en 28 días")
       (Some high) (Some (js "2026-11-02T00:00:00.000Z"))].
Proof. vm_compute. reflexivity. Qed.

(** A contract that ends between two readings of the clock: the filter
    reads one millisecond before the end and keeps the property, [today] is
    read at the end or after it, and the warning says 0 days, or 1 day for a
    contract that is over.  With one reading for both, the property is not
    counted and there is no warning. *)
Example end_between_readings :
  let p := withContractEnd sakura (Some (js "2026-11-03")) in
  let db := Store.setProperties INITIAL_DB [p] in
  let ending := 20760 * 86400000 in
  let at_ today :=
    metricsAt parseDateOnly (fun _ => ending - 1) today
      (fun _ => js "2026-11-03T00:00:00.000Z") (js "2026-11-03T00:00:00.000Z") db in
  parseDateOnly (js "2026-11-03") = Some ending /\
  totalProperties (at_ ending) = 1 /\
  alerts (at_ ending)
  = [mkAlert warning (js "📋 Contrato de Sakura vence en 0 días")
       (Some high) (Some (js "2026-11-03T00:00:00.000Z"))] /\
  alerts (at_ (ending + 1))
  = [mkAlert warning (js "📋 Contrato de Sakura vence en 1 días")
       (Some high) (Some (js "2026-11-03T00:00:00.000Z"))] /\
  totalProperties (metrics parseDateOnly ending (js "2026-11-03T00:00:00.000Z") db) = 0 /\
  alerts (metrics parseDateOnly ending (js "2026-11-03T00:00:00.000Z") db) = [].
Proof. vm_compute. repeat split; reflexivity. Qed.

End DashboardExamples.

(** ** Rent allocation *)

Module RentAllocationFacts.
Import RentAllocation Notions Samples.

Lemma sumZ_repeat (b : Z) (n : nat) : sumZ (repeat b n) = Z.of_nat n * b.
Proof.
  induction n as [|n IH]; [reflexivity|].
  cbn [repeat sumZ fold_right]. fold (sumZ (repeat b n)). rewrite IH. lia.
Qed.

Lemma assigned_others (b : Z) (others : list Tenant.t) :
  assigned (map (fun t => setRent t b) others) = repeat b (length others).
Proof.
  unfold assigned. induction others as [|t ts IH]; [reflexivity|].
  simpl. rewrite IH. reflexivity.
Qed.

Lemma nth_error_repeat_Some (b a : Z) (n i : nat) :
  nth_error (repeat b n) i = Some a -> a = b.
Proof.
  intros H. apply nth_error_In in H. apply repeat_spec in H. exact H.
Qed.

(** C4: with at least one active tenant, [distributeEvenly] gives the
    first tenant floor(R/N) + (R mod N) and every other tenant floor(R/N),
    in the order of the tenants; the contributions add up to R, and the
    first exceeds each other one by R mod N. *)
Theorem C4_distributeEvenly_exact (property : Property.t)
    (tenants : list Tenant.t) :
  tenants <> [] ->
  let R := Property.rent_price_uns property in
  let N := Z.of_nat (length tenants) in
  exists out,
    distributeEvenly property tenants = Some out /\
    length out = length tenants /\
    map Tenant.id out = map Tenant.id tenants /\
    nth_error (assigned out) 0 = Some (R / N + R mod N) /\
    (forall i, (0 < i < length tenants)%nat ->
       nth_error (assigned out) i = Some (R / N)) /\
    sumZ (assigned out) = R /\
    (forall i a, (0 < i)%nat -> nth_error (assigned out) i = Some a ->
       nth_error (assigned out) 0 = Some (a + R mod N)).
Proof.
  intros Hne. cbv zeta. destruct tenants as [|first others]; [congruence|].
  unfold distributeEvenly.
  set (N := Z.of_nat (length (first :: others))).
  set (R := Property.rent_price_uns property).
  assert (HN : N = 1 + Z.of_nat (length others)) by (unfold N; simpl length; lia).
  eexists. split; [reflexivity|].
  split; [simpl; rewrite length_map; reflexivity|].
  split.
  { simpl. f_equal. rewrite map_map. reflexivity. }
  split; [reflexivity|].
  assert (Ha : assigned (setRent first (R / N + R mod N)
                         :: map (fun t => setRent t (R / N)) others)
               = (R / N + R mod N) :: repeat (R / N) (length others)).
  { unfold assigned at 1. cbn [map setRent Tenant.rent_contribution].
    fold (assigned (map (fun t => setRent t (R / N)) others)).
    rewrite assigned_others. reflexivity. }
  rewrite Ha. split; [|split].
  - intros i [Hi Hlt]. destruct i as [|i]; [lia|]. cbn [nth_error].
    simpl length in Hlt.
    destruct (nth_error (repeat (R / N) (length others)) i) as [a|] eqn:E.
    + apply nth_error_repeat_Some in E. congruence.
    + apply nth_error_None in E. rewrite repeat_length in E. lia.
  - cbn [sumZ fold_right]. fold (sumZ (repeat (R / N) (length others))).
    rewrite sumZ_repeat.
    pose proof (Z.div_mod R N ltac:(lia)) as Hdm. nia.
  - intros i a Hi E. destruct i as [|i]; [lia|]. cbn [nth_error] in *.
    apply nth_error_repeat_Some in E. subst a. reflexivity.
Qed.

(** Scenario of the specification: 100 over three tenants is 34, 33, 33. *)
Example distribute_100_over_3 :
  option_map assigned (distributeEvenly property100 threeTenants) = Some [34; 33; 33].
Proof. vm_compute. reflexivity. Qed.

(** The theorem of C4 at that input. *)
Lemma C4_distributeEvenly_witness :
  threeTenants <> [] /\
  exists out,
    distributeEvenly property100 threeTenants = Some out /\
    assigned out = [34; 33; 33] /\
    sumZ (assigned out) = 100.
Proof.
  assert (H : threeTenants <> []) by (unfold threeTenants; discriminate).
  split; [exact H|].
  destruct (C4_distributeEvenly_exact property100 threeTenants H)
    as (out & Hout & _ & _ & _ & _ & Hsum & _).
  exists out. split; [exact Hout|]. split; [|exact Hsum].
  vm_compute in Hout. injection Hout as <-. reflexivity.
Defined.

End RentAllocationFacts.


(** ** Excel import *)

Module ImportFacts.
Import ExcelImport Notions.

(** *** Sheet classification *)

Lemma isEmployeeSheet_spec n :
  isEmployeeSheet n = true <-> containsMarker employeeMarkers n.
Proof.
  unfold isEmployeeSheet, containsMarker, employeeMarkers.
  rewrite !orb_true_iff, !includes_spec. split.
  - intros [[(pre & post & H) | (pre & post & H)] | (pre & post & H)];
      eexists; exists pre, post; (split; [|exact H]); simpl; tauto.
  - intros (tok & pre & post & Hin & H). simpl in Hin.
    destruct Hin as [<- | [<- | [<- | []]]]; eauto.
Qed.

Lemma isPropertySheet_spec n :
  isPropertySheet n = true <-> containsMarker propertyMarkers n.
Proof.
  unfold isPropertySheet, containsMarker, propertyMarkers.
  rewrite !orb_true_iff, !includes_spec. split.
  - intros [(pre & post & H) | (pre & post & H)];
      eexists; exists pre, post; (split; [|exact H]); simpl; tauto.
  - intros (tok & pre & post & Hin & H). simpl in Hin.
    destruct Hin as [<- | [<- | []]]; eauto.
Qed.

Lemma isTenantSheet_spec n :
  isTenantSheet n = true <-> containsMarker tenantMarkers n.
Proof.
  unfold isTenantSheet, containsMarker, tenantMarkers.
  rewrite !orb_true_iff, !includes_spec. split.
  - intros [(pre & post & H) | (pre & post & H)];
      eexists; exists pre, post; (split; [|exact H]); simpl; tauto.
  - intros (tok & pre & post & Hin & H). simpl in Hin.
    destruct Hin as [<- | [<- | []]]; eauto.
Qed.

Lemma some_sheet (isSheet : jsstring -> bool) (tokens names : list jsstring) :
  (forall n, isSheet n = true <-> containsMarker tokens n) ->
  existsb isSheet names = true <-> hasMarker tokens names.
Proof.
  intros Hspec. rewrite existsb_exists. unfold hasMarker.
  split; intros [n [Hin H]]; exists n; (split; [exact Hin|]); apply Hspec; exact H.
Qed.

Lemma existsb_find {A : Type} (f : A -> bool) (l : list A) :
  existsb f l = true -> exists x, find f l = Some x /\ In x l /\ f x = true.
Proof.
  induction l as [|a l IH]; simpl; [discriminate|].
  destruct (f a) eqn:E; simpl.
  - intros _. exists a. tauto.
  - intros H. destruct (IH H) as [x [Hx [Hin Hf]]]. exists x. tauto.
Qed.

Section Run.

Variable propertyNow : Z -> Z.
Variable tenantNow : Z -> Z.
Variable tenantToday : Z -> jsstring.

Let runFile := processFile propertyNow tenantNow tenantToday.
Let runRent := processRentImport propertyNow tenantNow tenantToday.

(** C7: on a workbook that was read, a sheet name with an employee marker
    sends the file to the employee pipeline, whatever other markers are
    there; failing that, a sheet name with a property or tenant marker
    sends it to the rent pipeline; failing both, the answer is the failed
    result without type, data or errors and with the summary that no format
    was detected.  [processFile] is a function: it answers in every case. *)
Theorem C7_classification_priority (workbook : Workbook) :
  let names := SheetNames workbook in
  let res := runFile (mkFile true (inr workbook)) in
  (hasMarker employeeMarkers names ->
     res = processEmployeeImport workbook names /\
     type res = Some employees_type) /\
  (~ hasMarker employeeMarkers names ->
   hasMarker propertyMarkers names \/ hasMarker tenantMarkers names ->
     res = runRent workbook names /\
     type res = Some rent_management) /\
  (~ hasMarker employeeMarkers names ->
   ~ hasMarker propertyMarkers names ->
   ~ hasMarker tenantMarkers names ->
     res = mkResult false None None []
             (js "No se detectó formato válido de importación")).
Proof.
  cbv zeta. unfold runFile, runRent, processFile. cbn [XLSX_loaded read negb].
  pose proof (some_sheet _ _ (SheetNames workbook) isEmployeeSheet_spec) as He.
  pose proof (some_sheet _ _ (SheetNames workbook) isPropertySheet_spec) as Hp.
  pose proof (some_sheet _ _ (SheetNames workbook) isTenantSheet_spec) as Ht.
  destruct (existsb isEmployeeSheet (SheetNames workbook)) eqn:Ee.
  - split; [|split].
    + intros _. split; [reflexivity|].
      unfold processEmployeeImport.
      destruct (existsb_find _ _ Ee) as [x [Hx _]]. rewrite Hx. reflexivity.
    + intros Hno. destruct Hno. apply He. reflexivity.
    + intros Hno. destruct Hno. apply He. reflexivity.
  - assert (Hne : ~ hasMarker employeeMarkers (SheetNames workbook)).
    { intros H. apply He in H. discriminate. }
    destruct (existsb isPropertySheet (SheetNames workbook)
              || existsb isTenantSheet (SheetNames workbook)) eqn:Er.
    + split; [|split].
      * intros H. destruct (Hne H).
      * intros _ _. split; reflexivity.
      * intros _ Hnp Hnt. apply orb_true_iff in Er.
        destruct Er as [Er | Er]; [destruct Hnp; apply Hp | destruct Hnt; apply Ht];
          exact Er.
    + apply orb_false_iff in Er. destruct Er as [Er1 Er2].
      split; [|split].
      * intros H. destruct (Hne H).
      * intros _ [H | H]; [apply Hp in H | apply Ht in H]; congruence.
      * intros _ _ _. reflexivity.
Qed.

(** Before the sheets are classified, a missing parser and a failed read
    end in the failed result as well. *)
Lemma processFile_caught (file : File) :
  XLSX_loaded file = false \/ (exists e, read file = inl e) ->
  success (runFile file) = false /\ data (runFile file) = None /\
  errors (runFile file) = [].
Proof.
  unfold runFile, processFile. intros [H | [e H]].
  - rewrite H. cbn. tauto.
  - rewrite H. destruct (XLSX_loaded file); cbn; tauto.
Qed.

End Run.

(** *** Monetary cells *)

Lemma cell_insert_ne (r : Row) (k k' : string) (v : JsVal) :
  js k <> js k' -> cell (<[js k := v]> r) k' = cell r k'.
Proof.
  intros H. unfold cell. rewrite lookup_insert_ne; [reflexivity | exact H].
Qed.

Lemma digitValue_nonneg (radix : Z) (c : N) (d : Z) :
  digitValue radix c = Some d -> 0 <= d.
Proof.
  unfold digitValue.
  destruct ((48 <=? Z.of_N c) && (Z.of_N c <=? 57)) eqn:E1.
  - destruct (Z.of_N c - 48 <? radix); [|discriminate].
    intros H. injection H as <-. apply andb_true_iff in E1. lia.
  - destruct ((97 <=? Z.of_N c) && (Z.of_N c <=? 122)) eqn:E2.
    + destruct (Z.of_N c - 87 <? radix); [|discriminate].
      intros H. injection H as <-. apply andb_true_iff in E2. lia.
    + destruct ((65 <=? Z.of_N c) && (Z.of_N c <=? 90)) eqn:E3; [|discriminate].
      destruct (Z.of_N c - 55 <? radix); [|discriminate].
      intros H. injection H as <-. apply andb_true_iff in E3. lia.
Qed.

Lemma readDigits_nonneg (radix : Z) (s : jsstring) :
  0 <= radix ->
  forall acc m,
    (forall a, acc = Some a -> 0 <= a) ->
    readDigits radix acc s = Some m -> 0 <= m.
Proof.
  intros Hr. induction s as [|c s IH]; intros acc m Hacc; simpl.
  - intros H. apply Hacc. exact H.
  - destruct (digitValue radix c) as [d|] eqn:E.
    + apply IH. intros a Ha. injection Ha as <-.
      apply digitValue_nonneg in E.
      destruct acc as [a0|]; cbn [from_option id].
      * specialize (Hacc a0 eq_refl). nia.
      * lia.
    + intros H. apply Hacc. exact H.
Qed.

Lemma roundDouble_nonneg (n : Z) : 0 <= n -> 0 <= roundDouble n.
Proof.
  intros Hn. unfold roundDouble.
  destruct (n <? 2 ^ 53); [exact Hn|]. cbv zeta.
  apply Z.shiftl_nonneg.
  assert (Hq : 0 <= Z.shiftr n (Z.log2 n - 52)) by (apply Z.shiftr_nonneg; exact Hn).
  destruct (_ || _); lia.
Qed.

(** [parseInt] gives NaN, an integer or an infinity. *)
Lemma parseInt_cases (s : jsstring) :
  parseInt s = NaN \/ (exists z, parseInt s = Fin z) \/
  (exists negative, parseInt s = Inf negative).
Proof.
  unfold parseInt. destruct (readDigits _ None _) as [m|]; [|left; reflexivity].
  cbv zeta. destruct (roundDouble m <? 2 ^ 1024); right; [left | right]; eauto.
Qed.

(** Without a leading minus sign the parsed integer is not negative. *)
Lemma parseInt_nonneg (s : jsstring) (z : Z) :
  startsWith (trimStart s) (js "-") = false ->
  parseInt s = Fin z -> 0 <= z.
Proof.
  unfold parseInt. intros Hminus. rewrite Hminus.
  set (s2 := if false || startsWith (trimStart s) (js "+")
             then skipn 1 (trimStart s) else trimStart s).
  set (hex := startsWith s2 (js "0x") || startsWith s2 (js "0X")).
  destruct (readDigits _ None _) as [m|] eqn:E; [|discriminate].
  cbv zeta. destruct (roundDouble m <? 2 ^ 1024); [|discriminate].
  intros H. assert (Hz : z = roundDouble m) by congruence. subst z.
  apply roundDouble_nonneg.
  apply readDigits_nonneg in E.
  - exact E.
  - destruct hex; lia.
  - discriminate.
Qed.

Lemma intCell_falsy (v : JsVal) (d : Z) :
  truthy v = false -> intCell v d = numOr (parseInt (ofZ d)) d.
Proof. intros H. unfold intCell, jsOr. rewrite H. reflexivity. Qed.

Lemma intCell_truthy (v : JsVal) (d : Z) :
  truthy v = true -> intCell v d = numOr (parseInt (toString v)) d.
Proof. intros H. unfold intCell, jsOr. rewrite H. reflexivity. Qed.

Lemma numOr_zero (n : Num) :
  numOr n 0 = match n with Fin z => z | _ => 0 end.
Proof.
  unfold numOr, jsOr. destruct n as [|z|b|t]; try reflexivity. cbn [truthy].
  destruct (Z.eqb_spec z 0) as [->|]; reflexivity.
Qed.

Ltac labels_differ :=
  let H := fresh in intros H; vm_compute in H; discriminate H.

Lemma validateExcelPropertyRow_money (r : Row) (k : string) (v : JsVal) :
  In k propertyMoney ->
  validateExcelPropertyRow (<[js k := v]> r) = validateExcelPropertyRow r /\
  cell (<[js k := v]> r) "ｱﾊﾟｰﾄ" = cell r "ｱﾊﾟｰﾄ" /\
  cell (<[js k := v]> r) "物件名" = cell r "物件名".
Proof.
  intros Hk. unfold validateExcelPropertyRow.
  simpl in Hk. destruct Hk as [<- | [<- | [<- | []]]];
    rewrite !cell_insert_ne by labels_differ; repeat split; reflexivity.
Qed.

Lemma validateExcelTenantRow_money (r : Row) (k : string) (v : JsVal) :
  In k tenantMoney ->
  validateExcelTenantRow (<[js k := v]> r) = validateExcelTenantRow r /\
  cell (<[js k := v]> r) "ｱﾊﾟｰﾄ" = cell r "ｱﾊﾟｰﾄ" /\
  cell (<[js k := v]> r) "カナ" = cell r "カナ".
Proof.
  intros Hk. unfold validateExcelTenantRow.
  simpl in Hk. destruct Hk as [<- | [<- | []]];
    rewrite !cell_insert_ne by labels_differ; repeat split; reflexivity.
Qed.

Lemma app_one_neq {A : Type} (l : list A) (x : A) : l <> l ++ [x].
Proof.
  intros H. apply (f_equal (@length A)) in H. rewrite length_app in H.
  simpl in H. lia.
Qed.

Section Cells.

Variable propertyNow : Z -> Z.
Variable tenantNow : Z -> Z.
Variable tenantToday : Z -> jsstring.

Let stepP := propertyStep propertyNow.
Let stepT := tenantStep tenantNow tenantToday.

Lemma propertyStep_money_fields (acc : rentAcc) (r : Row) (i : Z) (p : Property.t) :
  rent_properties (stepP acc r i) = rent_properties acc ++ [p] ->
  Property.rent_cost p = intCell (cell r "家賃") 0 /\
  Property.rent_price_uns p = intCell (cell r "USN家賃") 0 /\
  Property.parking_cost p = intCell (cell r "駐車場代") 0.
Proof.
  unfold stepP, propertyStep.
  destruct (negb (validateExcelPropertyRow r)); cbn [rent_properties].
  { intros H. destruct (app_one_neq _ _ H). }
  destruct (eqb _ []); cbn [rent_properties].
  { intros H. destruct (app_one_neq _ _ H). }
  intros H. apply app_inv_head in H. injection H as <-.
  repeat split; reflexivity.
Qed.

Lemma tenantStep_money_fields (acc : rentAcc) (r : Row) (i : Z) (t : Tenant.t) :
  rent_tenants (stepT acc r i) = rent_tenants acc ++ [t] ->
  Tenant.rent_contribution t = intCell (cell r "家賃") 0 /\
  Tenant.parking_fee t = intCell (cell r "駐車場") 0.
Proof.
  unfold stepT, tenantStep.
  destruct (negb (validateExcelTenantRow r)); cbn [rent_tenants].
  { intros H. destruct (app_one_neq _ _ H). }
  destruct (eqb _ [] || eqb _ []); cbn [rent_tenants].
  { intros H. destruct (app_one_neq _ _ H). }
  destruct (findByName _ _); cbn [rent_tenants].
  2:{ intros H. destruct (app_one_neq _ _ H). }
  intros H. apply app_inv_head in H. injection H as <-.
  split; reflexivity.
Qed.

Lemma propertyStep_money_errors (acc : rentAcc) (r : Row) (i : Z)
    (k : string) (v : JsVal) :
  In k propertyMoney ->
  rent_errors (stepP acc (<[js k := v]> r) i) = rent_errors (stepP acc r i).
Proof.
  intros Hk. unfold stepP, propertyStep.
  destruct (validateExcelPropertyRow_money r k v Hk) as (-> & -> & ->).
  destruct (negb (validateExcelPropertyRow r)); [reflexivity|].
  destruct (eqb _ []); reflexivity.
Qed.

Lemma tenantStep_money_errors (acc : rentAcc) (r : Row) (i : Z)
    (k : string) (v : JsVal) :
  In k tenantMoney ->
  rent_errors (stepT acc (<[js k := v]> r) i) = rent_errors (stepT acc r i).
Proof.
  intros Hk. unfold stepT, tenantStep.
  destruct (validateExcelTenantRow_money r k v Hk) as (-> & -> & ->).
  destruct (negb (validateExcelTenantRow r)); [reflexivity|].
  destruct (eqb _ [] || eqb _ []); [reflexivity|].
  destruct (findByName _ _); reflexivity.
Qed.

(** C6, as the code has it: a monetary cell [v] becomes
    [parseInt(String(v || 0)) || 0], and its content never changes the
    errors of its row.  For a value of a cell whose digits do not read to an
    infinity, the field is the integer that [parseInt] reads, rounded to a
    double, and 0 when it reads none; it is 0 when the cell is missing,
    blank or otherwise falsy; and it is not negative when the text has no
    leading minus sign.  The accepted row carries these values in its
    monetary fields. *)
Theorem C6_money_cells_coerced (v : JsVal) :
  (forall acc r i k, In k propertyMoney ->
     rent_errors (stepP acc (<[js k := v]> r) i) = rent_errors (stepP acc r i)) /\
  (forall acc r i k, In k tenantMoney ->
     rent_errors (stepT acc (<[js k := v]> r) i) = rent_errors (stepT acc r i)) /\
  (readable v = true ->
     let reading := parseInt (toString (jsOr v (JNum (Fin 0)))) in
     (reading = NaN /\ intCell v 0 = 0 \/
      exists z, reading = Fin z /\ intCell v 0 = z) /\
     (truthy v = false -> intCell v 0 = 0) /\
     (parseInt (toString v) = NaN -> intCell v 0 = 0) /\
     (startsWith (trimStart (toString v)) (js "-") = false -> 0 <= intCell v 0)) /\
  (forall acc r i p,
     readable (cell r "家賃") = true ->
     readable (cell r "USN家賃") = true ->
     readable (cell r "駐車場代") = true ->
     rent_properties (stepP acc r i) = rent_properties acc ++ [p] ->
     Property.rent_cost p = intCell (cell r "家賃") 0 /\
     Property.rent_price_uns p = intCell (cell r "USN家賃") 0 /\
     Property.parking_cost p = intCell (cell r "駐車場代") 0) /\
  (forall acc r i t,
     readable (cell r "家賃") = true ->
     readable (cell r "駐車場") = true ->
     rent_tenants (stepT acc r i) = rent_tenants acc ++ [t] ->
     Tenant.rent_contribution t = intCell (cell r "家賃") 0 /\
     Tenant.parking_fee t = intCell (cell r "駐車場") 0).
Proof.
  split; [intros acc r i k; apply propertyStep_money_errors|].
  split; [intros acc r i k; apply tenantStep_money_errors|].
  split.
  2:{ split; [intros acc r i p _ _ _; apply propertyStep_money_fields|].
      intros acc r i t _ _; apply tenantStep_money_fields. }
  intros Hread. cbv zeta.
  assert (Hfalsy : truthy v = false -> intCell v 0 = 0).
  { intros H. rewrite (intCell_falsy v 0 H). vm_compute. reflexivity. }
  split.
  { unfold readable in Hread. apply andb_true_iff in Hread. destruct Hread as [_ Hread].
    unfold intCell. rewrite numOr_zero.
    destruct (parseInt_cases (toString (jsOr v (JNum (Fin 0)))))
      as [E | [[z E] | [b E]]]; rewrite E in *.
    - left. split; reflexivity.
    - right. exists z. split; reflexivity.
    - discriminate. }
  split; [exact Hfalsy|].
  split.
  { intros H. destruct (truthy v) eqn:T; [|apply Hfalsy; reflexivity].
    rewrite (intCell_truthy v 0 T), H. reflexivity. }
  intros H. destruct (truthy v) eqn:T.
  - rewrite (intCell_truthy v 0 T), numOr_zero.
    destruct (parseInt (toString v)) as [|z|b|t] eqn:E; try lia.
    apply (parseInt_nonneg _ _ H E).
  - rewrite (Hfalsy eq_refl). lia.
Qed.

End Cells.

(** *** Tenant rows and the candidate properties *)

Lemma forEachFrom_app {S A : Type} (f : S -> A -> Z -> S)
    (l1 l2 : list A) (i : Z) (s : S) :
  forEachFrom f i (l1 ++ l2) s =
  forEachFrom f (i + Z.of_nat (length l1)) l2 (forEachFrom f i l1 s).
Proof.
  revert i s. induction l1 as [|x l1 IH]; intros i s.
  - simpl. rewrite Z.add_0_r. reflexivity.
  - cbn [app forEachFrom]. rewrite IH. f_equal. simpl length. lia.
Qed.

Lemma findByName_None (properties : list Property.t) (apt : jsstring) :
  findByName properties apt = None <->
  forall p, In p properties -> Property.name p <> apt.
Proof.
  unfold findByName. split.
  - intros H p Hin Heq. pose proof (find_none _ _ H p Hin) as Hf.
    cbv beta in Hf. apply eqb_false in Hf. contradiction.
  - intros H. destruct (find _ properties) as [p|] eqn:E; [|reflexivity].
    apply find_some in E. destruct E as [Hin Heq]. apply eqb_true in Heq.
    destruct (H p Hin Heq).
Qed.

Lemma notFoundMessage_names (apt : jsstring) :
  includes (notFoundMessage apt) apt = true.
Proof.
  unfold notFoundMessage.
  replace (js "Propiedad " ++ dquote ++ apt ++ dquote ++ js " no encontrada")
    with ((js "Propiedad " ++ dquote) ++ apt ++ (dquote ++ js " no encontrada")).
  - apply includes_middle.
  - rewrite <- app_assoc. reflexivity.
Qed.

Section RentRun.

Variable propertyNow : Z -> Z.
Variable tenantNow : Z -> Z.
Variable tenantToday : Z -> jsstring.

Let stepP := propertyStep propertyNow.
Let stepT := tenantStep tenantNow tenantToday.

Lemma propertyStep_tenants acc r i : rent_tenants (stepP acc r i) = rent_tenants acc.
Proof.
  unfold stepP, propertyStep. destruct (negb _); [reflexivity|].
  destruct (eqb _ []); reflexivity.
Qed.

Lemma propertyLoop_tenants rows i acc :
  rent_tenants (forEachFrom stepP i rows acc) = rent_tenants acc.
Proof.
  revert i acc. induction rows as [|r rows IH]; intros i acc; simpl.
  - reflexivity.
  - rewrite IH. apply propertyStep_tenants.
Qed.

Lemma afterProperties_tenants workbook sheetNames :
  rent_tenants (afterProperties propertyNow workbook sheetNames) = [].
Proof.
  unfold afterProperties. destruct (find _ _); [|reflexivity].
  unfold forEach. apply propertyLoop_tenants.
Qed.

(** A tenant step only appends, and what it appends depends on the state
    through the candidate properties alone. *)
Lemma tenantStep_frame acc r i :
  stepT acc r i =
  mkRentAcc
    (rent_errors acc ++
       rent_errors (stepT (mkRentAcc [] (rent_properties acc) []) r i))
    (rent_properties acc)
    (rent_tenants acc ++
       rent_tenants (stepT (mkRentAcc [] (rent_properties acc) []) r i)).
Proof.
  unfold stepT, tenantStep. cbn [rent_errors rent_properties rent_tenants].
  destruct (negb (validateExcelTenantRow r)).
  { rewrite app_nil_r. reflexivity. }
  destruct (eqb _ [] || eqb _ []).
  { rewrite app_nil_r. reflexivity. }
  destruct (findByName _ _); cbn [rent_errors rent_properties rent_tenants];
    rewrite app_nil_r; reflexivity.
Qed.

Lemma tenantLoop_frame rows i acc :
  forEachFrom stepT i rows acc =
  mkRentAcc
    (rent_errors acc ++
       rent_errors (tenantRows tenantNow tenantToday (rent_properties acc) i rows))
    (rent_properties acc)
    (rent_tenants acc ++
       rent_tenants (tenantRows tenantNow tenantToday (rent_properties acc) i rows)).
Proof.
  unfold tenantRows. change (tenantStep tenantNow tenantToday) with stepT.
  revert i acc. induction rows as [|r rows IH]; intros i acc.
  - simpl. rewrite !app_nil_r. destruct acc; reflexivity.
  - cbn [forEachFrom]. rewrite IH.
    rewrite (IH (i + 1) (stepT (mkRentAcc [] (rent_properties acc) []) r i)).
    rewrite (tenantStep_frame acc r i).
    cbn [rent_errors rent_properties rent_tenants].
    rewrite (tenantStep_frame (mkRentAcc [] (rent_properties acc) []) r i).
    cbn [rent_errors rent_properties rent_tenants app].
    rewrite <- !app_assoc. reflexivity.
Qed.

(** The step of a tenant row whose trimmed apartment name is the name of no
    candidate: exactly one error, numbered by the row, and no tenant. *)
Lemma tenantStep_unmatched candidates r i :
  (forall p, In p candidates ->
     Property.name p <> trim (toString (cell r "ｱﾊﾟｰﾄ"))) ->
  exists e,
    stepT (mkRentAcc [] candidates []) r i = mkRentAcc [e] candidates [] /\
    row e = i + 1 /\
    (validateExcelTenantRow r = true ->
     trim (toString (cell r "ｱﾊﾟｰﾄ")) <> [] ->
     trim (toString (cell r "カナ")) <> [] ->
     e = mkRowError (i + 1) (js "apartamento")
           (notFoundMessage (trim (toString (cell r "ｱﾊﾟｰﾄ"))))).
Proof.
  intros Hno. apply findByName_None in Hno.
  unfold stepT, tenantStep. cbn [rent_errors rent_properties rent_tenants app].
  destruct (validateExcelTenantRow r); cbn [negb].
  2:{ eexists. split; [reflexivity|]. split; [reflexivity|]. discriminate. }
  destruct (eqb (trim (toString (cell r "ｱﾊﾟｰﾄ"))) []) eqn:Ea; cbn [orb].
  { eexists. split; [reflexivity|]. split; [reflexivity|].
    intros _ H. apply eqb_true in Ea. contradiction. }
  destruct (eqb (trim (toString (cell r "カナ"))) []) eqn:Ek.
  { eexists. split; [reflexivity|]. split; [reflexivity|].
    intros _ _ H. apply eqb_true in Ek. contradiction. }
  rewrite Hno. eexists. split; [reflexivity|]. split; reflexivity.
Qed.

Lemma tenantLoop_unmatched (acc : rentAcc) (before after : list Row) (r : Row) :
  (forall p, In p (rent_properties acc) ->
     Property.name p <> trim (toString (cell r "ｱﾊﾟｰﾄ"))) ->
  exists e,
    forEachFrom stepT 0 (before ++ r :: after) acc =
    mkRentAcc
      (rent_errors acc ++
       rent_errors (tenantRows tenantNow tenantToday (rent_properties acc) 0 before) ++
       [e] ++
       rent_errors (tenantRows tenantNow tenantToday (rent_properties acc)
                      (Z.of_nat (length before) + 1) after))
      (rent_properties acc)
      (rent_tenants acc ++
       rent_tenants (tenantRows tenantNow tenantToday (rent_properties acc) 0 before) ++
       rent_tenants (tenantRows tenantNow tenantToday (rent_properties acc)
                       (Z.of_nat (length before) + 1) after)) /\
    row e = Z.of_nat (length before) + 1 /\
    (validateExcelTenantRow r = true ->
     trim (toString (cell r "ｱﾊﾟｰﾄ")) <> [] ->
     trim (toString (cell r "カナ")) <> [] ->
     e = mkRowError (Z.of_nat (length before) + 1) (js "apartamento")
           (notFoundMessage (trim (toString (cell r "ｱﾊﾟｰﾄ"))))).
Proof.
  intros Hno.
  destruct (tenantStep_unmatched (rent_properties acc) r
              (Z.of_nat (length before)) Hno) as (e & Hstep & Hrow & Hmsg).
  exists e. split; [|split; [exact Hrow | exact Hmsg]].
  rewrite forEachFrom_app. cbn [forEachFrom]. rewrite Z.add_0_l.
  rewrite (tenantLoop_frame before 0 acc).
  rewrite tenantStep_frame. cbn [rent_errors rent_properties rent_tenants].
  fold stepT in Hstep. rewrite Hstep.
  cbn [rent_errors rent_properties rent_tenants].
  rewrite tenantLoop_frame. cbn [rent_errors rent_properties rent_tenants].
  rewrite app_nil_r, <- !app_assoc. reflexivity.
Qed.

(** C2, as the code has it: in a run whose tenant sheet holds the row [r]
    at position [index], if the trimmed apartment name of [r] is the name
    of no property candidate of the run, then [r] adds exactly one error,
    numbered [index + 1], between the errors of the rows before it and
    those of the rows after it, and no tenant candidate; that error is the
    one of field apartamento whose message names the apartment when [r]
    passes the row schema with non-empty apartment and kana; and the run
    does not succeed.  Only the candidates of the run are searched: the
    pipeline is not given the store. *)
Theorem C2_unmatched_tenant_row
    (workbook : Workbook) (sheetNames : list jsstring) (tenantSheet : jsstring)
    (before after : list Row) (r : Row) :
  find isTenantSheet sheetNames = Some tenantSheet ->
  sheet_to_json workbook tenantSheet = before ++ r :: after ->
  let candidates := candidateProperties propertyNow workbook sheetNames in
  let index := Z.of_nat (length before) in
  let apt := trim (toString (cell r "ｱﾊﾟｰﾄ")) in
  (forall p, In p candidates -> Property.name p <> apt) ->
  let res :=
    processRentImport propertyNow tenantNow tenantToday workbook sheetNames in
  exists e integrityErrors,
    row e = index + 1 /\
    (validateExcelTenantRow r = true ->
     apt <> [] ->
     trim (toString (cell r "カナ")) <> [] ->
     e = mkRowError (index + 1) (js "apartamento") (notFoundMessage apt)) /\
    includes (notFoundMessage apt) apt = true /\
    errors res =
      rent_errors (afterProperties propertyNow workbook sheetNames) ++
      rent_errors (tenantRows tenantNow tenantToday candidates 0 before) ++
      [e] ++
      rent_errors (tenantRows tenantNow tenantToday candidates (index + 1) after) ++
      integrityErrors /\
    data res =
      Some (mkData (Some candidates)
              (Some (rent_tenants (tenantRows tenantNow tenantToday candidates 0 before) ++
                     rent_tenants (tenantRows tenantNow tenantToday candidates
                                     (index + 1) after)))
              None) /\
    success res = false.
Proof.
  intros Hfind Hrows. cbv zeta. intros Hno.
  unfold processRentImport.
  change (match find isPropertySheet sheetNames with
          | Some propSheet =>
              forEach (propertyStep propertyNow)
                (sheet_to_json workbook propSheet) (mkRentAcc [] [] [])
          | None => mkRentAcc [] [] []
          end) with (afterProperties propertyNow workbook sheetNames).
  rewrite Hfind, Hrows. unfold forEach.
  change (tenantStep tenantNow tenantToday) with stepT.
  destruct (tenantLoop_unmatched (afterProperties propertyNow workbook sheetNames)
              before after r Hno) as (e & Hloop & Hrow & Hmsg).
  rewrite Hloop. cbn [rent_errors rent_properties rent_tenants].
  rewrite afterProperties_tenants. cbn [app].
  eexists e, _. split; [exact Hrow|]. split; [exact Hmsg|].
  split; [apply notFoundMessage_names|].
  cbn [errors data success].
  split; [|split].
  - rewrite <- !app_assoc. reflexivity.
  - reflexivity.
  - rewrite !length_app. cbn [length].
    replace (_ =? 0)%nat with false; [reflexivity|].
    symmetry. apply Nat.eqb_neq. lia.
Qed.

End RentRun.

End ImportFacts.


(** *** The pipelines on concrete workbooks *)

Module ImportExamples.
Import ExcelImport Notions Samples ImportFacts.

(** Scenario of the specification: one property row and one tenant row of
    the same apartment. *)
Example scenario_matching :
  let wb := rentWorkbook [sakuraRow] [tenantRow "Sakura" "タナカ"] in
  let res := processFile propertyNow tenantNow tenantToday (mkFile true (inr wb)) in
  type res = Some rent_management /\
  map (fun p => (Property.name p, Property.capacity p, Property.rent_cost p,
                 Property.rent_price_uns p)) (propertiesOf res)
    = [(js "Sakura", 2, 50000, 80000)] /\
  map (fun t => (Tenant.name_kana t, Tenant.rent_contribution t, Tenant.property_id t))
      (tenantsOf res)
    = [(js "タナカ", 40000, 1700000000000)] /\
  errors res = [] /\ success res = true.
Proof. vm_compute. repeat split; reflexivity. Qed.

(** Scenario of the specification: the tenant row names the apartment
    Unknown. *)
Example scenario_unknown :
  let res := run (rentWorkbook [sakuraRow] [tenantRow "Unknown" "タナカ"])
                 [js "物件"; js "入居"] in
  errors res =
    [mkRowError 1 (js "apartamento")
       (js "Propiedad " ++ dquote ++ js "Unknown" ++ dquote ++ js " no encontrada")] /\
  tenantsOf res = [] /\ success res = false.
Proof. vm_compute. repeat split; reflexivity. Qed.

(** C2 as stated fails on a tenant sheet of two rows.  The first cell
    [" Sakura"] is not the name ["Sakura"] of the only candidate, and the
    row still becomes a tenant of that candidate without any error.  The
    second row names the apartment Unknown with an empty kana: its single
    error is the one about the required cells, not the one about the
    property. *)
Lemma C2_untrimmed_name_and_empty_kana :
  let rows := [tenantRow " Sakura" "タナカ"; tenantRow "Unknown" ""] in
  let res := run (rentWorkbook [sakuraRow] rows) [js "物件"; js "入居"] in
  map Property.name (propertiesOf res) = [js "Sakura"] /\
  cell (tenantRow " Sakura" "タナカ") "ｱﾊﾟｰﾄ" <> JStr (js "Sakura") /\
  map (fun t => (Tenant.employee_id t, Tenant.property_id t)) (tenantsOf res)
    = [(js "IMP-0", 1700000000000)] /\
  errors res =
    [mkRowError 2 (js "apt/kana") (js "Apartamento y Kana requeridos")].
Proof.
  cbv zeta. split; [vm_compute; reflexivity|].
  split; [vm_compute; discriminate|].
  split; vm_compute; reflexivity.
Qed.

(** The theorem of C2 at the second scenario. *)
Lemma C2_unmatched_tenant_row_witness :
  let wb := rentWorkbook [sakuraRow] [tenantRow "Unknown" "タナカ"] in
  let names := [js "物件"; js "入居"] in
  find isTenantSheet names = Some (js "入居") /\
  sheet_to_json wb (js "入居") = [] ++ tenantRow "Unknown" "タナカ" :: [] /\
  (forall p, In p (candidateProperties propertyNow wb names) ->
     Property.name p <> trim (toString (cell (tenantRow "Unknown" "タナカ") "ｱﾊﾟｰﾄ"))) /\
  success (run wb names) = false.
Proof.
  cbv zeta.
  assert (H1 : find isTenantSheet [js "物件"; js "入居"] = Some (js "入居"))
    by (vm_compute; reflexivity).
  assert (H2 : sheet_to_json (rentWorkbook [sakuraRow] [tenantRow "Unknown" "タナカ"])
                 (js "入居") = [] ++ tenantRow "Unknown" "タナカ" :: [])
    by (vm_compute; reflexivity).
  assert (H3 : forall p,
             In p (candidateProperties propertyNow
                     (rentWorkbook [sakuraRow] [tenantRow "Unknown" "タナカ"])
                     [js "物件"; js "入居"]) ->
             Property.name p <>
             trim (toString (cell (tenantRow "Unknown" "タナカ") "ｱﾊﾟｰﾄ"))).
  { intros p Hin. vm_compute in Hin. destruct Hin as [<- | []].
    vm_compute. discriminate. }
  split; [exact H1|]. split; [exact H2|]. split; [exact H3|].
  destruct (C2_unmatched_tenant_row propertyNow tenantNow tenantToday
              _ _ _ _ _ _ H1 H2 H3) as (e & ie & _ & _ & _ & _ & _ & Hs).
  exact Hs.
Defined.

(** C6 as stated fails: a property row whose 家賃 cell is the number -500
    and a tenant row whose 家賃 cell is the text -500 are accepted without
    error, with a negative rent. *)
Lemma C6_negative_cell :
  let p := mkRow [col "ｱﾊﾟｰﾄ" (JStr (js "Sakura")); col "家賃" (JNum (Fin (-500)))] in
  let t := mkRow [col "ｱﾊﾟｰﾄ" (JStr (js "Sakura")); col "カナ" (JStr (js "タナカ"));
                  col "家賃" (JStr (js "-500"))] in
  let res := run (rentWorkbook [p] [t]) [js "物件"; js "入居"] in
  map Property.rent_cost (propertiesOf res) = [-500] /\
  map Tenant.rent_contribution (tenantsOf res) = [-500] /\
  errors res = [] /\ success res = true.
Proof. vm_compute. repeat split; reflexivity. Qed.

(** The theorem of C6 at the blank cell and at a cell of text. *)
Lemma C6_money_cells_witness :
  readable (JStr []) = true /\ truthy (JStr []) = false /\ intCell (JStr []) 0 = 0 /\
  readable (JStr (js "未定")) = true /\
  parseInt (toString (JStr (js "未定"))) = NaN /\ intCell (JStr (js "未定")) 0 = 0.
Proof.
  assert (R1 : readable (JStr []) = true) by (vm_compute; reflexivity).
  assert (H1 : truthy (JStr []) = false) by reflexivity.
  assert (R2 : readable (JStr (js "未定")) = true) by (vm_compute; reflexivity).
  assert (H2 : parseInt (toString (JStr (js "未定"))) = NaN) by (vm_compute; reflexivity).
  split; [exact R1|]. split; [exact H1|].
  split; [exact (proj1 (proj2 (proj1 (proj2 (proj2
            (C6_money_cells_coerced propertyNow tenantNow tenantToday (JStr []))))
            R1)) H1)|].
  split; [exact R2|]. split; [exact H2|].
  exact (proj1 (proj2 (proj2 (proj1 (proj2 (proj2
           (C6_money_cells_coerced propertyNow tenantNow tenantToday
              (JStr (js "未定"))))) R2))) H2).
Defined.

Example intCell_examples :
  intCell JUndefined 0 = 0 /\ intCell (JStr (js "abc")) 0 = 0 /\
  intCell (JStr (js " 12,000")) 0 = 12 /\ intCell (JNum (Fin 50000)) 0 = 50000 /\
  intCell (JStr (js "50000円")) 0 = 50000 /\ intCell (JNum (Fin 0)) 2 = 2.
Proof. vm_compute. repeat split; reflexivity. Qed.

(** Cells that hold a number with a fraction, a number that [String] gives
    in exponent form, digits beyond 2^53, and digits that read to an
    infinity. *)
Example intCell_of_other_numbers :
  intCell (JNum (Other (js "12.5"))) 0 = 12 /\
  intCell (JNum (Other (js "1e+21"))) 0 = 1 /\
  intCell (JNum (Other (js "-0.5"))) 0 = 0 /\
  intCell (JStr (js "9007199254740993")) 0 = 9007199254740992 /\
  readable (JNum (Other (js "1e+21"))) = true /\
  parseInt (repeat 57%N 310) = Inf false /\
  readable (JStr (repeat 57%N 310)) = false.
Proof. vm_compute. repeat split; reflexivity. Qed.

(** The theorem of C7 at a workbook that has both a property sheet and an
    employee sheet. *)
Lemma C7_classification_witness :
  let wb := mkWorkbook [js "物件"; js "社員名簿"] (fun _ => []) in
  hasMarker employeeMarkers (SheetNames wb) /\
  hasMarker propertyMarkers (SheetNames wb) /\
  type (processFile propertyNow tenantNow tenantToday (mkFile true (inr wb)))
    = Some employees_type.
Proof.
  cbv zeta.
  assert (He : hasMarker employeeMarkers [js "物件"; js "社員名簿"]).
  { exists (js "社員名簿"). split; [right; left; reflexivity|].
    exists (js "社員"), [], (js "名簿").
    split; [right; right; left; reflexivity | vm_compute; reflexivity]. }
  assert (Hp : hasMarker propertyMarkers [js "物件"; js "社員名簿"]).
  { exists (js "物件"). split; [left; reflexivity|].
    exists (js "物件"), [], [].
    split; [right; left; reflexivity | vm_compute; reflexivity]. }
  split; [exact He|]. split; [exact Hp|].
  exact (proj2 (proj1 (C7_classification_priority propertyNow tenantNow tenantToday
                         (mkWorkbook [js "物件"; js "社員名簿"] (fun _ => []))) He)).
Defined.

Example unrecognized_workbook :
  processFile propertyNow tenantNow tenantToday
    (mkFile true (inr (mkWorkbook [js "Sheet1"; js "genzai"] (fun _ => []))))
  = mkResult false None None [] (js "No se detectó formato válido de importación").
Proof. vm_compute. reflexivity. Qed.

(** A blank 社員No in a sheet without ID column is read as
    [String(undefined)], which is not empty. *)
Example employee_rows :
  let rows :=
    [mkRow [col "社員No" (JNum (Fin 1001)); col "氏名" (JStr (js "田中"));
            col "カナ" (JStr (js "タナカ")); col "派遣先" (JStr (js "UNS"))];
     mkRow [col "社員No" (JStr []); col "氏名" (JStr (js "佐藤"));
            col "カナ" (JStr (js "サトウ")); col "派遣先" (JStr [])]] in
  let res := processEmployeeImport (mkWorkbook [js "社員"] (fun _ => rows)) [js "社員"] in
  option_map (fun d => map Employee.id (default [] (employees d))) (data res)
    = Some [js "1001"; js "undefined"] /\
  errors res = [] /\ success res = true.
Proof. vm_compute. repeat split; reflexivity. Qed.

End ImportExamples.


(** * Further properties *)

(** ** Excel import: the shape of a run *)

Module ImportRunFacts.
Import ExcelImport Notions MoreNotions Samples ImportFacts.

Lemma length_mapiFrom {A B : Type} (f : A -> Z -> B) (i : Z) (l : list A) :
  length (mapiFrom f i l) = length l.
Proof.
  revert i. induction l as [|x l IH]; intros i; simpl; [reflexivity|].
  rewrite IH. reflexivity.
Qed.

Lemma In_mapiFrom {A B : Type} (f : A -> Z -> B) (i : Z) (l : list A) (y : B) :
  In y (mapiFrom f i l) -> exists x j, In x l /\ y = f x j.
Proof.
  revert i. induction l as [|x l IH]; intros i; simpl; [tauto|].
  intros [<- | H].
  - exists x, i. tauto.
  - destruct (IH _ H) as (x' & j & Hin & ->). exists x', j. tauto.
Qed.

(** A property of the loop state that every step carries from one index to
    the next holds after the loop. *)
Lemma forEachFrom_invariant {S A : Type} (f : S -> A -> Z -> S)
    (P : Z -> S -> Prop) (rows : list A) :
  forall i s,
    P i s ->
    (forall j s' x, In x rows -> i <= j -> P j s' -> P (j + 1) (f s' x j)) ->
    P (i + Z.of_nat (length rows)) (forEachFrom f i rows s).
Proof.
  induction rows as [|x rows IH]; intros i s Hs Hstep.
  - simpl. rewrite Z.add_0_r. exact Hs.
  - cbn [forEachFrom].
    replace (i + Z.of_nat (length (x :: rows)))
      with ((i + 1) + Z.of_nat (length rows)) by (simpl length; lia).
    apply IH.
    + apply Hstep; [left; reflexivity | lia | exact Hs].
    + intros j s' y Hy Hj. apply Hstep; [right; exact Hy | lia].
Qed.

(** *** Employee rows *)

Lemma employeeStep_cases (acc : empAcc) (r : Row) (i : Z) :
  (exists err,
     row err = i + 1 /\
     employeeStep acc r i = mkEmpAcc (emp_errors acc ++ [err]) (emp_employees acc)) \/
  (exists e,
     readFrom r e /\ Employee.id e <> [] /\ Employee.name e <> [] /\
     employeeStep acc r i = mkEmpAcc (emp_errors acc) (emp_employees acc ++ [e])).
Proof.
  unfold employeeStep.
  destruct (negb (validateExcelEmployeeRow r)).
  { left. eexists. split; [|reflexivity]. reflexivity. }
  destruct (eqb (trim (toString (jsOr (cell r "社員No") (cell r "ID")))) []) eqn:Ei.
  { left. eexists. split; [|reflexivity]. reflexivity. }
  destruct (eqb (trim (toString (jsOr (cell r "氏名") (cell r "Name")))) []) eqn:En.
  { left. eexists. split; [|reflexivity]. reflexivity. }
  right. eexists. split; [|split; [|split; [|reflexivity]]].
  - repeat split; reflexivity.
  - apply eqb_false. exact Ei.
  - apply eqb_false. exact En.
Qed.

(** X2. In the employee pipeline every row of the sheet becomes either one
    candidate or one error, never both and never neither; the errors carry
    the 1-based numbers of their rows; and every candidate has a non-empty
    id and name, read from a row of the sheet that it keeps as
    [full_data]. *)
Theorem employee_rows_partition (workbook : Workbook)
    (sheetNames : list jsstring) (sheet : jsstring) :
  find isEmployeeSheet sheetNames = Some sheet ->
  let rows := sheet_to_json workbook sheet in
  let res := processEmployeeImport workbook sheetNames in
  exists candidates,
    data res = Some (mkData None None (Some candidates)) /\
    (length candidates + length (errors res) = length rows)%nat /\
    (forall e, In e candidates ->
       Employee.id e <> [] /\ Employee.name e <> [] /\
       exists r, In r rows /\ readFrom r e) /\
    (forall err, In err (errors res) ->
       1 <= row err <= Z.of_nat (length rows)).
Proof.
  intros Hfind. cbv zeta. unfold processEmployeeImport. rewrite Hfind.
  cbn [data errors]. unfold forEach.
  set (rows := sheet_to_json workbook sheet).
  pose proof (forEachFrom_invariant employeeStep
    (fun j acc =>
       Z.of_nat (length (emp_employees acc)) + Z.of_nat (length (emp_errors acc)) = j /\
       (forall e, In e (emp_employees acc) ->
          Employee.id e <> [] /\ Employee.name e <> [] /\
          exists r, In r rows /\ readFrom r e) /\
       (forall err, In err (emp_errors acc) -> 1 <= row err <= j))
    rows 0 (mkEmpAcc [] [])) as Hinv.
  cbn beta in Hinv.
  destruct Hinv as (Hlen & Hemp & Herr).
  - cbn. split; [reflexivity|]. split; intros x [].
  - intros j acc r Hr Hj (Hlen & Hemp & Herr).
    destruct (employeeStep_cases acc r j) as [(err & Hrow & ->) | (e & Hread & Hid & Hname & ->)];
      cbn [emp_errors emp_employees].
    + rewrite length_app. cbn [length]. split; [lia|]. split.
      * exact Hemp.
      * intros err' Hin. apply in_app_iff in Hin. destruct Hin as [Hin | [<- | []]].
        -- specialize (Herr _ Hin). lia.
        -- lia.
    + rewrite length_app. cbn [length]. split; [lia|]. split.
      * intros e' Hin. apply in_app_iff in Hin. destruct Hin as [Hin | [<- | []]].
        -- apply Hemp. exact Hin.
        -- split; [exact Hid|]. split; [exact Hname|]. exists r. tauto.
      * intros err' Hin. specialize (Herr _ Hin). lia.
  - eexists. split; [reflexivity|]. split; [lia|]. split; [exact Hemp|].
    intros err Hin. specialize (Herr _ Hin). lia.
Qed.

(** X7. A row that passes the row schema, whose 社員No cell is
    blank and which has no ID cell, is not rejected for its missing id: if
    its name is not blank it becomes the candidate whose id is the text
    undefined. *)
Theorem employee_blank_id_is_undefined (acc : empAcc) (r : Row) (i : Z) :
  validateExcelEmployeeRow r = true ->
  truthy (cell r "社員No") = false ->
  cell r "ID" = JUndefined ->
  trim (toString (jsOr (cell r "氏名") (cell r "Name"))) <> [] ->
  exists e,
    employeeStep acc r i = mkEmpAcc (emp_errors acc) (emp_employees acc ++ [e]) /\
    Employee.id e = js "undefined".
Proof.
  intros Hv Hno Hid Hname.
  assert (Hidv : trim (toString (jsOr (cell r "社員No") (cell r "ID")))
                 = js "undefined").
  { unfold jsOr. rewrite Hno, Hid. vm_compute. reflexivity. }
  unfold employeeStep. rewrite Hv, Hidv. cbn [negb].
  replace (eqb (js "undefined") []) with false by (vm_compute; reflexivity).
  cbn [orb]. apply eqb_false in Hname. rewrite Hname.
  eexists. split; reflexivity.
Qed.

Section Run.

Variable propertyNow : Z -> Z.
Variable tenantNow : Z -> Z.
Variable tenantToday : Z -> jsstring.

Let stepP := propertyStep propertyNow.
Let stepT := tenantStep tenantNow tenantToday.
Let runRent := processRentImport propertyNow tenantNow tenantToday.
Let runFile := processFile propertyNow tenantNow tenantToday.
Let final := afterTenants propertyNow tenantNow tenantToday.

Lemma processRentImport_final workbook sheetNames :
  runRent workbook sheetNames =
  let acc := final workbook sheetNames in
  let integrityCheck :=
    Integrity.validateDataIntegrity (rent_properties acc) (rent_tenants acc) in
  mkResult
    ((length (rent_errors acc) =? 0)%nat && Integrity.valid integrityCheck)
    (Some rent_management)
    (Some (mkData (Some (rent_properties acc)) (Some (rent_tenants acc)) None))
    (rent_errors acc ++
       mapiFrom
         (fun e i => mkRowError i (Integrity.type e) (Integrity.message e))
         0 (Integrity.errors integrityCheck))
    (rentSummary (length (rent_properties acc)) (length (rent_tenants acc))
       (length (rent_errors acc))
       (length (Integrity.errors integrityCheck))).
Proof. reflexivity. Qed.

Lemma rent_success_iff workbook sheetNames :
  success (runRent workbook sheetNames) =
  (length (errors (runRent workbook sheetNames)) =? 0)%nat.
Proof.
  rewrite processRentImport_final. cbv zeta. cbn [success errors].
  set (acc := final workbook sheetNames).
  rewrite length_app, length_mapiFrom.
  unfold Integrity.validateDataIntegrity. cbn [Integrity.valid Integrity.errors].
  destruct (length (rent_errors acc)); cbn; [reflexivity|reflexivity].
Qed.

(** X1. [processFile] answers success exactly when it ran a pipeline and
    that pipeline reported no error at all, of a row or of integrity; and it
    carries data exactly when it ran a pipeline. *)
Theorem processFile_success_means_no_error (file : File) :
  let res := runFile file in
  success res =
    match type res with
    | Some _ => (length (errors res) =? 0)%nat
    | None => false
    end /\
  (type res = None <-> data res = None).
Proof.
  cbv zeta. unfold runFile, processFile.
  destruct (negb (XLSX_loaded file)).
  { cbn. split; [reflexivity | tauto]. }
  destruct (read file) as [e | workbook].
  { cbn. split; [reflexivity | tauto]. }
  destruct (existsb isEmployeeSheet (SheetNames workbook)).
  - unfold processEmployeeImport.
    destruct (find isEmployeeSheet (SheetNames workbook)); cbn.
    + split; [reflexivity | split; discriminate].
    + split; [reflexivity | tauto].
  - destruct (existsb isPropertySheet (SheetNames workbook)
              || existsb isTenantSheet (SheetNames workbook)).
    + fold (runRent workbook (SheetNames workbook)).
      split; [|rewrite processRentImport_final; cbn; split; discriminate].
      rewrite rent_success_iff. rewrite processRentImport_final at 2. reflexivity.
    + cbn. split; [reflexivity | tauto].
Qed.

(** *** Property and tenant rows *)

Lemma propertyStep_cases (acc : rentAcc) (r : Row) (i : Z) :
  (exists err,
     row err = i + 1 /\ In (field err) rowErrorFields /\
     stepP acc r i =
       mkRentAcc (rent_errors acc ++ [err]) (rent_properties acc) (rent_tenants acc)) \/
  (exists p,
     Property.id p = propertyNow i + i /\
     stepP acc r i =
       mkRentAcc (rent_errors acc) (rent_properties acc ++ [p]) (rent_tenants acc)).
Proof.
  unfold stepP, propertyStep.
  destruct (negb (validateExcelPropertyRow r)).
  { left. eexists. split; [|split; [|reflexivity]]; [reflexivity|].
    cbn [field]. left. reflexivity. }
  destruct (eqb _ []).
  { left. eexists. split; [|split; [|reflexivity]]; [reflexivity|].
    cbn [field]. right. left. reflexivity. }
  right. eexists. split; [|reflexivity]. reflexivity.
Qed.

Lemma tenantStep_cases (acc : rentAcc) (r : Row) (i : Z) :
  (exists err,
     row err = i + 1 /\ In (field err) rowErrorFields /\
     stepT acc r i =
       mkRentAcc (rent_errors acc ++ [err]) (rent_properties acc) (rent_tenants acc)) \/
  (exists t p,
     Tenant.id t = tenantNow i + i /\
     Tenant.status t = active /\
     Tenant.employee_id t = js "IMP-" ++ ofZ i /\
     In p (rent_properties acc) /\ Property.id p = Tenant.property_id t /\
     findByName (rent_properties acc) (trim (toString (cell r "ｱﾊﾟｰﾄ"))) = Some p /\
     stepT acc r i =
       mkRentAcc (rent_errors acc) (rent_properties acc) (rent_tenants acc ++ [t])).
Proof.
  unfold stepT, tenantStep.
  destruct (negb (validateExcelTenantRow r)).
  { left. eexists. split; [|split; [|reflexivity]]; [reflexivity|].
    cbn [field]. right. right. left. reflexivity. }
  destruct (eqb _ [] || eqb _ []).
  { left. eexists. split; [|split; [|reflexivity]]; [reflexivity|].
    cbn [field]. right. right. right. left. reflexivity. }
  destruct (findByName _ _) as [p|] eqn:E.
  - right. eexists. exists p.
    split; [|split; [|split; [|split; [|split; [|split; [|reflexivity]]]]]];
      try reflexivity.
    unfold findByName in E. apply find_some in E. tauto.
  - left. eexists. split; [|split; [|reflexivity]]; [reflexivity|].
    cbn [field]. right. right. right. right. left. reflexivity.
Qed.

(** The state after the property sheet: no tenant, one candidate or one
    error per row. *)
Lemma afterProperties_shape workbook sheetNames :
  let acc := afterProperties propertyNow workbook sheetNames in
  let rows := rowsOf isPropertySheet workbook sheetNames in
  rent_tenants acc = [] /\
  Z.of_nat (length (rent_properties acc)) + Z.of_nat (length (rent_errors acc))
    = Z.of_nat (length rows) /\
  (forall err, In err (rent_errors acc) -> In (field err) rowErrorFields) /\
  (forall p, In p (rent_properties acc) ->
     exists k, 0 <= k < Z.of_nat (length rows) /\ Property.id p = propertyNow k + k).
Proof.
  cbv zeta. unfold afterProperties, rowsOf.
  destruct (find isPropertySheet sheetNames) as [sheet|].
  2:{ cbn. split; [reflexivity|]. split; [reflexivity|]. split; intros x []. }
  unfold forEach.
  apply (forEachFrom_invariant (propertyStep propertyNow)
    (fun j acc =>
       rent_tenants acc = [] /\
       Z.of_nat (length (rent_properties acc)) + Z.of_nat (length (rent_errors acc)) = j /\
       (forall err, In err (rent_errors acc) -> In (field err) rowErrorFields) /\
       (forall p, In p (rent_properties acc) ->
          exists k, 0 <= k < j /\ Property.id p = propertyNow k + k))
    (sheet_to_json workbook sheet) 0 (mkRentAcc [] [] [])).
  - cbn. split; [reflexivity|]. split; [reflexivity|]. split; intros x [].
  - intros j acc r _ Hj (Ht & Hlen & Hf & Hid).
    destruct (propertyStep_cases acc r j) as [(err & Hrow & Hfield & Hs) | (p & Hp & Hs)];
      unfold stepP in Hs; rewrite Hs; cbn [rent_errors rent_properties rent_tenants].
    + rewrite length_app. cbn [length]. split; [exact Ht|]. split; [lia|]. split.
      * intros e Hin. apply in_app_iff in Hin. destruct Hin as [Hin | [<- | []]];
          [apply Hf; exact Hin | exact Hfield].
      * intros q Hq. destruct (Hid q Hq) as (k & Hk & Hk'). exists k. split; [lia | exact Hk'].
    + rewrite length_app. cbn [length]. split; [exact Ht|]. split; [lia|].
      split; [exact Hf|].
      intros q Hq. apply in_app_iff in Hq. destruct Hq as [Hq | [<- | []]].
      * destruct (Hid q Hq) as (k & Hk & Hk'). exists k. split; [lia | exact Hk'].
      * exists j. split; [lia | exact Hp].
Qed.

(** The state after both sheets. *)
Lemma afterTenants_shape workbook sheetNames :
  let accP := afterProperties propertyNow workbook sheetNames in
  let acc := final workbook sheetNames in
  let rows := rowsOf isTenantSheet workbook sheetNames in
  rent_properties acc = rent_properties accP /\
  Z.of_nat (length (rent_tenants acc)) + Z.of_nat (length (rent_errors acc))
    = Z.of_nat (length (rent_errors accP)) + Z.of_nat (length rows) /\
  (forall err, In err (rent_errors acc) -> In (field err) rowErrorFields) /\
  (forall t, In t (rent_tenants acc) ->
     Tenant.status t = active /\
     (exists p, In p (rent_properties accP) /\ Property.id p = Tenant.property_id t) /\
     (exists k, 0 <= k < Z.of_nat (length rows) /\
        Tenant.id t = tenantNow k + k /\ Tenant.employee_id t = js "IMP-" ++ ofZ k)).
Proof.
  cbv zeta. unfold final, afterTenants, rowsOf.
  destruct (afterProperties_shape workbook sheetNames) as (Ht0 & _ & Hf0 & _).
  set (accP := afterProperties propertyNow workbook sheetNames) in *.
  destruct (find isTenantSheet sheetNames) as [sheet|].
  2:{ rewrite Ht0. cbn [length]. split; [reflexivity|]. split; [lia|].
      split; [exact Hf0|]. intros t []. }
  unfold forEach.
  pose proof (forEachFrom_invariant (tenantStep tenantNow tenantToday)
    (fun j acc =>
       rent_properties acc = rent_properties accP /\
       Z.of_nat (length (rent_tenants acc)) + Z.of_nat (length (rent_errors acc))
         = Z.of_nat (length (rent_errors accP)) + j /\
       (forall err, In err (rent_errors acc) -> In (field err) rowErrorFields) /\
       (forall t, In t (rent_tenants acc) ->
          Tenant.status t = active /\
          (exists p, In p (rent_properties accP) /\ Property.id p = Tenant.property_id t) /\
          (exists k, 0 <= k < j /\
             Tenant.id t = tenantNow k + k /\ Tenant.employee_id t = js "IMP-" ++ ofZ k)))
    (sheet_to_json workbook sheet) 0 accP) as Hinv.
  cbn beta in Hinv. rewrite Z.add_0_l in Hinv. apply Hinv; clear Hinv.
  - rewrite Ht0. cbn [length]. split; [reflexivity|]. split; [lia|].
    split; [exact Hf0|]. intros t [].
  - intros j acc r _ Hj (Hp & Hlen & Hf & Hts).
    destruct (tenantStep_cases acc r j)
      as [(err & Hrow & Hfield & Hs) | (t & p & Hid & Hst & Hemp & Hin & Hpid & _ & Hs)];
      unfold stepT in Hs; rewrite Hs; cbn [rent_errors rent_properties rent_tenants].
    + rewrite length_app. cbn [length]. split; [exact Hp|]. split; [lia|]. split.
      * intros e He. apply in_app_iff in He. destruct He as [He | [<- | []]];
          [apply Hf; exact He | exact Hfield].
      * intros t Ht. destruct (Hts t Ht) as (H1 & H2 & (k & Hk & H3)).
        split; [exact H1|]. split; [exact H2|]. exists k. split; [lia | exact H3].
    + rewrite length_app. cbn [length]. split; [exact Hp|]. split; [lia|].
      split; [exact Hf|].
      intros t' Ht. apply in_app_iff in Ht. destruct Ht as [Ht | [<- | []]].
      * destruct (Hts t' Ht) as (H1 & H2 & (k & Hk & H3)).
        split; [exact H1|]. split; [exact H2|]. exists k. split; [lia | exact H3].
      * split; [exact Hst|]. split.
        -- exists p. rewrite <- Hp. tauto.
        -- exists j. split; [lia|]. tauto.
Qed.

Lemma result_lists workbook sheetNames :
  propertiesOf (runRent workbook sheetNames)
    = rent_properties (final workbook sheetNames) /\
  tenantsOf (runRent workbook sheetNames)
    = rent_tenants (final workbook sheetNames).
Proof. rewrite processRentImport_final. split; reflexivity. Qed.

Lemma no_unresolved (properties : list Property.t) (tenants : list Tenant.t) :
  (forall t, In t tenants ->
     exists p, In p properties /\ Property.id p = Tenant.property_id t) ->
  List.filter (unresolved properties) tenants = [].
Proof.
  intros H. induction tenants as [|t ts IH]; [reflexivity|]. simpl.
  destruct (unresolved properties t) eqn:E.
  - pose proof (proj1 (IntegrityFacts.unresolved_spec properties t) E) as E'.
    destruct (H t (or_introl eq_refl)) as (p & Hp & Hid). destruct (E' p Hp Hid).
  - apply IH. intros t' Ht'. apply H. right. exact Ht'.
Qed.

Lemma candidates_integrity workbook sheetNames :
  let acc := final workbook sheetNames in
  Integrity.errors
    (Integrity.validateDataIntegrity (rent_properties acc) (rent_tenants acc))
  = map (Integrity.capacityError (rent_tenants acc))
      (List.filter (overCapacity (rent_tenants acc)) (rent_properties acc)).
Proof.
  cbv zeta. rewrite IntegrityFacts.errors_eq, no_unresolved; [reflexivity|].
  destruct (afterTenants_shape workbook sheetNames) as (Hp & _ & _ & Ht).
  intros t Hin. destruct (Ht t Hin) as (_ & (p & Hpin & Hid) & _).
  exists p. rewrite Hp. tauto.
Qed.

(** X3. Every tenant candidate of a rent run is active and points at a
    property candidate of the same run, so the integrity check of the run
    never finds a broken reference: its errors are capacity errors only, and
    no error of the result has the field FK_ERROR. *)
Theorem import_tenants_resolved (workbook : Workbook) (sheetNames : list jsstring) :
  let res := runRent workbook sheetNames in
  (forall t, In t (tenantsOf res) ->
     Tenant.status t = active /\
     exists p, In p (propertiesOf res) /\ Property.id p = Tenant.property_id t) /\
  (forall e,
     In e (Integrity.errors
             (Integrity.validateDataIntegrity (propertiesOf res) (tenantsOf res))) ->
     Integrity.type e = js "CAPACITY_ERROR") /\
  (forall err, In err (errors res) -> field err <> js "FK_ERROR").
Proof.
  cbv zeta. destruct (result_lists workbook sheetNames) as [-> ->].
  destruct (afterTenants_shape workbook sheetNames) as (Hp & _ & Hf & Ht).
  fold final in Hp.
  pose proof (candidates_integrity workbook sheetNames) as Hint. cbv zeta in Hint.
  split; [|split].
  - intros t Hin. destruct (Ht t Hin) as (Hact & (p & Hpin & Hid) & _).
    split; [exact Hact|]. exists p. rewrite Hp. tauto.
  - rewrite Hint. intros e He. apply in_map_iff in He.
    destruct He as (p & <- & _). reflexivity.
  - rewrite processRentImport_final. cbv zeta. cbn [errors].
    intros err Hin. apply in_app_iff in Hin. destruct Hin as [Hin | Hin].
    + specialize (Hf err Hin). unfold rowErrorFields in Hf. simpl in Hf.
      intros Heq. rewrite Heq in Hf.
      destruct Hf as [H | [H | [H | [H | [H | []]]]]];
        vm_compute in H; discriminate H.
    + apply In_mapiFrom in Hin. destruct Hin as (e & j & He & ->). cbn [field].
      fold final in He. rewrite Hint in He. apply in_map_iff in He.
      destruct He as (p & <- & _). cbn [Integrity.type Integrity.capacityError].
      intros H. vm_compute in H. discriminate H.
Qed.

(** X4. In a rent run every row of the property sheet and of the tenant
    sheet becomes exactly one candidate or exactly one row error; the errors
    of the result are these row errors and one more for each property
    candidate that has more tenant candidates than places. *)
Theorem rent_rows_partition (workbook : Workbook) (sheetNames : list jsstring) :
  let res := runRent workbook sheetNames in
  (length (propertiesOf res) + length (tenantsOf res) + length (errors res)
   = length (rowsOf isPropertySheet workbook sheetNames)
     + length (rowsOf isTenantSheet workbook sheetNames)
     + length (List.filter (overCapacity (tenantsOf res)) (propertiesOf res)))%nat.
Proof.
  cbv zeta. destruct (result_lists workbook sheetNames) as [-> ->].
  destruct (afterProperties_shape workbook sheetNames) as (_ & HlenP & _ & _).
  destruct (afterTenants_shape workbook sheetNames) as (Hp & HlenT & _ & _).
  fold final in Hp, HlenT.
  rewrite processRentImport_final. cbv zeta. cbn [errors].
  rewrite length_app, length_mapiFrom.
  pose proof (candidates_integrity workbook sheetNames) as Hint. cbv zeta in Hint.
  rewrite Hint, length_map. rewrite Hp in *. lia.
Qed.

Lemma increasing_app_one (l : list Z) (x : Z) :
  increasing l -> (forall y, In y l -> y < x) -> increasing (l ++ [x]).
Proof.
  induction l as [|a l IH]; simpl.
  - intros _ _. split; [intros y [] | exact I].
  - intros [Ha Hl] Hx. split.
    + intros y Hy. apply in_app_iff in Hy. destruct Hy as [Hy | [<- | []]].
      * apply Ha. exact Hy.
      * apply Hx. left. reflexivity.
    + apply IH; [exact Hl|]. intros y Hy. apply Hx. right. exact Hy.
Qed.

Lemma increasing_NoDup (l : list Z) : increasing l -> List.NoDup l.
Proof.
  induction l as [|a l IH]; simpl; intros H; [constructor|].
  destruct H as [Ha Hl]. apply List.NoDup_cons; [|apply IH; exact Hl].
  intros Hin. specialize (Ha a Hin). lia.
Qed.

Lemma property_ids_increasing workbook sheetNames :
  monotone propertyNow ->
  increasing (map Property.id
                (rent_properties (afterProperties propertyNow workbook sheetNames))).
Proof.
  intros Hmono. unfold afterProperties.
  destruct (find isPropertySheet sheetNames) as [sheet|]; [|exact I].
  unfold forEach.
  apply (forEachFrom_invariant (propertyStep propertyNow)
    (fun j acc =>
       (increasing (map Property.id (rent_properties acc)) /\
        forall p, In p (rent_properties acc) ->
          exists k, 0 <= k < j /\ Property.id p = propertyNow k + k) /\ 0 <= j)
    (sheet_to_json workbook sheet) 0 (mkRentAcc [] [] [])).
  - cbn. split; [split; [exact I | intros p []] | lia].
  - intros j acc r _ Hj ((Hinc & Hid) & Hj0).
    destruct (propertyStep_cases acc r j) as [(err & _ & _ & Hs) | (p & Hp & Hs)];
      unfold stepP in Hs; rewrite Hs; cbn [rent_properties].
    + split; [split; [exact Hinc|] | lia].
      intros q Hq. destruct (Hid q Hq) as (k & Hk & Hk'). exists k. split; [lia | exact Hk'].
    + split; [split | lia].
      * rewrite map_app. cbn [map]. apply increasing_app_one; [exact Hinc|].
        intros y Hy. apply in_map_iff in Hy. destruct Hy as (q & <- & Hq).
        destruct (Hid q Hq) as (k & Hk & ->). rewrite Hp.
        pose proof (Hmono k j ltac:(lia) ltac:(lia)). lia.
      * intros q Hq. apply in_app_iff in Hq. destruct Hq as [Hq | [<- | []]].
        -- destruct (Hid q Hq) as (k & Hk & Hk'). exists k. split; [lia | exact Hk'].
        -- exists j. split; [lia | exact Hp].
Qed.

Lemma tenant_ids_increasing workbook sheetNames :
  monotone tenantNow ->
  increasing (map Tenant.id (rent_tenants (final workbook sheetNames))).
Proof.
  intros Hmono. unfold final, afterTenants.
  pose proof (afterProperties_tenants propertyNow workbook sheetNames) as Ht0.
  set (accP := afterProperties propertyNow workbook sheetNames) in *.
  destruct (find isTenantSheet sheetNames) as [sheet|]; [|rewrite Ht0; exact I].
  unfold forEach.
  apply (forEachFrom_invariant (tenantStep tenantNow tenantToday)
    (fun j acc =>
       (increasing (map Tenant.id (rent_tenants acc)) /\
        forall t, In t (rent_tenants acc) ->
          exists k, 0 <= k < j /\ Tenant.id t = tenantNow k + k) /\ 0 <= j)
    (sheet_to_json workbook sheet) 0 accP).
  - rewrite Ht0. cbn. split; [split; [exact I | intros p []] | lia].
  - intros j acc r _ Hj ((Hinc & Hid) & Hj0).
    destruct (tenantStep_cases acc r j)
      as [(err & _ & _ & Hs) | (t & p & Ht & _ & _ & _ & _ & _ & Hs)];
      unfold stepT in Hs; rewrite Hs; cbn [rent_tenants].
    + split; [split; [exact Hinc|] | lia].
      intros q Hq. destruct (Hid q Hq) as (k & Hk & Hk'). exists k. split; [lia | exact Hk'].
    + split; [split | lia].
      * rewrite map_app. cbn [map]. apply increasing_app_one; [exact Hinc|].
        intros y Hy. apply in_map_iff in Hy. destruct Hy as (q & <- & Hq).
        destruct (Hid q Hq) as (k & Hk & ->). rewrite Ht.
        pose proof (Hmono k j ltac:(lia) ltac:(lia)). lia.
      * intros q Hq. apply in_app_iff in Hq. destruct Hq as [Hq | [<- | []]].
        -- destruct (Hid q Hq) as (k & Hk & Hk'). exists k. split; [lia | exact Hk'].
        -- exists j. split; [lia | exact Ht].
Qed.

(** X5. When the clock does not run backwards while the rows are read,
    the ids [Date.now() + index] of the property candidates increase along
    the list, and so do those of the tenant candidates: no two candidates of
    one kind share an id. *)
Theorem candidate_ids_distinct (workbook : Workbook) (sheetNames : list jsstring) :
  monotone propertyNow ->
  monotone tenantNow ->
  let res := runRent workbook sheetNames in
  increasing (map Property.id (propertiesOf res)) /\
  increasing (map Tenant.id (tenantsOf res)) /\
  List.NoDup (map Property.id (propertiesOf res)) /\
  List.NoDup (map Tenant.id (tenantsOf res)).
Proof.
  intros HP HT. cbv zeta. destruct (result_lists workbook sheetNames) as [-> ->].
  destruct (afterTenants_shape workbook sheetNames) as (Hp & _).
  fold final in Hp. rewrite Hp.
  pose proof (property_ids_increasing workbook sheetNames HP) as H1.
  pose proof (tenant_ids_increasing workbook sheetNames HT) as H2.
  split; [exact H1|]. split; [exact H2|].
  split; apply increasing_NoDup; assumption.
Qed.

(** X6. A workbook with a tenant sheet and no property sheet yields no
    candidate at all: every row of the tenant sheet ends in a row error, and
    the run succeeds only if the sheet has no row. *)
Theorem tenants_without_property_sheet (workbook : Workbook)
    (sheetNames : list jsstring) :
  find isPropertySheet sheetNames = None ->
  let res := runRent workbook sheetNames in
  propertiesOf res = [] /\ tenantsOf res = [] /\
  length (errors res) = length (rowsOf isTenantSheet workbook sheetNames) /\
  success res = (length (rowsOf isTenantSheet workbook sheetNames) =? 0)%nat.
Proof.
  intros Hnone. cbv zeta.
  assert (Hprops : rent_properties (final workbook sheetNames) = []).
  { destruct (afterTenants_shape workbook sheetNames) as (Hp & _).
    fold final in Hp. rewrite Hp. unfold afterProperties. rewrite Hnone. reflexivity. }
  assert (Htenants : rent_tenants (final workbook sheetNames) = []).
  { destruct (afterTenants_shape workbook sheetNames) as (Hp & _ & _ & Ht).
    fold final in Ht. destruct (rent_tenants (final workbook sheetNames)) as [|t ts];
      [reflexivity|].
    destruct (Ht t (or_introl eq_refl)) as (_ & (p & Hin & _) & _).
    unfold afterProperties in Hin. rewrite Hnone in Hin. destruct Hin. }
  assert (Hlen : length (errors (runRent workbook sheetNames))
                 = length (rowsOf isTenantSheet workbook sheetNames)).
  { destruct (afterTenants_shape workbook sheetNames) as (_ & HlenT & _).
    fold final in HlenT. rewrite Htenants in HlenT.
    unfold afterProperties in HlenT. rewrite Hnone in HlenT.
    cbn [rent_errors length] in HlenT.
    pose proof (candidates_integrity workbook sheetNames) as Hint.
    cbv zeta in Hint.
    rewrite processRentImport_final. cbv zeta. cbn [errors].
    rewrite Hint, Hprops. cbn [List.filter map mapiFrom]. rewrite app_nil_r. lia. }
  destruct (result_lists workbook sheetNames) as [-> ->].
  split; [exact Hprops|]. split; [exact Htenants|]. split; [exact Hlen|].
  rewrite rent_success_iff, Hlen. reflexivity.
Qed.

End Run.

End ImportRunFacts.


(** ** The store: deletions, lookups and integrity *)

Module StoreIntegrityFacts.
Import Store StoreCrud Notions MoreNotions.

Lemma filter_comm {A : Type} (f g : A -> bool) (l : list A) :
  List.filter f (List.filter g l) = List.filter g (List.filter f l).
Proof.
  induction l as [|x l IH]; simpl; [reflexivity|].
  destruct (f x) eqn:Ef, (g x) eqn:Eg; simpl; rewrite ?Ef, ?Eg, IH; reflexivity.
Qed.

Lemma filter_idem {A : Type} (f : A -> bool) (l : list A) :
  List.filter f (List.filter f l) = List.filter f l.
Proof.
  induction l as [|x l IH]; simpl; [reflexivity|].
  destruct (f x) eqn:Ef; simpl; rewrite ?Ef, IH; reflexivity.
Qed.

Lemma filter_agree {A : Type} (f f' g : A -> bool) (l : list A) :
  (forall x, g x = true -> f x = f' x) ->
  List.filter f (List.filter g l) = List.filter g (List.filter f' l).
Proof.
  intros H. induction l as [|x l IH]; simpl; [reflexivity|].
  destruct (g x) eqn:Eg; simpl.
  - rewrite (H x Eg). destruct (f' x); simpl; rewrite ?Eg, IH; reflexivity.
  - destruct (f' x); simpl; rewrite ?Eg, IH; reflexivity.
Qed.

Lemma filter_length_le_sub {A : Type} (f g : A -> bool) (l : list A) :
  (length (List.filter f (List.filter g l)) <= length (List.filter f l))%nat.
Proof.
  induction l as [|x l IH]; simpl; [lia|].
  destruct (g x) eqn:Eg, (f x) eqn:Ef; simpl; rewrite ?Ef; simpl; lia.
Qed.

Lemma find_filter_none {A : Type} (f : A -> bool) (l : list A) :
  find f (List.filter (fun x => negb (f x)) l) = None.
Proof.
  induction l as [|x l IH]; simpl; [reflexivity|].
  destruct (f x) eqn:E; simpl; [exact IH | rewrite E; exact IH].
Qed.

(** X8. After [deleteProperty] the id is gone: [getProperty] finds nothing
    and [getTenantsByProperty] is empty, active only or not; deleting the
    same id again changes nothing, and two deletions give the same store in
    either order. *)
Theorem deleteProperty_then_lookup (db : Database.t) (id other : Z)
    (activeOnly : bool) :
  let db' := snd (deleteProperty db id) in
  getProperty db' id = None /\
  getTenantsByProperty db' id activeOnly = [] /\
  snd (deleteProperty db' id) = db' /\
  snd (deleteProperty db' other) = snd (deleteProperty (snd (deleteProperty db other)) id).
Proof.
  cbv zeta. unfold deleteProperty, getProperty, getTenantsByProperty.
  cbn [snd Database.properties Database.tenants Database.employees
       Database.config Database.version Database.last_sync].
  split; [|split; [|split]].
  - apply (find_filter_none (fun p => Property.id p =? id)).
  - induction (Database.tenants db) as [|t ts IH]; [reflexivity|]. simpl.
    destruct (Tenant.property_id t =? id) eqn:E; simpl; [exact IH|].
    rewrite E. simpl. exact IH.
  - rewrite !filter_idem. reflexivity.
  - f_equal; apply filter_comm.
Qed.

Section Integrity.

Variable id : Z.

Let keepP (p : Property.t) : bool := negb (Property.id p =? id).
Let keepT (t : Tenant.t) : bool := negb (Tenant.property_id t =? id).

Lemma unresolved_after_delete properties t :
  keepT t = true ->
  unresolved (List.filter keepP properties) t = unresolved properties t.
Proof.
  unfold keepT, keepP, unresolved. intros Ht. f_equal.
  induction properties as [|p ps IH]; [reflexivity|]. simpl.
  destruct (Property.id p =? id) eqn:E; simpl.
  - rewrite IH. apply Z.eqb_eq in E. apply negb_true_iff, Z.eqb_neq in Ht.
    destruct (Z.eqb_spec (Property.id p) (Tenant.property_id t)); [congruence|reflexivity].
  - rewrite IH. reflexivity.
Qed.

Lemma tenantCount_after_delete tenants p :
  keepP p = true ->
  Integrity.tenantCount (List.filter keepT tenants) p = Integrity.tenantCount tenants p.
Proof.
  unfold keepT, keepP, Integrity.tenantCount. intros Hp. do 2 f_equal.
  apply negb_true_iff, Z.eqb_neq in Hp.
  induction tenants as [|t ts IH]; [reflexivity|]. simpl.
  destruct (Z.eqb_spec (Tenant.property_id t) id) as [E|E]; simpl.
  - destruct (Z.eqb_spec (Tenant.property_id t) (Property.id p)); [congruence|].
    simpl. exact IH.
  - rewrite IH. reflexivity.
Qed.

Lemma integrity_after_delete properties tenants :
  Integrity.errors
    (Integrity.validateDataIntegrity
       (List.filter keepP properties) (List.filter keepT tenants))
  = map Integrity.fkError
      (List.filter keepT (List.filter (unresolved properties) tenants)) ++
    map (Integrity.capacityError tenants)
      (List.filter keepP (List.filter (overCapacity tenants) properties)).
Proof.
  rewrite IntegrityFacts.errors_eq. f_equal.
  - f_equal. apply filter_agree. intros t Ht. apply unresolved_after_delete. exact Ht.
  - rewrite (filter_agree (overCapacity (List.filter keepT tenants))
               (overCapacity tenants) keepP).
    + apply map_ext_in. intros p Hp. apply filter_In in Hp. destruct Hp as [_ Hp].
      unfold Integrity.capacityError.
      rewrite (tenantCount_after_delete tenants p Hp). reflexivity.
    + intros p Hp. unfold overCapacity.
      rewrite (tenantCount_after_delete tenants p Hp). reflexivity.
Qed.

(** X9. [deleteProperty] never creates an integrity error: every error of
    the store after the deletion was an error of the store before it, there
    are no more of them than before, and a valid store stays valid. *)
Theorem deleteProperty_keeps_integrity (db : Database.t) :
  let check (d : Database.t) :=
    Integrity.validateDataIntegrity (Database.properties d) (Database.tenants d) in
  let db' := snd (deleteProperty db id) in
  (forall e, In e (Integrity.errors (check db')) -> In e (Integrity.errors (check db))) /\
  (length (Integrity.errors (check db')) <= length (Integrity.errors (check db)))%nat /\
  (Integrity.valid (check db) = true -> Integrity.valid (check db') = true).
Proof.
  cbv zeta. unfold deleteProperty.
  cbn [snd Database.properties Database.tenants].
  fold keepP keepT.
  rewrite (integrity_after_delete (Database.properties db) (Database.tenants db)).
  rewrite (IntegrityFacts.errors_eq (Database.properties db) (Database.tenants db)).
  set (fk := List.filter (unresolved (Database.properties db)) (Database.tenants db)).
  set (cap := List.filter (overCapacity (Database.tenants db)) (Database.properties db)).
  assert (Hin : forall e,
            In e (map Integrity.fkError (List.filter keepT fk) ++
                  map (Integrity.capacityError (Database.tenants db))
                    (List.filter keepP cap)) ->
            In e (map Integrity.fkError fk ++
                  map (Integrity.capacityError (Database.tenants db)) cap)).
  { intros e He. apply in_app_iff in He. apply in_app_iff.
    destruct He as [He | He]; [left | right]; apply in_map_iff in He;
      destruct He as (x & <- & Hx); apply in_map; apply filter_In in Hx; tauto. }
  assert (Hlen : (length (map Integrity.fkError (List.filter keepT fk) ++
                          map (Integrity.capacityError (Database.tenants db))
                            (List.filter keepP cap))
                  <= length (map Integrity.fkError fk ++
                             map (Integrity.capacityError (Database.tenants db)) cap))%nat).
  { rewrite !length_app, !length_map.
    pose proof (filter_length_le keepT fk). pose proof (filter_length_le keepP cap). lia. }
  split; [exact Hin|]. split; [exact Hlen|].
  intros Hvalid.
  apply IntegrityFacts.valid_iff in Hvalid.
  rewrite IntegrityFacts.errors_eq in Hvalid. fold fk cap in Hvalid.
  apply IntegrityFacts.valid_iff.
  rewrite (integrity_after_delete (Database.properties db) (Database.tenants db)).
  fold fk cap. rewrite Hvalid in Hlen. cbn [length] in Hlen.
  destruct (map Integrity.fkError (List.filter keepT fk) ++ _); [reflexivity|].
  cbn [length] in Hlen. lia.
Qed.

End Integrity.

Lemma valid_spec properties tenants :
  Integrity.valid (Integrity.validateDataIntegrity properties tenants) = true <->
  (forall t, In t tenants -> unresolved properties t = false) /\
  (forall p, In p properties ->
     Integrity.tenantCount tenants p <= Property.capacity p).
Proof.
  rewrite IntegrityFacts.valid_iff, IntegrityFacts.errors_eq. split.
  - intros H. apply app_eq_nil in H. destruct H as [Hfk Hcap].
    apply map_eq_nil in Hfk. apply map_eq_nil in Hcap. split.
    + intros t Ht. destruct (unresolved properties t) eqn:E; [|reflexivity].
      exfalso.
      assert (Hin : In t (List.filter (unresolved properties) tenants))
        by (apply filter_In; split; assumption).
      rewrite Hfk in Hin. exact Hin.
    + intros p Hp.
      destruct (overCapacity tenants p) eqn:E.
      * exfalso.
        assert (Hin : In p (List.filter (overCapacity tenants) properties))
          by (apply filter_In; split; assumption).
        rewrite Hcap in Hin. exact Hin.
      * unfold overCapacity in E. lia.
  - intros [Hfk Hcap].
    assert (H1 : List.filter (unresolved properties) tenants = []).
    { clear Hcap. induction tenants as [|t ts IH]; [reflexivity|]. simpl.
      rewrite (Hfk t (or_introl eq_refl)). apply IH.
      intros t' Ht'. apply Hfk. right. exact Ht'. }
    assert (H2 : List.filter (overCapacity tenants) properties = []).
    { clear H1 Hfk. induction properties as [|p ps IH]; [reflexivity|]. simpl.
      assert (E : overCapacity tenants p = false).
      { unfold overCapacity. pose proof (Hcap p (or_introl eq_refl)). lia. }
      rewrite E. apply IH. intros p' Hp'. apply Hcap. right. exact Hp'. }
    rewrite H1, H2. reflexivity.
Qed.

Lemma tenantCount_app tenants t p :
  Integrity.tenantCount (tenants ++ [t]) p =
  Integrity.tenantCount tenants p +
  (if (Tenant.property_id t =? Property.id p) && Status_eqb (Tenant.status t) active
   then 1 else 0).
Proof.
  unfold Integrity.tenantCount. rewrite List.filter_app, length_app. simpl.
  destruct ((Tenant.property_id t =? Property.id p)
            && Status_eqb (Tenant.status t) active); simpl; lia.
Qed.

(** X10. [deleteTenant] never creates an integrity error: a tenant that is
    kept is unresolved after the deletion only if it was before, a property
    is over its capacity afterwards only if it was before, and a valid store
    stays valid.  The properties, the employees and the configuration are
    left as they were. *)
Theorem deleteTenant_keeps_integrity (db : Database.t) (id : Z) :
  let check (d : Database.t) :=
    Integrity.validateDataIntegrity (Database.properties d) (Database.tenants d) in
  let db' := snd (deleteTenant db id) in
  Database.properties db' = Database.properties db /\
  Database.employees db' = Database.employees db /\
  Database.config db' = Database.config db /\
  (forall t, In t (Database.tenants db') ->
     In t (Database.tenants db) /\ Tenant.id t <> id) /\
  (forall p, overCapacity (Database.tenants db') p = true ->
     overCapacity (Database.tenants db) p = true) /\
  (length (Integrity.errors (check db')) <= length (Integrity.errors (check db)))%nat /\
  (Integrity.valid (check db) = true -> Integrity.valid (check db') = true).
Proof.
  cbv zeta. unfold deleteTenant, setTenants.
  cbn [snd Database.properties Database.tenants Database.employees Database.config].
  set (keep := fun t : Tenant.t => negb (Tenant.id t =? id)).
  set (ps := Database.properties db). set (ts := Database.tenants db).
  assert (Hcount : forall p,
            Integrity.tenantCount (List.filter keep ts) p <= Integrity.tenantCount ts p).
  { intros p. unfold Integrity.tenantCount.
    pose proof (filter_length_le_sub
                  (fun t => (Tenant.property_id t =? Property.id p)
                            && Status_eqb (Tenant.status t) active) keep ts).
    lia. }
  assert (Hover : forall p, overCapacity (List.filter keep ts) p = true ->
                            overCapacity ts p = true).
  { intros p. unfold overCapacity. pose proof (Hcount p). lia. }
  assert (Hin : forall t, In t (List.filter keep ts) -> In t ts /\ Tenant.id t <> id).
  { intros t Ht. apply filter_In in Ht. destruct Ht as [Ht Hk]. split; [exact Ht|].
    unfold keep in Hk. apply negb_true_iff, Z.eqb_neq in Hk. exact Hk. }
  repeat split; try reflexivity.
  - apply (Hin t H).
  - apply (Hin t H).
  - exact Hover.
  - rewrite !IntegrityFacts.errors_eq, !length_app, !length_map.
    rewrite filter_comm.
    pose proof (filter_length_le keep (List.filter (unresolved ps) ts)).
    assert (Hcap : (length (List.filter (overCapacity (List.filter keep ts)) ps)
                    <= length (List.filter (overCapacity ts) ps))%nat).
    { clear -Hover. induction ps as [|p ps IH]; simpl; [lia|].
      destruct (overCapacity (List.filter keep ts) p) eqn:E.
      - rewrite (Hover p E). simpl. lia.
      - destruct (overCapacity ts p); simpl; lia. }
    lia.
  - intros Hvalid. apply valid_spec in Hvalid. destruct Hvalid as [Hfk Hcap].
    apply valid_spec. split.
    + intros t Ht. apply Hfk. apply (Hin t Ht).
    + intros p Hp. pose proof (Hcap p Hp). pose proof (Hcount p). lia.
Qed.

Section AddTenant.

Variable isDatetime : jsstring -> bool.
Variables tooBigMessage datetimeMessage : jsstring.

Let add := addTenant isDatetime tooBigMessage datetimeMessage.

(** X11. A successful [addTenant] appends the tenant to the latest store
    [prev], while its guard looked for the property in the rendered store
    [db].  It adds a foreign-key error exactly when the latest store holds
    no property with the tenant's [property_id], which cannot be when the
    two stores hold the same properties; and it does not look at the
    capacity: on a valid latest store the store after the call is valid
    exactly when the tenant's property is still there and the tenant is
    inactive or every property with its [property_id] had a free place. *)
Theorem addTenant_integrity (db prev : Database.t) (nowValidate nowInsert : Z)
    (tenant : Tenant.t) :
  let check (d : Database.t) :=
    Integrity.validateDataIntegrity (Database.properties d) (Database.tenants d) in
  let res := add db prev nowValidate nowInsert tenant in
  let added := withId tenant nowInsert in
  success (fst res) = true ->
  List.filter (unresolved (Database.properties (snd res))) (Database.tenants (snd res))
    = List.filter (unresolved (Database.properties prev)) (Database.tenants prev)
      ++ (if unresolved (Database.properties prev) added then [added] else []) /\
  (Database.properties db = Database.properties prev ->
   unresolved (Database.properties prev) added = false) /\
  (Integrity.valid (check prev) = true ->
     (Integrity.valid (check (snd res)) = true <->
      unresolved (Database.properties prev) added = false /\
      (Tenant.status tenant = inactive \/
       forall p, In p (Database.properties prev) ->
         Property.id p = Tenant.property_id tenant ->
         Integrity.tenantCount (Database.tenants prev) p < Property.capacity p))).
Proof.
  cbv zeta. unfold add, addTenant.
  destruct (find _ (Database.properties db)) as [p0|] eqn:Hfind;
    [|simpl; discriminate].
  destruct (findActiveByEmployee _ _) as [t0|]; [simpl; discriminate|].
  destruct (negb _); [simpl; discriminate|].
  intros _. unfold setTenants.
  cbn [fst snd Database.properties Database.tenants].
  set (ps := Database.properties prev). set (ts := Database.tenants prev).
  set (t' := withId tenant nowInsert).
  split; [|split].
  - rewrite List.filter_app. simpl. destruct (unresolved ps t'); reflexivity.
  - intros Hsame. destruct (unresolved ps t') eqn:E; [|reflexivity].
    apply IntegrityFacts.findProperty_unresolved in E.
    unfold Integrity.findProperty in E. unfold t', withId in E. simpl in E.
    subst ps. rewrite <- Hsame in E. congruence.
  - intros Hvalid. apply valid_spec in Hvalid. destruct Hvalid as [Hfk Hcap].
    rewrite valid_spec. split.
    + intros [Hfk' Hcap']. split.
      { apply Hfk'. apply in_app_iff. right. left. reflexivity. }
      destruct (Tenant.status tenant) eqn:Est; [right|left; reflexivity].
      intros p Hp Hid. pose proof (Hcap' p Hp) as H. rewrite tenantCount_app in H.
      unfold t', withId in H. simpl in H. rewrite Est in H.
      rewrite <- Hid, Z.eqb_refl in H. simpl in H. lia.
    + intros [Hres Hroom]. split.
      * intros t Ht. apply in_app_iff in Ht. destruct Ht as [Ht | [<- | []]];
          [apply Hfk; exact Ht | exact Hres].
      * intros p Hp. rewrite tenantCount_app. pose proof (Hcap p Hp).
        unfold t', withId. simpl.
        destruct (Z.eqb_spec (Tenant.property_id tenant) (Property.id p)) as [E|E];
          simpl; [|lia].
        destruct Hroom as [Hst | Hroom].
        -- rewrite Hst. simpl. lia.
        -- pose proof (Hroom p Hp (eq_sym E)).
           destruct (Status_eqb (Tenant.status tenant) active); lia.
Qed.

End AddTenant.

End StoreIntegrityFacts.


(** ** The store: insertions, updates and the schemas *)

Module StoreCrudFacts.
Import Store Validators StoreCrud Notions MoreNotions.

Lemma length_replaceWhere {A : Type} (hit : A -> bool) (u : A) (l : list A) :
  length (replaceWhere hit u l) = length l.
Proof. apply length_map. Qed.

Lemma nth_replaceWhere {A : Type} (hit : A -> bool) (u : A) (l : list A) i x :
  nth_error l i = Some x ->
  nth_error (replaceWhere hit u l) i = Some (if hit x then u else x).
Proof.
  intros H. unfold replaceWhere. rewrite nth_error_map, H. reflexivity.
Qed.

Lemma In_replaceWhere {A : Type} (hit : A -> bool) (u : A) (l : list A) x :
  In x (replaceWhere hit u l) -> x = u \/ In x l.
Proof.
  unfold replaceWhere. intros H. apply in_map_iff in H.
  destruct H as (y & Hy & Hin). destruct (hit y); subst; auto.
Qed.

Lemma validationOf_success issues :
  v_success (validationOf issues) = true <-> issues = [].
Proof. destruct issues; simpl; split; congruence. Qed.

Lemma find_app_one {A : Type} (f : A -> bool) (l : list A) (x : A) :
  find f (l ++ [x]) =
  match find f l with
  | Some y => Some y
  | None => if f x then Some x else None
  end.
Proof.
  induction l as [|y l IH]; simpl; [reflexivity|].
  destruct (f y); [reflexivity | exact IH].
Qed.

Section Zod.

Variable isDatetime : jsstring -> bool.
Variable tooBigMessage : jsstring.
Variable tooBigNumberMessage : jsstring.
Variable datetimeMessage : jsstring.

Let issuesP :=
  PropertySchema_issues isDatetime tooBigMessage tooBigNumberMessage datetimeMessage.
Let addP := addProperty isDatetime tooBigMessage tooBigNumberMessage datetimeMessage.
Let updateP :=
  updateProperty isDatetime tooBigMessage tooBigNumberMessage datetimeMessage.
Let passP := propertiesPass isDatetime tooBigMessage tooBigNumberMessage datetimeMessage.

Lemma issuesP_withPropertyId p a b :
  issuesP (withPropertyId p a) = issuesP (withPropertyId p b).
Proof. reflexivity. Qed.

(** X12. [addProperty] and [getProperty]: a rejected property leaves the
    store as it was; an accepted one is appended and no tenant is touched.
    Looking its id up afterwards gives the new property, unless the store
    already held a property with that id, which then still answers. *)
Theorem addProperty_then_getProperty (db : Database.t) (nowValidate nowInsert : Z)
    (property : Property.t) :
  let res := addP db nowValidate nowInsert property in
  let added := withPropertyId property nowInsert in
  (success (fst res) = true <-> issuesP added = []) /\
  (success (fst res) = false -> snd res = db) /\
  (success (fst res) = true ->
     Database.properties (snd res) = Database.properties db ++ [added] /\
     Database.tenants (snd res) = Database.tenants db /\
     getProperty (snd res) nowInsert =
       Some (match getProperty db nowInsert with
             | Some old => old
             | None => added
             end) /\
     forall id, id <> nowInsert -> getProperty (snd res) id = getProperty db id).
Proof.
  cbv zeta. unfold addP, addProperty, validateProperty. fold issuesP.
  rewrite (issuesP_withPropertyId property nowValidate nowInsert).
  destruct (issuesP (withPropertyId property nowInsert)) as [|i is'] eqn:E.
  - simpl. split; [tauto|]. split; [discriminate|]. intros _.
    unfold getProperty. simpl. rewrite !find_app_one. simpl.
    rewrite Z.eqb_refl. repeat split.
    + destruct (find _ (Database.properties db)); reflexivity.
    + intros id Hid. rewrite find_app_one. simpl.
      destruct (Z.eqb_spec nowInsert id); [congruence|].
      destruct (find _ (Database.properties db)); reflexivity.
  - simpl. repeat split; try discriminate; try reflexivity.
Qed.

(** X13. The mutators keep the property schema: when every property of the
    store passes [PropertySchema], so does every property of the store after
    [addProperty], [updateProperty] or [deleteProperty], whether the call
    succeeds or not. *)
Theorem property_schema_kept (db : Database.t) (nowValidate nowInsert id : Z)
    (property : Property.t) (updates : PartialProperty) :
  passP db ->
  passP (snd (addP db nowValidate nowInsert property)) /\
  passP (snd (updateP db id updates)) /\
  passP (snd (deleteProperty db id)).
Proof.
  unfold passP, propertiesPass. fold issuesP. intros Hpass.
  split; [|split].
  - unfold addP, addProperty, validateProperty. fold issuesP.
    rewrite (issuesP_withPropertyId property nowValidate nowInsert).
    destruct (issuesP (withPropertyId property nowInsert)) eqn:E; simpl; [|exact Hpass].
    intros p Hp. apply in_app_iff in Hp. destruct Hp as [Hp | [<- | []]];
      [apply Hpass; exact Hp | exact E].
  - unfold updateP, updateProperty, validateProperty. fold issuesP.
    destruct (find _ (Database.properties db)) as [existing|]; [|exact Hpass].
    cbv zeta.
    destruct (issuesP (mergeProperty existing updates)) eqn:E; simpl; [|exact Hpass].
    intros p Hp. apply In_replaceWhere in Hp. destruct Hp as [-> | Hp];
      [exact E | apply Hpass; exact Hp].
  - unfold deleteProperty. simpl. intros p Hp. apply filter_In in Hp.
    apply Hpass. tauto.
Qed.

End Zod.

Section ZodTenant.

Variable isDatetime : jsstring -> bool.
Variable tooBigMessage : jsstring.
Variable datetimeMessage : jsstring.

Let issuesT := TenantSchema_issues isDatetime tooBigMessage datetimeMessage.
Let addT := addTenant isDatetime tooBigMessage datetimeMessage.
Let updateT := updateTenant isDatetime tooBigMessage datetimeMessage.
Let passT := tenantsPass isDatetime tooBigMessage datetimeMessage.

Lemma validateTenant_success t :
  v_success (validateTenant isDatetime tooBigMessage datetimeMessage t) = true <->
  issuesT t = [].
Proof.
  unfold validateTenant. fold issuesT.
  destruct (issuesT t); simpl; split; congruence.
Qed.

(** X14. The mutators keep the tenant schema: when every tenant of the store
    passes [TenantSchema], so does every tenant of the store after
    [addTenant], [updateTenant], [deleteTenant] or [deleteProperty], whether
    the call succeeds or not. *)
Theorem tenant_schema_kept (rendered db : Database.t)
    (nowValidate nowInsert id : Z)
    (tenant : Tenant.t) (updates : PartialTenant) :
  passT db ->
  passT (snd (addT rendered db nowValidate nowInsert tenant)) /\
  passT (snd (updateT db id updates)) /\
  passT (snd (deleteTenant db id)) /\
  passT (snd (deleteProperty db id)).
Proof.
  unfold passT, tenantsPass. fold issuesT. intros Hpass.
  split; [|split; [|split]].
  - unfold addT, addTenant.
    destruct (find _ (Database.properties rendered)) as [p0|]; [|exact Hpass].
    destruct (findActiveByEmployee _ _) as [t0|]; [exact Hpass|]. cbv zeta.
    destruct (v_success _) eqn:E; simpl; [|exact Hpass].
    apply validateTenant_success in E.
    intros t Ht. apply in_app_iff in Ht. destruct Ht as [Ht | [<- | []]];
      [apply Hpass; exact Ht | exact E].
  - unfold updateT, updateTenant.
    destruct (find _ (Database.tenants db)) as [existing|]; [|exact Hpass].
    cbv zeta.
    destruct (v_success _) eqn:E; simpl; [|exact Hpass].
    apply validateTenant_success in E.
    intros t Ht. apply In_replaceWhere in Ht. destruct Ht as [-> | Ht];
      [exact E | apply Hpass; exact Ht].
  - unfold deleteTenant. simpl. intros t Ht. apply filter_In in Ht.
    apply Hpass. tauto.
  - unfold deleteProperty. simpl. intros t Ht. apply filter_In in Ht.
    apply Hpass. tauto.
Qed.

(** X15. [updateTenant]: an unknown id is refused with the message of the
    source, and a refused update leaves the store as it was.  An accepted
    update keeps the number of tenants and every tenant with another id in
    its place, and puts the merge of the first tenant with the id and the
    update, which passes [TenantSchema], in the place of every tenant with
    the id.  The rest of the store is never touched. *)
Theorem updateTenant_effect (db : Database.t) (id : Z) (updates : PartialTenant) :
  let res := updateT db id updates in
  let first := find (fun t => Tenant.id t =? id) (Database.tenants db) in
  Database.properties (snd res) = Database.properties db /\
  Database.employees (snd res) = Database.employees db /\
  Database.config (snd res) = Database.config db /\
  length (Database.tenants (snd res)) = length (Database.tenants db) /\
  (first = None ->
     fst res = mkResponse false (Some (js "Inquilino no encontrado")) None None) /\
  (success (fst res) = false -> snd res = db) /\
  (success (fst res) = true ->
     exists existing,
       first = Some existing /\
       issuesT (mergeTenant existing updates) = [] /\
       forall i t, nth_error (Database.tenants db) i = Some t ->
         nth_error (Database.tenants (snd res)) i =
           Some (if Tenant.id t =? id then mergeTenant existing updates else t)).
Proof.
  cbv zeta. unfold updateT, updateTenant.
  destruct (find _ (Database.tenants db)) as [existing|] eqn:Hfind.
  - cbv zeta. destruct (v_success _) eqn:E; simpl.
    + rewrite length_replaceWhere.
      do 4 (split; [reflexivity|]). split; [discriminate|]. split; [discriminate|].
      intros _. exists existing. split; [reflexivity|].
      apply validateTenant_success in E. split; [exact E|].
      intros i t0 Ht.
      apply (nth_replaceWhere (fun t => Tenant.id t =? id)). exact Ht.
    + repeat split; discriminate.
  - simpl. repeat split; discriminate.
Qed.

End ZodTenant.

(** X16. [updateEmployee] validates the merged record, so an employee that
    the store holds with an empty [name_kana] (the import lets such a row
    through) cannot be changed by an update that does not carry a
    [name_kana]: the call fails with an issue on that field and the store is
    left as it was. *)
Theorem updateEmployee_blank_kana (db : Database.t) (id : jsstring)
    (updates : PartialEmployee) (e : Employee.t) :
  getEmployeeById db id = Some e ->
  Employee.name_kana e = [] ->
  pe_name_kana updates = None ->
  let res := updateEmployee db id updates in
  success (fst res) = false /\
  snd res = db /\
  exists issues,
    errors (fst res) = Some issues /\
    In (mkFieldError (js "name_kana") (js "Nombre kana requerido")) issues.
Proof.
  unfold getEmployeeById. intros Hfind Hkana Hnone. cbv zeta.
  unfold updateEmployee. rewrite Hfind. cbv zeta.
  assert (Hissue : In (mkFieldError (js "name_kana") (js "Nombre kana requerido"))
                     (EmployeeSchema_issues (mergeEmployee e updates))).
  { unfold EmployeeSchema_issues. apply in_app_iff. right. apply in_app_iff. right.
    unfold mergeEmployee. cbn [Employee.name_kana]. rewrite Hnone.
    unfold from_option. rewrite Hkana. simpl. left. reflexivity. }
  unfold validateEmployee.
  destruct (EmployeeSchema_issues (mergeEmployee e updates)) as [|i is'] eqn:E;
    [destruct Hissue|].
  simpl. split; [reflexivity|]. split; [reflexivity|].
  exists (i :: is'). split; [reflexivity | exact Hissue].
Qed.

End StoreCrudFacts.


(** ** The active set, the dashboard and the rent manager *)

Module DashboardMoreFacts.
Import Store Dashboard Notions MoreNotions.

Lemma sumBy_from {A : Type} (f : A -> Z) (l : list A) (acc : Z) :
  fold_left (fun a x => a + f x) l acc = acc + sumBy f l.
Proof.
  unfold sumBy. revert acc. induction l as [|x l IH]; intros acc; simpl; [lia|].
  rewrite IH, (IH (0 + f x)). lia.
Qed.

Lemma sumBy_cons {A : Type} (f : A -> Z) (x : A) (l : list A) :
  sumBy f (x :: l) = f x + sumBy f l.
Proof. unfold sumBy at 1. simpl. rewrite sumBy_from. lia. Qed.

Lemma sumBy_active (f : Tenant.t -> Z) (ts : list Tenant.t) :
  sumBy (fun t => match Tenant.status t with active => f t | inactive => 0 end) ts
  = sumBy f (List.filter (fun t => Status_eqb (Tenant.status t) active) ts).
Proof.
  induction ts as [|t ts IH]; [reflexivity|].
  rewrite sumBy_cons, IH. simpl.
  destruct (Tenant.status t); simpl; [rewrite sumBy_cons|]; lia.
Qed.

Lemma ceilDays_bounds d k :
  0 <= d -> (ceilDays d <= k <-> d <= k * DAY).
Proof.
  intros Hd. unfold ceilDays, DAY.
  change (1000 * 60 * 60 * 24) with 86400000. change (86400000 - 1) with 86399999.
  pose proof (Z.div_mod (d + 86399999) 86400000 ltac:(lia)) as Hdm.
  pose proof (Z.mod_pos_bound (d + 86399999) 86400000 ltac:(lia)) as Hb.
  split; intros H; nia.
Qed.

Lemma ceilDays_positive d : 0 < d -> 1 <= ceilDays d.
Proof.
  intros Hd. unfold ceilDays.
  change (1000 * 60 * 60 * 24) with 86400000. change (86400000 - 1) with 86399999.
  apply Z.div_le_lower_bound; lia.
Qed.

Lemma fold_left_ext_numOr (f : Tenant.t -> Z) (l : list Tenant.t) :
  fold_left (fun acc t => acc + numOr (Fin (f t)) 0) l 0
  = fold_left (fun acc t => acc + f t) l 0.
Proof.
  assert (H : forall acc,
            fold_left (fun acc t => acc + numOr (Fin (f t)) 0) l acc
            = fold_left (fun acc t => acc + f t) l acc); [|apply H].
  induction l as [|t ts IH]; intros acc; [reflexivity|]. simpl.
  rewrite IH. f_equal. f_equal. unfold numOr, jsOr. simpl.
  destruct (f t =? 0) eqn:E; simpl; lia.
Qed.

Lemma filter_split {A : Type} (f : A -> bool) (l : list A) (x : A) :
  In x l <-> In x (List.filter f l) \/ In x (List.filter (fun y => negb (f y)) l).
Proof. rewrite !filter_In. destruct (f x); simpl; intuition discriminate. Qed.

Lemma filter_disjoint {A : Type} (f : A -> bool) (l : list A) (x : A) :
  ~ (In x (List.filter f l) /\ In x (List.filter (fun y => negb (f y)) l)).
Proof. rewrite !filter_In. destruct (f x); simpl; intuition discriminate. Qed.

Section Status.

Variable Date_parse : jsstring -> option Z.
Variable now : Z.

Let byStatus := getPropertiesByStatus Date_parse now.

Lemma byStatus_true db :
  byStatus db true =
  List.filter
    (fun p => if noContractEnd p then true
              else dateAfterNow Date_parse now (default [] (Property.contract_end p)))
    (Database.properties db).
Proof. reflexivity. Qed.

Lemma byStatus_false db :
  byStatus db false =
  List.filter
    (fun p => negb (if noContractEnd p then true
                    else dateAfterNow Date_parse now
                           (default [] (Property.contract_end p))))
    (Database.properties db).
Proof.
  unfold byStatus, getPropertiesByStatus. apply filter_ext. intros p.
  destruct (noContractEnd p); reflexivity.
Qed.

(** X17. [getPropertiesByStatus] splits the properties: each one is in the
    answer for [true] or in the answer for [false] and never in both, and
    the two answers together are as long as the list.  The answer for
    [true] is the active set of the dashboard, all of it is active for
    [isPropertyActive], and a property of the answer for [false] is active
    for [isPropertyActive] only when its [contract_end] does not parse. *)
Theorem getPropertiesByStatus_partition (db : Database.t) :
  (forall p, In p (Database.properties db) <->
     In p (byStatus db true) \/ In p (byStatus db false)) /\
  (forall p, ~ (In p (byStatus db true) /\ In p (byStatus db false))) /\
  (length (byStatus db true) + length (byStatus db false)
   = length (Database.properties db))%nat /\
  byStatus db true = activeProps Date_parse now db /\
  (forall p, In p (byStatus db true) -> isPropertyActive Date_parse now p = true) /\
  (forall p, In p (byStatus db false) ->
     isPropertyActive Date_parse now p = true ->
     noContractEnd p = false /\
     Date_parse (default [] (Property.contract_end p)) = None).
Proof.
  rewrite byStatus_true, byStatus_false.
  set (ps := Database.properties db).
  set (fT := fun p : Property.t =>
               if noContractEnd p then true
               else dateAfterNow Date_parse now (default [] (Property.contract_end p))).
  split; [|split; [|split; [|split; [|split]]]].
  - intros p. apply (filter_split fT).
  - intros p. apply (filter_disjoint fT).
  - apply List.filter_length.
  - unfold activeProps. fold ps. apply filter_ext. intros p. unfold fT.
    destruct (noContractEnd p); reflexivity.
  - intros p Hp. apply filter_In in Hp. destruct Hp as [_ Hp].
    unfold fT in Hp. unfold isPropertyActive.
    destruct (noContractEnd p); [reflexivity|]. cbv zeta.
    unfold dateAfterNow in Hp.
    destruct (Date_parse _); [exact Hp | reflexivity].
  - intros p Hp Hact. apply filter_In in Hp. destruct Hp as [_ Hp].
    unfold fT in Hp. unfold isPropertyActive in Hact.
    destruct (noContractEnd p); [discriminate|]. split; [reflexivity|].
    cbv zeta in Hact. unfold dateAfterNow in Hp.
    destruct (Date_parse _) as [e|]; [|reflexivity].
    rewrite Hact in Hp. discriminate.
Qed.

End Status.

Lemma filter_all {A : Type} (f : A -> bool) (l : list A) :
  (forall x, In x l -> f x = true) -> List.filter f l = l.
Proof.
  intros H. induction l as [|x l IH]; [reflexivity|]. simpl.
  rewrite (H x (or_introl eq_refl)). f_equal. apply IH.
  intros y Hy. apply H. right. exact Hy.
Qed.

Lemma filter_none {A : Type} (f : A -> bool) (l : list A) :
  (forall x, In x l -> f x = false) -> List.filter f l = [].
Proof.
  intros H. induction l as [|x l IH]; [reflexivity|]. simpl.
  rewrite (H x (or_introl eq_refl)). apply IH.
  intros y Hy. apply H. right. exact Hy.
Qed.

Lemma In_filterFrom {A : Type} (f : A -> Z -> bool) (l : list A) (x : A) :
  forall i,
    In x (filterFrom f i l) <->
    exists j, nth_error l j = Some x /\ f x (i + Z.of_nat j) = true.
Proof.
  induction l as [|y l IH]; intros i.
  - simpl. split; [tauto|]. intros [[|j] [H _]]; discriminate.
  - cbn [filterFrom].
    assert (Hrest : In x (filterFrom f (i + 1) l) <->
              exists j, nth_error (y :: l) (S j) = Some x /\
                        f x (i + Z.of_nat (S j)) = true).
    { rewrite IH. split; intros [j [H1 H2]]; exists j; (split; [exact H1|]).
      - replace (i + Z.of_nat (S j)) with (i + 1 + Z.of_nat j) by lia. exact H2.
      - replace (i + 1 + Z.of_nat j) with (i + Z.of_nat (S j)) by lia. exact H2. }
    destruct (f y i) eqn:E.
    + split.
      * intros [<- | H].
        -- exists 0%nat. rewrite Z.add_0_r. split; [reflexivity | exact E].
        -- apply Hrest in H. destruct H as [j H]. exists (S j). exact H.
      * intros [[|j] [H1 H2]].
        -- left. simpl in H1. congruence.
        -- right. apply Hrest. exists j. tauto.
    + rewrite Hrest. split.
      * intros [j H]. exists (S j). exact H.
      * intros [[|j] [H1 H2]].
        -- simpl in H1. assert (y = x) by congruence. subst y.
           rewrite Z.add_0_r in H2. congruence.
        -- exists j. tauto.
Qed.

Lemma length_filterFrom {A : Type} (f : A -> Z -> bool) (l : list A) :
  forall i, (length (filterFrom f i l) <= length l)%nat.
Proof.
  induction l as [|y l IH]; intros i; cbn [filterFrom length]; [lia|].
  specialize (IH (i + 1)). destruct (f y i); cbn [length]; lia.
Qed.

Lemma filterFrom_frozen {A : Type} (f : A -> bool) (l : list A) :
  forall i, filterFrom (fun x _ => f x) i l = List.filter f l.
Proof.
  induction l as [|y l IH]; intros i; [reflexivity|]. cbn [filterFrom List.filter].
  rewrite IH. reflexivity.
Qed.

Lemma forEachFrom_frozen {S A : Type} (f : S -> A -> S) (l : list A) :
  forall i s, ExcelImport.forEachFrom (fun s x _ => f s x) i l s = fold_left f l s.
Proof.
  induction l as [|y l IH]; intros i s; [reflexivity|].
  cbn [ExcelImport.forEachFrom fold_left]. apply IH.
Qed.

(** With one reading of the clock for the whole evaluation, [metricsAt] is
    [metrics]. *)
Lemma metricsAt_frozen (Date_parse : jsstring -> option Z) (now : Z)
    (nowISO : jsstring) (db : Database.t) :
  metricsAt Date_parse (fun _ => now) now (fun _ => nowISO) nowISO db
  = metrics Date_parse now nowISO db.
Proof.
  unfold metricsAt, metrics, activePropsAt, activeProps, ExcelImport.forEach.
  rewrite (filterFrom_frozen
             (fun p => noContractEnd p
                       || dateAfterNow Date_parse now
                            (default [] (Property.contract_end p)))).
  cbv zeta. f_equal.
  apply (forEachFrom_frozen
           (fun alerts p => contractStepAt Date_parse now (fun _ => nowISO) alerts p 0)).
Qed.

Section Readings.

Variable Date_parse : jsstring -> option Z.
Variable filterNow : Z -> Z.
Variable today : Z.
Variable stamp : Z -> jsstring.
Variable dangerStamp : jsstring.

Let step := contractStepAt Date_parse today stamp.
Let measure := metricsAt Date_parse filterNow today stamp dangerStamp.
Let actives := activePropsAt Date_parse filterNow.

Lemma contractStepAt_cases alerts p k :
  step alerts p k =
    match Date_parse (default [] (Property.contract_end p)) with
    | Some e =>
        if negb (noContractEnd p) && (Z.abs (e - today) <=? 60 * DAY)
        then alerts ++ [expiryAlert (stamp k) p (ceilDays (Z.abs (e - today)))]
        else alerts
    | None => alerts
    end.
Proof.
  unfold step, contractStepAt.
  destruct (noContractEnd p) eqn:Hno.
  - destruct (Date_parse _); reflexivity.
  - destruct (Date_parse _) as [e|]; [|reflexivity]. simpl negb. rewrite andb_true_l.
    cbv zeta.
    destruct (Z.leb_spec (ceilDays (Z.abs (e - today))) 60) as [H | H].
    + apply ceilDays_bounds in H; [|lia].
      assert (Hle : (Z.abs (e - today) <=? 60 * DAY) = true) by lia. rewrite Hle.
      reflexivity.
    + assert (Hle : (Z.abs (e - today) <=? 60 * DAY) = false).
      { apply Z.leb_gt.
        destruct (Z.le_gt_cases (Z.abs (e - today)) (60 * DAY)) as [C|C]; [|lia].
        apply ceilDays_bounds in C; lia. }
      rewrite Hle. reflexivity.
Qed.

Lemma contractLoopAt_In ps a :
  forall k alerts,
    In a (ExcelImport.forEachFrom step k ps alerts) <->
    In a alerts \/
    exists j p e,
      nth_error ps j = Some p /\ noContractEnd p = false /\
      Date_parse (default [] (Property.contract_end p)) = Some e /\
      Z.abs (e - today) <= 60 * DAY /\
      a = expiryAlert (stamp (k + Z.of_nat j)) p (ceilDays (Z.abs (e - today))).
Proof.
  induction ps as [|p ps IH]; intros k alerts.
  - simpl. split; [tauto|]. intros [H | ([|j] & p & e & H & _)]; [exact H| |];
      discriminate.
  - cbn [ExcelImport.forEachFrom]. rewrite IH. split.
    + intros [H | (j & q & e & Hq & Hrest)].
      * rewrite contractStepAt_cases in H.
        destruct (Date_parse (default [] (Property.contract_end p))) as [e|] eqn:He;
          [|left; exact H].
        destruct (negb (noContractEnd p) && (Z.abs (e - today) <=? 60 * DAY)) eqn:Hc;
          [|left; exact H].
        apply in_app_iff in H. destruct H as [H | [<- | []]]; [left; exact H|].
        apply andb_true_iff in Hc. destruct Hc as [H1 H2].
        apply negb_true_iff in H1.
        right. exists 0%nat, p, e. rewrite Z.add_0_r.
        repeat split; try assumption; try reflexivity. lia.
      * right. exists (S j), q, e. split; [exact Hq|].
        replace (k + Z.of_nat (S j)) with (k + 1 + Z.of_nat j) by lia. exact Hrest.
    + intros [H | ([|j] & q & e & Hq & Hno & He & Hle & ->)].
      * left. rewrite contractStepAt_cases.
        destruct (Date_parse _); [|exact H].
        destruct (_ && _); [apply in_app_iff; left; exact H | exact H].
      * left. simpl in Hq. assert (p = q) by congruence. subst q.
        rewrite contractStepAt_cases, He, Hno. simpl negb. rewrite andb_true_l.
        assert (Hc : (Z.abs (e - today) <=? 60 * DAY) = true) by lia. rewrite Hc.
        apply in_app_iff. right. left. rewrite Z.add_0_r. reflexivity.
      * right. exists j, q, e. split; [exact Hq|].
        replace (k + 1 + Z.of_nat j) with (k + Z.of_nat (S j)) by lia. tauto.
Qed.

Lemma contractLoopAt_length ps :
  forall k alerts,
    (length (ExcelImport.forEachFrom step k ps alerts)
     <= length alerts + length ps)%nat.
Proof.
  induction ps as [|p ps IH]; intros k alerts; cbn [ExcelImport.forEachFrom length];
    [lia|].
  etransitivity; [apply IH|].
  assert (H : (length (step alerts p k) <= S (length alerts))%nat); [|lia].
  rewrite contractStepAt_cases. destruct (Date_parse _); [|lia].
  destruct (_ && _); [|lia]. rewrite length_app. simpl. lia.
Qed.

(** X18. The expiry warnings of the dashboard, which reads the clock once
    for each property in the filter and once more, as today, before the
    alerts are built.  A warning is shown for a property exactly when its
    [contract_end] is not empty and parses to an instant that is after the
    reading of the filter for that property and at most 60 days from today,
    before or after.  The days shown are the distance from today in days,
    rounded up: between 0 and 60, at least 1 unless the end is today's
    reading itself, and the severity is high exactly when the distance is at
    most 30 days.  A contract that has ended by today's reading is warned of
    only if it ended after the reading of the filter; when all the readings
    are the same instant, the warnings are exactly those of the contracts
    that end after it and at most 60 days later, with 1 to 60 days.  The
    warnings are never more than the active properties, and they come
    before the danger alert. *)
Theorem expiry_warnings (db : Database.t) :
  let shown := alerts (measure db) in
  let warnings := List.filter (isAlertType warning) shown in
  (forall a, In a warnings ->
     exists i k p e,
       nth_error (Database.properties db) i = Some p /\ noContractEnd p = false /\
       Date_parse (default [] (Property.contract_end p)) = Some e /\
       filterNow (Z.of_nat i) < e /\ Z.abs (e - today) <= 60 * DAY /\
       a = expiryAlert (stamp k) p (ceilDays (Z.abs (e - today)))) /\
  (forall i p e,
     nth_error (Database.properties db) i = Some p -> noContractEnd p = false ->
     Date_parse (default [] (Property.contract_end p)) = Some e ->
     filterNow (Z.of_nat i) < e -> Z.abs (e - today) <= 60 * DAY ->
     exists k, In (expiryAlert (stamp k) p (ceilDays (Z.abs (e - today)))) warnings) /\
  (forall e, Z.abs (e - today) <= 60 * DAY ->
     0 <= ceilDays (Z.abs (e - today)) <= 60 /\
     (e <> today -> 1 <= ceilDays (Z.abs (e - today))) /\
     forall s p,
       severity (expiryAlert s p (ceilDays (Z.abs (e - today)))) = Some high <->
       Z.abs (e - today) <= 30 * DAY) /\
  ((forall i, filterNow i = today) ->
   forall a, In a warnings ->
     exists k p e,
       In p (Database.properties db) /\
       Date_parse (default [] (Property.contract_end p)) = Some e /\
       today < e /\ e - today <= 60 * DAY /\
       1 <= ceilDays (e - today) <= 60 /\
       a = expiryAlert (stamp k) p (ceilDays (e - today))) /\
  (length warnings <= length (actives db))%nat /\
  shown = warnings ++ List.filter (isAlertType danger) shown.
Proof.
  cbv zeta.
  set (loop := ExcelImport.forEachFrom step 0 (actives db) []).
  assert (Hactive : forall j p,
            nth_error (actives db) j = Some p ->
            exists i, nth_error (Database.properties db) i = Some p /\
                      (noContractEnd p = true \/
                       exists e, Date_parse (default [] (Property.contract_end p)) = Some e
                                 /\ filterNow (Z.of_nat i) < e)).
  { intros j p Hj. apply nth_error_In in Hj. unfold actives, activePropsAt in Hj.
    apply In_filterFrom in Hj. destruct Hj as (i & Hi & Hf). exists i.
    split; [exact Hi|]. rewrite Z.add_0_l in Hf. apply orb_true_iff in Hf.
    destruct Hf as [Hf | Hf]; [left; exact Hf|]. right. unfold dateAfterNow in Hf.
    destruct (Date_parse _) as [e|]; [|discriminate]. exists e. split; [reflexivity|lia]. }
  assert (Hin : forall a, In a loop ->
            exists i k p e,
              nth_error (Database.properties db) i = Some p /\ noContractEnd p = false /\
              Date_parse (default [] (Property.contract_end p)) = Some e /\
              filterNow (Z.of_nat i) < e /\ Z.abs (e - today) <= 60 * DAY /\
              a = expiryAlert (stamp k) p (ceilDays (Z.abs (e - today)))).
  { intros a Ha. unfold loop in Ha. apply contractLoopAt_In in Ha.
    destruct Ha as [[] | (j & p & e & Hj & Hno & He & Hle & ->)].
    destruct (Hactive j p Hj) as (i & Hi & [Hyes | (e' & He' & Hlt)]); [congruence|].
    exists i, (0 + Z.of_nat j), p, e.
    assert (e' = e) by congruence. subst e'. tauto. }
  assert (Hot : forall i p e,
            nth_error (Database.properties db) i = Some p -> noContractEnd p = false ->
            Date_parse (default [] (Property.contract_end p)) = Some e ->
            filterNow (Z.of_nat i) < e -> Z.abs (e - today) <= 60 * DAY ->
            exists k, In (expiryAlert (stamp k) p (ceilDays (Z.abs (e - today)))) loop).
  { intros i p e Hi Hno He Hlt Hle.
    assert (Hp : In p (actives db)).
    { unfold actives, activePropsAt. apply In_filterFrom. exists i.
      split; [exact Hi|]. rewrite Z.add_0_l. apply orb_true_iff. right.
      unfold dateAfterNow. rewrite He. lia. }
    apply In_nth_error in Hp. destruct Hp as [j Hj].
    exists (0 + Z.of_nat j). unfold loop. apply contractLoopAt_In. right.
    exists j, p, e. tauto. }
  assert (Hwarn : List.filter (isAlertType warning) loop = loop).
  { apply filter_all. intros a Ha. apply Hin in Ha.
    destruct Ha as (i & k & p & e & _ & _ & _ & _ & _ & ->). reflexivity. }
  assert (Hdanger : List.filter (isAlertType danger) loop = []).
  { apply filter_none. intros a Ha. apply Hin in Ha.
    destruct Ha as (i & k & p & e & _ & _ & _ & _ & _ & ->). reflexivity. }
  assert (Hshown : List.filter (isAlertType warning) (alerts (measure db)) = loop /\
                   alerts (measure db) =
                     loop ++ List.filter (isAlertType danger) (alerts (measure db))).
  { unfold measure, metricsAt, metricsOf, ExcelImport.forEach. cbn [alerts].
    fold (actives db). fold step. fold loop.
    destruct (Z.of_nat (length (zeroRentTenants db)) >? 0).
    - rewrite !List.filter_app, Hwarn, Hdanger. cbn. rewrite app_nil_r. tauto.
    - rewrite Hwarn, Hdanger, app_nil_r. tauto. }
  destruct Hshown as [Hw Hs]. rewrite Hw.
  split; [exact Hin|]. split; [exact Hot|].
  assert (Hdays : forall e, Z.abs (e - today) <= 60 * DAY ->
            0 <= ceilDays (Z.abs (e - today)) <= 60 /\
            (e <> today -> 1 <= ceilDays (Z.abs (e - today))) /\
            forall s p,
              severity (expiryAlert s p (ceilDays (Z.abs (e - today)))) = Some high <->
              Z.abs (e - today) <= 30 * DAY).
  { intros e Hle. split; [|split].
    - split; [|apply ceilDays_bounds; lia].
      unfold ceilDays. apply Z.div_pos; lia.
    - intros Hne. apply ceilDays_positive. lia.
    - intros s p. unfold expiryAlert. cbn [severity].
      destruct (Z.leb_spec (ceilDays (Z.abs (e - today))) 30) as [H | H].
      + apply ceilDays_bounds in H; [|lia]. tauto.
      + split; [discriminate|]. intros H'.
        apply (ceilDays_bounds (Z.abs (e - today)) 30) in H'; lia. }
  split; [exact Hdays|]. split; [|split; [|exact Hs]].
  - intros Hfrozen a Ha. apply Hin in Ha.
    destruct Ha as (i & k & p & e & Hi & Hno & He & Hlt & Hle & ->).
    rewrite Hfrozen in Hlt.
    assert (Habs : Z.abs (e - today) = e - today) by lia. rewrite Habs in *.
    exists k, p, e. split; [apply (nth_error_In _ _ Hi)|].
    split; [exact He|]. split; [exact Hlt|]. split; [exact Hle|].
    split; [|reflexivity].
    split; [apply ceilDays_positive; lia | apply ceilDays_bounds; lia].
  - pose proof (contractLoopAt_length (actives db) 0 []) as H.
    fold loop in H. simpl in H. exact H.
Qed.

End Readings.

Section Totals.

Variable Date_parse : jsstring -> option Z.
Variable filterNow : Z -> Z.
Variable today : Z.
Variable stamp : Z -> jsstring.
Variable dangerStamp : jsstring.

Let measure := metricsAt Date_parse filterNow today stamp dangerStamp.

Lemma filter_implied {A : Type} (f g : A -> bool) (l : list A) :
  (forall x, f x = true -> g x = true) ->
  List.filter f (List.filter g l) = List.filter f l.
Proof.
  intros H. induction l as [|x l IH]; [reflexivity|]. simpl.
  destruct (g x) eqn:Eg; simpl.
  - rewrite IH. reflexivity.
  - destruct (f x) eqn:Ef; [|exact IH]. rewrite (H x Ef) in Eg. discriminate.
Qed.

(** X19. The dashboard does not see the inactive tenants: the metrics of a
    store are the metrics of the store with its inactive tenants removed. *)
Theorem metrics_ignore_inactive_tenants (db : Database.t) :
  measure db = measure (setTenants db (activeTenants db)).
Proof.
  unfold measure, metricsAt, metricsOf, activeTenants, zeroRentTenants, setTenants,
    activePropsAt.
  cbn [Database.tenants Database.properties].
  set (isActive := fun t : Tenant.t => Status_eqb (Tenant.status t) active).
  rewrite (filter_implied isActive isActive) by tauto.
  rewrite (filter_implied
             (fun t => Status_eqb (Tenant.status t) active
                       && (Tenant.rent_contribution t =? 0)) isActive)
    by (intros t Ht; apply andb_true_iff in Ht; tauto).
  rewrite !sumBy_active. fold isActive.
  rewrite (filter_implied isActive isActive) by tauto.
  reflexivity.
Qed.

(** X20. The rent manager and the dashboard agree on the active tenants of a
    store: the total that the manager shows for them is the amount that the
    dashboard reports as collected, and the manager counts as unconfigured
    the tenants that the dashboard counts in its zero-rent alert, showing
    its notice exactly when the dashboard raises that alert. *)
Theorem rent_manager_agrees_with_dashboard (db : Database.t) :
  let n := Z.of_nat (length (zeroRentTenants db)) in
  RentManager.totalAll (RentManager.computeTotals (activeTenants db))
    = totalCollected (measure db) /\
  Z.of_nat (length (activeTenants db)) = occupiedCount (measure db) /\
  RentManager.unconfigured (activeTenants db) = (if n >? 0 then Some n else None).
Proof.
  cbv zeta. split; [|split].
  - unfold measure, metricsAt, metricsOf. cbn [totalCollected].
    rewrite !sumBy_active. unfold RentManager.computeTotals.
    cbn [RentManager.totalAll]. unfold activeTenants, sumBy.
    f_equal; apply fold_left_ext_numOr.
  - reflexivity.
  - unfold RentManager.unconfigured, zeroRentTenants, activeTenants.
    set (isActive := fun t : Tenant.t => Status_eqb (Tenant.status t) active).
    set (zero := fun t : Tenant.t => Tenant.rent_contribution t =? 0).
    assert (Hf : List.filter zero (List.filter isActive (Database.tenants db))
                 = List.filter (fun t => Status_eqb (Tenant.status t) active
                                         && (Tenant.rent_contribution t =? 0))
                     (Database.tenants db)).
    { induction (Database.tenants db) as [|t ts IH]; [reflexivity|]. simpl.
      unfold isActive at 1. destruct (Status_eqb (Tenant.status t) active); simpl.
      - unfold zero at 1. destruct (Tenant.rent_contribution t =? 0); rewrite IH; reflexivity.
      - exact IH. }
    rewrite <- Hf.
    set (l := List.filter isActive (Database.tenants db)).
    destruct (existsb zero l) eqn:E.
    + apply existsb_exists in E. destruct E as (t & Ht & Hz).
      assert (Hin : In t (List.filter zero l)) by (apply filter_In; tauto).
      destruct (List.filter zero l) as [|x r]; [destruct Hin|].
      cbn [length]. destruct (Z.gtb_spec (Z.of_nat (S (length r))) 0);
        [reflexivity | lia].
    + rewrite (filter_none zero l); [reflexivity|].
      intros t Ht. destruct (zero t) eqn:Hz; [|reflexivity].
      assert (Hex : existsb zero l = true) by (apply existsb_exists; eauto).
      congruence.
Qed.








End Totals.

End DashboardMoreFacts.


(** ** The area of an address *)

Module PropertyUtilsFacts.
Import Validators PropertyUtils.

Lemma trimStart_suffix s : exists ws, s = ws ++ trimStart s.
Proof.
  induction s as [|c r IH]; [exists []; reflexivity|]. simpl.
  destruct (isWhiteSpace c).
  - destruct IH as [ws Hws]. exists (c :: ws). simpl. f_equal. exact Hws.
  - exists []. reflexivity.
Qed.

Lemma takeDigits_suffix n s r :
  takeDigits n s = Some r ->
  exists ds, s = ds ++ r /\ forallb isDigit ds = true /\ length ds = n.
Proof.
  revert s. induction n as [|n IH]; intros s H; simpl in H.
  - injection H as <-. exists []. repeat split; reflexivity.
  - destruct s as [|c s']; [discriminate|].
    destruct (isDigit c) eqn:Hc; [|discriminate].
    destruct (IH s' H) as (ds & -> & Hds & Hlen). exists (c :: ds). simpl.
    rewrite Hc, Hds, Hlen. repeat split; reflexivity.
Qed.

Lemma postalAtHead_suffix s rest :
  postalAtHead s = Some rest ->
  exists mid, s = mid ++ rest /\ mid <> [] /\ existsb isDigit mid = true.
Proof.
  unfold postalAtHead, skipSpaces.
  set (s1 := match s with
             | c :: r => if (c =? postalMark)%N then r else s
             | [] => s
             end).
  assert (H1 : exists m1, s = m1 ++ s1).
  { unfold s1. destruct s as [|c r]; [exists []; reflexivity|].
    destruct (c =? postalMark)%N; [exists [c] | exists []]; reflexivity. }
  destruct H1 as [m1 H1].
  destruct (trimStart_suffix s1) as [ws Hws].
  destruct (takeDigits 3 (trimStart s1)) as [s2|] eqn:H2; [|discriminate].
  apply takeDigits_suffix in H2. destruct H2 as (d3 & H2 & Hd3 & Hlen3).
  set (s3 := match s2 with
             | c :: r => if (c =? 45)%N then r else s2
             | [] => s2
             end).
  assert (H3 : exists m3, s2 = m3 ++ s3).
  { unfold s3. destruct s2 as [|c r]; [exists []; reflexivity|].
    destruct (c =? 45)%N; [exists [c] | exists []]; reflexivity. }
  destruct H3 as [m3 H3].
  destruct (takeDigits 4 s3) as [s4|] eqn:H4; [|discriminate].
  apply takeDigits_suffix in H4. destruct H4 as (d4 & H4 & _ & _).
  destruct (trimStart_suffix s4) as [ws' Hws'].
  intros H. injection H as <-.
  exists (m1 ++ ws ++ d3 ++ m3 ++ d4 ++ ws'). split; [|split].
  - rewrite H1 at 1. rewrite Hws at 1. rewrite H2 at 1. rewrite H3 at 1.
    rewrite H4 at 1. rewrite Hws' at 1.
    rewrite <- !app_assoc. reflexivity.
  - destruct d3 as [|c d3]; [discriminate|].
    intros Hnil. apply app_eq_nil in Hnil. destruct Hnil as [_ Hnil].
    apply app_eq_nil in Hnil. destruct Hnil as [_ Hnil]. discriminate.
  - destruct d3 as [|c d3]; [discriminate|]. simpl in Hd3.
    apply andb_true_iff in Hd3. destruct Hd3 as [Hc _].
    rewrite !existsb_app. simpl. rewrite Hc. simpl.
    rewrite !orb_true_r. reflexivity.
Qed.

Lemma removePostal_split s :
  exists pre mid post, s = pre ++ mid ++ post /\ removePostal s = pre ++ post.
Proof.
  induction s as [|c r IH].
  - simpl. destruct (postalAtHead []) as [rest|] eqn:E.
    + apply postalAtHead_suffix in E. destruct E as (mid & Hmid & _).
      symmetry in Hmid. apply app_eq_nil in Hmid. destruct Hmid as [-> ->].
      exists [], [], []. split; reflexivity.
    + exists [], [], []. split; reflexivity.
  - simpl. destruct (postalAtHead (c :: r)) as [rest|] eqn:E.
    + apply postalAtHead_suffix in E. destruct E as (mid & Hmid & _).
      exists [], mid, rest. split; [exact Hmid | reflexivity].
    + destruct IH as (pre & mid & post & Hs & Hr).
      exists (c :: pre), mid, post. simpl. rewrite Hr. split; [|reflexivity].
      f_equal. exact Hs.
Qed.

Lemma removePostal_no_digit s :
  existsb isDigit s = false -> removePostal s = s.
Proof.
  induction s as [|c r IH]; intros H.
  - simpl. destruct (postalAtHead []) as [rest|] eqn:E; [|reflexivity].
    apply postalAtHead_suffix in E. destruct E as (mid & Hmid & Hne & _).
    symmetry in Hmid. apply app_eq_nil in Hmid. destruct Hmid as [-> _].
    congruence.
  - simpl. destruct (postalAtHead (c :: r)) as [rest|] eqn:E.
    + apply postalAtHead_suffix in E. destruct E as (mid & Hmid & _ & Hd).
      rewrite Hmid, existsb_app, Hd in H. discriminate.
    + f_equal. apply IH. simpl in H. apply orb_false_iff in H. tauto.
Qed.






(** X21. The postal code that [extractArea] removes: the cleaned address is
    the address with one stretch cut out, and an address that holds no digit
    is left as it is. *)
Theorem removePostal_cuts_one_stretch (address : jsstring) :
  (exists pre mid post,
     address = pre ++ mid ++ post /\ removePostal address = pre ++ post) /\
  (length (removePostal address) <= length address)%nat /\
  (existsb isDigit address = false -> removePostal address = address).
Proof.
  split; [apply removePostal_split|]. split; [|apply removePostal_no_digit].
  destruct (removePostal_split address) as (pre & mid & post & Hs & Hr).
  rewrite Hr. assert (Hlen : length address = length (pre ++ mid ++ post))
    by (f_equal; exact Hs).
  rewrite Hlen, !length_app. lia.
Qed.





End PropertyUtilsFacts.


(** ** Notifications and their timers *)

Module NotificationsFacts.
Import Notifications MoreNotions.

Lemma slice0_positive {A : Type} (x : A) (l : list A) (n : Z) :
  0 < n -> slice0 (x :: l) n = x :: firstn (Z.to_nat n - 1) l.
Proof.
  intros Hn. unfold slice0.
  destruct (Z.ltb_spec n 0) as [H | _]; [lia|].
  destruct (Z.to_nat n) as [|k] eqn:E; [lia|]. simpl.
  rewrite Nat.sub_0_r. reflexivity.
Qed.

Lemma firstn_In {A : Type} (k : nat) (l : list A) (x : A) :
  In x (firstn k l) -> In x l.
Proof.
  revert l. induction k as [|k IH]; intros [|y l]; simpl; try tauto.
  intros [H | H]; [left; exact H | right; apply IH; exact H].
Qed.

Lemma slice0_In {A : Type} (l : list A) (n : Z) (x : A) :
  In x (slice0 l n) -> In x l.
Proof.
  unfold slice0. destruct (n <? 0); apply firstn_In.
Qed.

Lemma removeNotification_notifications st i :
  notifications (removeNotification st i) =
  List.filter (fun n => negb (eqb (id n) i)) (notifications st).
Proof.
  unfold removeNotification.
  destruct (timeoutRefs st !! i) as [h|]; [destruct (negb (h =? 0))|]; reflexivity.
Qed.

Section Config.

Variable maxNotifications : Z.
Variable defaultDuration : Z.

Let post := notify maxNotifications defaultDuration.

(** X23. [notify] with a positive limit shows the new notification first,
    before as many of the previous ones as the limit leaves room for, and
    returns its id.  With a positive duration the notification carries it
    and a timer is recorded for its id; with any other duration the
    notification is persistent: it carries no duration and no timer is
    set. *)
Theorem notify_shows_newest (st : state) (t : tick) (kind : ntype)
    (heading body : jsstring) (o : option options) :
  0 < maxNotifications ->
  let ms := default defaultDuration (durationOf o) in
  let res := post st t kind heading body o in
  exists n,
    fst res = t_id t /\
    notifications (snd res) =
      n :: firstn (Z.to_nat maxNotifications - 1) (notifications st) /\
    length (notifications (snd res)) =
      Nat.min (S (length (notifications st))) (Z.to_nat maxNotifications) /\
    id n = t_id t /\ type n = kind /\ title n = heading /\ message n = body /\
    action n = actionOf o /\ timestamp n = t_iso t /\
    (0 < ms ->
       duration n = Some ms /\
       timeoutRefs (snd res) !! t_id t = Some (t_handle t) /\
       pending (snd res) !! t_handle t = Some (t_id t)) /\
    (ms <= 0 ->
       duration n = None /\
       timeoutRefs (snd res) = timeoutRefs st /\ pending (snd res) = pending st).
Proof.
  intros Hmax. cbv zeta. unfold post, notify.
  set (d := default defaultDuration (durationOf o)).
  destruct (Z.gtb_spec d 0) as [Hd | Hd]; eexists;
    cbn [fst snd notifications timeoutRefs pending];
    rewrite slice0_positive by exact Hmax;
    (split; [reflexivity|]); (split; [reflexivity|]);
    (split; [cbn [length]; rewrite length_firstn; lia|]);
    do 6 (split; [reflexivity|]).
  - split; [|lia]. intros _. rewrite !lookup_insert_eq. repeat split; reflexivity.
  - split; [lia|]. intros _. repeat split; reflexivity.
Qed.

End Config.

Lemma In_others (l : list Notification) (i : jsstring) (n : Notification) :
  In n (List.filter (fun n => negb (eqb (id n) i)) l) <-> In n l /\ id n <> i.
Proof.
  rewrite filter_In, negb_true_iff, eqb_false. reflexivity.
Qed.

Lemma filter_twice {A : Type} (f : A -> bool) (l : list A) :
  List.filter f (List.filter f l) = List.filter f l.
Proof.
  induction l as [|x l IH]; simpl; [reflexivity|].
  destruct (f x) eqn:E; simpl; rewrite ?E, IH; reflexivity.
Qed.

Lemma agree_delete (refs : gmap (list N) Z) (timers : gmap Z (list N)) i h :
  (forall j k, refs !! j = Some k <-> timers !! k = Some j) ->
  refs !! i = Some h ->
  forall j k, delete i refs !! j = Some k <-> delete h timers !! k = Some j.
Proof.
  intros Hagree Hi j k. rewrite !lookup_delete_Some, Hagree.
  pose proof (proj1 (Hagree i h) Hi) as Hh.
  split; intros [Hne Hk]; (split; [|exact Hk]); intros ->.
  - rewrite Hh in Hk. congruence.
  - apply Hagree in Hk. rewrite Hi in Hk. congruence.
Qed.

Lemma timersAgree_remove st i :
  timersAgree st -> timersAgree (removeNotification st i).
Proof.
  intros [Hagree Hzero]. unfold removeNotification.
  destruct (timeoutRefs st !! i) as [h|] eqn:Hi; [|split; assumption].
  destruct (Z.eqb_spec h 0) as [-> | Hh]; simpl negb; cbv iota.
  - split; assumption.
  - split; cbn [timeoutRefs pending].
    + apply agree_delete; assumption.
    + intros j Hj. apply lookup_delete_Some in Hj. destruct Hj as [_ Hj].
      exact (Hzero j Hj).
Qed.

Lemma clearTimers_lookup (refs : gmap (list N) Z) (timers : gmap Z (list N)) h :
  clearTimers refs timers !! h = None <->
  timers !! h = None \/ exists i, refs !! i = Some h.
Proof.
  unfold clearTimers.
  apply (map_fold_weak_ind
           (fun (r : gmap Z (list N)) (m : gmap (list N) Z) =>
              r !! h = None <-> timers !! h = None \/ exists i, m !! i = Some h)).
  - split; [tauto|]. intros [H | [i Hi]]; [exact H|].
    rewrite lookup_empty in Hi. discriminate.
  - intros i x m r Hm IH. rewrite lookup_delete_None, IH. split.
    + intros [-> | [H | [j Hj]]].
      * right. exists i. apply lookup_insert_eq.
      * left. exact H.
      * right. exists j. rewrite lookup_insert_ne; [exact Hj|].
        intros ->. rewrite Hm in Hj. discriminate.
    + intros [H | [j Hj]]; [right; left; exact H|].
      apply lookup_insert_Some in Hj. destruct Hj as [[_ ->] | [_ Hj]].
      * left. reflexivity.
      * right. right. exists j. exact Hj.
Qed.

(** X24. [removeNotification] takes every notification with the id off the
    list and keeps the others; it leaves the timers of the other ids alone,
    and a second call with the same id changes nothing.  When the
    bookkeeping of the timers is in step it stays so, and afterwards no
    timer is recorded or pending for the id. *)
Theorem removeNotification_effect (st : state) (i : jsstring) :
  let st' := removeNotification st i in
  notShown st' i /\
  (forall n, In n (notifications st') <-> In n (notifications st) /\ id n <> i) /\
  (forall j, j <> i -> timeoutRefs st' !! j = timeoutRefs st !! j) /\
  removeNotification st' i = st' /\
  (timersAgree st ->
     timersAgree st' /\ timeoutRefs st' !! i = None /\
     forall h, pending st' !! h <> Some i).
Proof.
  cbv zeta.
  assert (Hin : forall n, In n (notifications (removeNotification st i)) <->
                          In n (notifications st) /\ id n <> i).
  { intros n. rewrite removeNotification_notifications. apply In_others. }
  split; [intros n Hn; apply Hin in Hn; tauto|]. split; [exact Hin|].
  split; [|split].
  - intros j Hj. unfold removeNotification.
    destruct (timeoutRefs st !! i) as [h|]; [|reflexivity].
    destruct (negb (h =? 0)); [|reflexivity].
    cbn [timeoutRefs]. apply lookup_delete_ne. congruence.
  - unfold removeNotification at 1.
    rewrite removeNotification_notifications, filter_twice.
    unfold removeNotification.
    destruct (timeoutRefs st !! i) as [h|] eqn:Hi.
    + destruct (negb (h =? 0)) eqn:Hh; cbn [timeoutRefs pending notifications].
      * rewrite lookup_delete_eq. reflexivity.
      * rewrite Hi, Hh. reflexivity.
    + cbn [timeoutRefs pending notifications]. rewrite Hi. reflexivity.
  - intros Hagree. pose proof (timersAgree_remove st i Hagree) as Hagree'.
    split; [exact Hagree'|].
    assert (Hnone : timeoutRefs (removeNotification st i) !! i = None).
    { destruct Hagree as [_ Hzero]. unfold removeNotification.
      destruct (timeoutRefs st !! i) as [h|] eqn:Hi; [|exact Hi].
      destruct (Z.eqb_spec h 0) as [-> | Hh]; simpl negb; cbv iota.
      - exfalso. exact (Hzero i Hi).
      - cbn [timeoutRefs]. apply lookup_delete_eq. }
    split; [exact Hnone|].
    intros h Hh. apply (proj1 Hagree') in Hh. congruence.
Qed.

(** X25. The bookkeeping of the timers stays in step: it is in step at the
    start, and from a state where it is, it is again after
    [removeNotification], after a timer fires, after [clearAll], which
    leaves no timer pending, and after [notify] when the id and the handle
    are new and the handle is not falsy. *)
Theorem timers_stay_in_step (st : state) (i : jsstring) (h : Z)
    (maxNotifications defaultDuration : Z) (t : tick) (kind : ntype)
    (heading body : jsstring) (o : option options) :
  timersAgree st ->
  timersAgree initial /\
  timersAgree (removeNotification st i) /\
  timersAgree (fire st h) /\
  timersAgree (clearAll st) /\
  pending (clearAll st) = ∅ /\
  (timeoutRefs st !! t_id t = None -> pending st !! t_handle t = None ->
   t_handle t <> 0 ->
   timersAgree
     (snd (notify maxNotifications defaultDuration st t kind heading body o))).
Proof.
  intros Hagree.
  assert (Hempty : pending (clearAll st) = ∅).
  { unfold clearAll. cbn [pending]. apply map_empty. intros k.
    apply clearTimers_lookup.
    destruct (pending st !! k) as [j|] eqn:Hk; [|left; reflexivity].
    right. exists j. apply (proj1 Hagree). exact Hk. }
  split; [|split; [|split; [|split; [|split]]]].
  - split; intros; cbn; rewrite ?lookup_empty; [split|]; discriminate.
  - apply timersAgree_remove. exact Hagree.
  - unfold fire. destruct (pending st !! h) as [j|] eqn:Hh; [|exact Hagree].
    destruct Hagree as [Hagree Hzero].
    pose proof (proj2 (Hagree j h) Hh) as Hj.
    unfold removeNotification. cbn [timeoutRefs pending notifications]. rewrite Hj.
    destruct (Z.eqb_spec h 0) as [-> | Hne]; [exfalso; exact (Hzero j Hj)|].
    simpl negb. cbv iota. split; cbn [timeoutRefs pending].
    + intros a b. rewrite (agree_delete _ _ j h Hagree Hj a b).
      rewrite !lookup_delete_Some. tauto.
    + intros a Ha. apply lookup_delete_Some in Ha. destruct Ha as [_ Ha].
      exact (Hzero a Ha).
  - unfold timersAgree. rewrite Hempty. unfold clearAll. cbn [timeoutRefs]. split.
    + intros a b. rewrite !lookup_empty. split; discriminate.
    + intros a. rewrite lookup_empty. discriminate.
  - exact Hempty.
  - intros Hid Hhandle Hnz. unfold notify.
    destruct (default defaultDuration (durationOf o) >? 0); cbn [snd];
      [|exact Hagree].
    destruct Hagree as [Hagree Hzero]. split; cbn [timeoutRefs pending].
    + intros a b. rewrite !lookup_insert_Some, Hagree. split.
      * intros [[<- <-] | [Hne Hb]]; [left; tauto|]. right. split; [|exact Hb].
        intros <-. congruence.
      * intros [[<- <-] | [Hne Hb]]; [left; tauto|]. right. split; [|exact Hb].
        intros <-. apply Hagree in Hb. congruence.
    + intros a Ha. apply lookup_insert_Some in Ha.
      destruct Ha as [[_ Ha] | [_ Ha]]; [congruence | exact (Hzero a Ha)].
Qed.

(** X26. A timer that fires removes its notification: when the bookkeeping
    is in step and the timer [h] is pending for the id [i], after it has
    fired no notification with the id is shown, the other notifications are
    kept, and the timer is neither pending nor recorded.  A handle that is
    not pending changes nothing. *)
Theorem fire_removes_notification (st : state) (h : Z) (i : jsstring) :
  timersAgree st ->
  (pending st !! h = Some i ->
     notShown (fire st h) i /\
     (forall n, In n (notifications (fire st h)) <->
                In n (notifications st) /\ id n <> i) /\
     pending (fire st h) !! h = None /\
     timeoutRefs (fire st h) !! i = None) /\
  (pending st !! h = None -> fire st h = st).
Proof.
  intros [Hagree Hzero]. split.
  - intros Hh. pose proof (proj2 (Hagree i h) Hh) as Hi.
    assert (Hne : h <> 0) by (intros ->; exact (Hzero i Hi)).
    assert (Hfire : fire st h =
              mkState (List.filter (fun n => negb (eqb (id n) i)) (notifications st))
                (delete i (timeoutRefs st)) (delete h (delete h (pending st)))).
    { unfold fire. rewrite Hh. unfold removeNotification.
      cbn [timeoutRefs pending notifications]. rewrite Hi.
      destruct (Z.eqb_spec h 0); [contradiction|]. reflexivity. }
    rewrite Hfire. cbn [notifications timeoutRefs pending].
    assert (Hin : forall n,
              In n (List.filter (fun n => negb (eqb (id n) i)) (notifications st)) <->
              In n (notifications st) /\ id n <> i).
    { intros n. apply In_others. }
    split; [intros n Hn; apply Hin in Hn; tauto|]. split; [exact Hin|].
    split; apply lookup_delete_eq.
  - intros Hh. unfold fire. rewrite Hh. reflexivity.
Qed.

Section Helpers.

Variable maxNotifications : Z.
Variable defaultDuration : Z.

(** X27. The loader and the confirmation are persistent whatever the default
    duration is: [loading] and [confirm] set no timer, and the notification
    they add carries no duration.  Pressing the button of the confirmation
    takes every notification with its id off the list. *)
Theorem loading_and_confirm_persist (st : state) (t : tick)
    (heading body : jsstring) (onConfirm : Z) :
  let loader := loading maxNotifications defaultDuration st t body in
  let asked := confirm maxNotifications defaultDuration st t heading body onConfirm in
  fst loader = t_id t /\
  timeoutRefs (snd loader) = timeoutRefs st /\
  pending (snd loader) = pending st /\
  (forall n, In n (notifications (snd loader)) ->
     In n (notifications st) \/
     id n = t_id t /\ type n = n_info /\ title n = js "Procesando..." /\
     message n = body /\ duration n = None /\ action n = None) /\
  timeoutRefs asked = timeoutRefs st /\
  pending asked = pending st /\
  (forall n, In n (notifications asked) ->
     In n (notifications st) \/
     id n = t_id t /\ type n = n_warning /\ duration n = None /\
     click asked n = removeNotification asked (t_id t) /\
     notShown (click asked n) (t_id t)).
Proof.
  cbv zeta. unfold loading, confirm, notify.
  cbn [durationOf o_duration from_option Datatypes.id].
  change (-1 >? 0) with false. cbv iota.
  cbn [fst snd timeoutRefs pending notifications].
  do 3 (split; [reflexivity|]). split; [|do 2 (split; [reflexivity|])].
  - intros n Hn. apply slice0_In in Hn. destruct Hn as [<- | Hn]; [right | left; exact Hn].
    repeat split; reflexivity.
  - intros n Hn. apply slice0_In in Hn. destruct Hn as [<- | Hn]; [right | left; exact Hn].
    do 3 (split; [reflexivity|]).
    split; [reflexivity|].
    unfold click. cbn [action onClick actionOf o_action].
    intros m Hm. rewrite removeNotification_notifications in Hm.
    apply In_others in Hm. tauto.
Qed.

End Helpers.

End NotificationsFacts.


(** ** The import view *)

Module ImportViewFacts.
Import ExcelImport ImportView MoreNotions.

Section Clock.

Variable propertyNow : Z -> Z.
Variable tenantNow : Z -> Z.
Variable tenantToday : Z -> jsstring.

Let runFile := processFile propertyNow tenantNow tenantToday.
Let open := processExcelFile propertyNow tenantNow tenantToday.

Lemma processFile_success_inv (file : File) :
  success (runFile file) = true ->
  ExcelImport.errors (runFile file) = [] /\ exists d, data (runFile file) = Some d.
Proof.
  unfold runFile, processFile.
  destruct (negb (XLSX_loaded file)); [cbn; discriminate|].
  destruct (read file) as [e | workbook]; [cbn; discriminate|].
  cbv zeta.
  destruct (existsb isEmployeeSheet (SheetNames workbook)).
  - unfold processEmployeeImport.
    destruct (find isEmployeeSheet (SheetNames workbook)); cbn; [|discriminate].
    intros H. apply Nat.eqb_eq in H. apply length_zero_iff_nil in H.
    split; [exact H | eauto].
  - destruct (existsb isPropertySheet (SheetNames workbook)
              || existsb isTenantSheet (SheetNames workbook)); [|cbn; discriminate].
    rewrite ImportRunFacts.rent_success_iff. intros H.
    apply Nat.eqb_eq in H. apply length_zero_iff_nil in H. split; [exact H|].
    rewrite ImportRunFacts.processRentImport_final. cbn. eauto.
Qed.

Lemma toast_In (st : Notifications.state) (t : Notifications.tick)
    (kind : Notifications.ntype) (heading body : jsstring)
    (o : option Notifications.options) (n : Notifications.Notification) :
  In n (Notifications.notifications
          (snd (Notifications.notify maxNotifications defaultDuration st t kind
                  heading body o))) ->
  In n (Notifications.notifications st) \/
  Notifications.title n = heading /\ Notifications.type n = kind.
Proof.
  unfold Notifications.notify.
  destruct (_ >? 0); cbn [snd Notifications.notifications]; intros H;
    apply NotificationsFacts.slice0_In in H;
    (destruct H as [<- | H]; [right; split; reflexivity | left; exact H]).
Qed.

(** X28. What [processExcelFile] leaves in the view.  A file whose name ends
    in neither .xlsx nor .xlsm changes nothing but the notifications.
    Otherwise the synchronisation is offered exactly when [processFile]
    succeeds: the view then holds the data of the result and no error row;
    when it fails the status is the error status, the errors are those of
    the result and the data of an earlier import stay in the view without
    being offered.  In both cases the loader is off the list afterwards,
    and the notice of a partial validation is never among the notifications
    that the call adds. *)
Theorem processExcelFile_outcome (v : view) (name : jsstring) (file : File)
    (tLoader tOutcome tWarning : Notifications.tick) :
  let v' := open v name file tLoader tOutcome tWarning in
  let res := runFile file in
  let accepted := endsWith name (js ".xlsx") || endsWith name (js ".xlsm") in
  (accepted = false ->
     importStatus v' = importStatus v /\ importData v' = importData v /\
     ImportView.errors v' = ImportView.errors v) /\
  (accepted = true ->
     (success res = true ->
        importStatus v' = status_success /\ importData v' = data res /\
        ImportView.errors v' = [] /\ syncOffered v' = true) /\
     (success res = false ->
        importStatus v' = status_error /\ importData v' = importData v /\
        ImportView.errors v' = ExcelImport.errors res /\ syncOffered v' = false) /\
     notShown (toasts v') (Notifications.t_id tLoader)) /\
  (forall n, In n (Notifications.notifications (toasts v')) ->
     Notifications.title n = js "Validación parcial" ->
     In n (Notifications.notifications (toasts v))).
Proof.
  cbv zeta. unfold open, processExcelFile. fold runFile.
  destruct (endsWith name (js ".xlsx")) eqn:Hx;
    [|destruct (endsWith name (js ".xlsm")) eqn:Hm]; cbn [negb andb orb].
  1, 2: split; [discriminate|].
  3: split; [intros _; cbn; tauto|]; split; [discriminate|].
  3: { cbn [toasts]. intros n Hn Htitle. unfold Notifications.error in Hn.
       apply toast_In in Hn. destruct Hn as [Hn | [Ht _]]; [exact Hn|].
       rewrite Ht in Htitle. vm_compute in Htitle. discriminate. }
  all: unfold Notifications.loading;
    destruct (Notifications.notify maxNotifications defaultDuration (toasts v)
                tLoader Notifications.n_info (js "Procesando...")
                (js "Analizando archivo Excel...")
                (Some (Notifications.mkOptions (Some (-1)) None)))
      as [loader toasts1] eqn:Hload;
    assert (Hid : loader = Notifications.t_id tLoader)
      by (unfold Notifications.notify in Hload;
          destruct (_ >? 0); injection Hload as <- _; reflexivity);
    assert (Hprev : forall n, In n (Notifications.notifications toasts1) ->
              Notifications.title n = js "Validación parcial" ->
              In n (Notifications.notifications (toasts v)))
      by (intros n Hn Htitle;
          assert (Hs : toasts1 = snd (Notifications.notify maxNotifications
                         defaultDuration (toasts v) tLoader Notifications.n_info
                         (js "Procesando...") (js "Analizando archivo Excel...")
                         (Some (Notifications.mkOptions (Some (-1)) None))))
            by (rewrite Hload; reflexivity);
          rewrite Hs in Hn; apply toast_In in Hn;
          destruct Hn as [Hn | [Ht _]]; [exact Hn|];
          rewrite Ht in Htitle; vm_compute in Htitle; discriminate);
    (destruct (success (runFile file)) eqn:Hok;
     [destruct (processFile_success_inv file Hok) as [Herr [d Hd]];
      rewrite Hd, Herr; cbn [length Nat.ltb Nat.leb]
     |]);
    cbn [importStatus importData ImportView.errors toasts];
    (split; [intros _; split; [|split]|]).
  all: try (intros _; repeat split; reflexivity).
  all: try discriminate.
  all: try (rewrite Hid; intros n Hn;
            rewrite NotificationsFacts.removeNotification_notifications in Hn;
            apply NotificationsFacts.In_others in Hn; tauto).
  all: intros n Hn Htitle;
    rewrite NotificationsFacts.removeNotification_notifications in Hn;
    apply NotificationsFacts.In_others in Hn; destruct Hn as [Hn _];
    unfold Notifications.success, Notifications.error in Hn;
    apply toast_In in Hn; destruct Hn as [Hn | [Ht _]];
    [apply Hprev; assumption|];
    rewrite Ht in Htitle; vm_compute in Htitle; discriminate.
Qed.

(** X29. Import, then synchronise: after [processExcelFile] has accepted a
    file that [processFile] reads with success, [handleSync] hands over the
    data of that result, once.  It puts the view back to idle with no data
    and no error row, so the synchronisation is no longer offered and a
    second [handleSync] hands over nothing and leaves the view as it is. *)
Theorem sync_hands_over_once (v : view) (name : jsstring) (file : File)
    (tLoader tOutcome tWarning tSync tAgain : Notifications.tick) :
  endsWith name (js ".xlsx") || endsWith name (js ".xlsm") = true ->
  success (runFile file) = true ->
  let synced := handleSync (open v name file tLoader tOutcome tWarning) tSync in
  (exists d, fst synced = Some d /\ data (runFile file) = Some d) /\
  importStatus (snd synced) = status_idle /\
  importData (snd synced) = None /\
  ImportView.errors (snd synced) = [] /\
  syncOffered (snd synced) = false /\
  handleSync (snd synced) tAgain = (None, snd synced).
Proof.
  intros Hname Hok. cbv zeta.
  destruct (processFile_success_inv file Hok) as [Herr [d Hd]].
  assert (Hdata : importData (open v name file tLoader tOutcome tWarning) = Some d).
  { unfold open, processExcelFile. fold runFile.
    apply orb_true_iff in Hname.
    assert (Hext : negb (endsWith name (js ".xlsx"))
                   && negb (endsWith name (js ".xlsm")) = false).
    { destruct Hname as [-> | ->]; [reflexivity | apply andb_false_r]. }
    rewrite Hext. unfold Notifications.loading.
    destruct (Notifications.notify _ _ _ _ _ _ _ _) as [loader toasts1].
    rewrite Hok, Hd. reflexivity. }
  set (v' := open v name file tLoader tOutcome tWarning) in *.
  assert (Hs : handleSync v' tSync =
            (Some d,
             mkView status_idle None []
               (snd (Notifications.success maxNotifications defaultDuration
                       (toasts v') tSync (js "Sincronización exitosa")
                       (js "Datos importados correctamente") None)))).
  { unfold handleSync. rewrite Hdata. reflexivity. }
  rewrite Hs. cbn [fst snd importStatus importData ImportView.errors].
  split; [exists d; split; [reflexivity | exact Hd]|].
  repeat split; reflexivity.
Qed.

End Clock.

End ImportViewFacts.


(** ** The further properties on concrete inputs *)

Module FurtherExamples.
Import Store ExcelImport Notions MoreNotions Samples MoreSamples.

(** Two rows of an employee sheet, the second with a blank name cell: the
    candidates and the errors together are two. *)
Lemma employee_rows_partition_witness :
  find isEmployeeSheet [js "社員"] = Some (js "社員") /\
  exists candidates,
    data (processEmployeeImport
            (employeeWorkbook [employeeRow "E001" "田中" "タナカ";
                               employeeRow "E002" "" "サトウ"]) [js "社員"])
      = Some (mkData None None (Some candidates)) /\
    (length candidates
     + length (errors (processEmployeeImport
                         (employeeWorkbook [employeeRow "E001" "田中" "タナカ";
                                            employeeRow "E002" "" "サトウ"])
                         [js "社員"]))
     = 2)%nat.
Proof.
  assert (H : find isEmployeeSheet [js "社員"] = Some (js "社員"))
    by (vm_compute; reflexivity).
  split; [exact H|].
  destruct (ImportRunFacts.employee_rows_partition
              (employeeWorkbook [employeeRow "E001" "田中" "タナカ";
                                 employeeRow "E002" "" "サトウ"])
              [js "社員"] (js "社員") H) as (candidates & Hdata & Hlen & _).
  exists candidates. split; [exact Hdata | exact Hlen].
Defined.

(** A row with a blank 社員No and a name. *)
Lemma employee_blank_id_witness :
  validateExcelEmployeeRow (employeeRow "" "田中" "タナカ") = true /\
  exists e,
    employeeStep (mkEmpAcc [] []) (employeeRow "" "田中" "タナカ") 0
      = mkEmpAcc [] [e] /\
    Employee.id e = js "undefined".
Proof.
  assert (H1 : validateExcelEmployeeRow (employeeRow "" "田中" "タナカ") = true)
    by (vm_compute; reflexivity).
  split; [exact H1|].
  apply (ImportRunFacts.employee_blank_id_is_undefined (mkEmpAcc [] [])
           (employeeRow "" "田中" "タナカ") 0 H1).
  - vm_compute. reflexivity.
  - vm_compute. reflexivity.
  - vm_compute. discriminate.
Defined.

Lemma ticking_monotone : monotone ticking.
Proof. unfold monotone, ticking. intros i j Hi Hij. lia. Qed.

(** Two property rows and two tenant rows read under a ticking clock. *)
Lemma candidate_ids_distinct_witness :
  monotone ticking /\
  List.NoDup
    (map Property.id
       (propertiesOf
          (processRentImport ticking ticking tenantToday
             (rentWorkbook [sakuraRow; sakuraRow]
                [tenantRow "Sakura" "タナカ"; tenantRow "Sakura" "サトウ"])
             [js "物件"; js "入居"]))).
Proof.
  split; [exact ticking_monotone|].
  exact (proj1 (proj2 (proj2
           (ImportRunFacts.candidate_ids_distinct ticking ticking tenantToday
              (rentWorkbook [sakuraRow; sakuraRow]
                 [tenantRow "Sakura" "タナカ"; tenantRow "Sakura" "サトウ"])
              [js "物件"; js "入居"] ticking_monotone ticking_monotone)))).
Defined.

(** A tenant sheet alone: its one row is an error. *)
Lemma tenants_without_property_sheet_witness :
  find isPropertySheet [js "入居"] = None /\
  success (run (tenantOnlyWorkbook [tenantRow "Sakura" "タナカ"]) [js "入居"]) = false.
Proof.
  assert (H : find isPropertySheet [js "入居"] = None) by (vm_compute; reflexivity).
  split; [exact H|].
  destruct (ImportRunFacts.tenants_without_property_sheet
              propertyNow tenantNow tenantToday
              (tenantOnlyWorkbook [tenantRow "Sakura" "タナカ"]) [js "入居"] H)
    as (_ & _ & _ & Hs).
  exact Hs.
Defined.

(** The property is deleted after the render from which [addTenant] is
    called: the call succeeds and the new tenant is unresolved. *)
Lemma addTenant_integrity_witness :
  let latest := snd (deleteProperty oneTenantDb 1) in
  let res := addTenant (fun _ => true) [] [] oneTenantDb latest 11 12
               (tenantOf 0 "E002" 1 40000 active) in
  Store.success (fst res) = true /\
  List.filter (unresolved (Database.properties (snd res))) (Database.tenants (snd res))
    = [tenantOf 12 "E002" 1 40000 active].
Proof.
  cbv zeta.
  assert (H : Store.success
                (fst (addTenant (fun _ => true) [] [] oneTenantDb
                        (snd (deleteProperty oneTenantDb 1)) 11 12
                        (tenantOf 0 "E002" 1 40000 active))) = true)
    by (vm_compute; reflexivity).
  split; [exact H|].
  rewrite (proj1 (StoreIntegrityFacts.addTenant_integrity (fun _ => true) [] []
                    oneTenantDb (snd (deleteProperty oneTenantDb 1)) 11 12
                    (tenantOf 0 "E002" 1 40000 active) H)).
  vm_compute. reflexivity.
Defined.

(** A second active tenant for a property with one place, added from the
    current render: no tenant is unresolved, and the store is no longer
    valid. *)
Example addTenant_over_capacity :
  let res := addTenant (fun _ => true) [] [] oneTenantDb oneTenantDb 11 12
               (tenantOf 0 "E002" 1 40000 active) in
  Store.success (fst res) = true /\
  List.filter (unresolved (Database.properties (snd res))) (Database.tenants (snd res))
    = [] /\
  Integrity.valid
    (Integrity.validateDataIntegrity (Database.properties oneTenantDb)
       (Database.tenants oneTenantDb)) = true /\
  Integrity.valid
    (Integrity.validateDataIntegrity (Database.properties (snd res))
       (Database.tenants (snd res))) = false.
Proof. vm_compute. repeat split; reflexivity. Qed.

Lemma oneTenantDb_properties_pass :
  propertiesPass (fun _ => true) [] [] [] oneTenantDb.
Proof. intros p [<- | []]. vm_compute. reflexivity. Qed.

Lemma oneTenantDb_tenants_pass : tenantsPass (fun _ => true) [] [] oneTenantDb.
Proof. intros t [<- | []]. vm_compute. reflexivity. Qed.

(** The store with the property Sakura, and a second property offered to
    [addProperty]. *)
Lemma property_schema_kept_witness :
  propertiesPass (fun _ => true) [] [] [] oneTenantDb /\
  propertiesPass (fun _ => true) [] [] []
    (snd (StoreCrud.addProperty (fun _ => true) [] [] [] oneTenantDb 21 22
            (withContractEnd sakura None))).
Proof.
  split; [exact oneTenantDb_properties_pass|].
  exact (proj1 (StoreCrudFacts.property_schema_kept (fun _ => true) [] [] []
                  oneTenantDb 21 22 1 (withContractEnd sakura None)
                  (StoreCrud.mkPartialProperty None None None None None None None
                     None None None None None None None None None)
                  oneTenantDb_properties_pass)).
Defined.

(** The store with one tenant, and an update that blanks the name. *)
Lemma tenant_schema_kept_witness :
  tenantsPass (fun _ => true) [] [] oneTenantDb /\
  tenantsPass (fun _ => true) [] []
    (snd (StoreCrud.updateTenant (fun _ => true) [] [] oneTenantDb 10
            (StoreCrud.mkPartialTenant None None (Some []) None None None None
               None None))).
Proof.
  split; [exact oneTenantDb_tenants_pass|].
  exact (proj1 (proj2 (StoreCrudFacts.tenant_schema_kept (fun _ => true) [] []
                  oneTenantDb oneTenantDb 11 12 10 (tenantOf 0 "E002" 1 40000 active)
                  (StoreCrud.mkPartialTenant None None (Some []) None None None None
                     None None)
                  oneTenantDb_tenants_pass))).
Defined.

(** The company of an employee with a blank kana cannot be changed. *)
Lemma updateEmployee_blank_kana_witness :
  StoreCrud.getEmployeeById blankKanaDb (js "E009") = Some blankKana /\
  Store.success (fst (StoreCrud.updateEmployee blankKanaDb (js "E009") newCompany)) = false /\
  snd (StoreCrud.updateEmployee blankKanaDb (js "E009") newCompany) = blankKanaDb.
Proof.
  assert (H : StoreCrud.getEmployeeById blankKanaDb (js "E009") = Some blankKana)
    by (vm_compute; reflexivity).
  split; [exact H|].
  destruct (StoreCrudFacts.updateEmployee_blank_kana blankKanaDb (js "E009")
              newCompany blankKana H eq_refl eq_refl) as (Hs & Hdb & _).
  split; [exact Hs | exact Hdb].
Defined.


(** The first toast on the empty list, under the default configuration. *)
Lemma notify_shows_newest_witness :
  0 < 5 /\
  exists n,
    Notifications.notifications oneToast = [n] /\
    Notifications.duration n = Some 4000 /\
    Notifications.pending oneToast !! 7 = Some (js "1-0.5").
Proof.
  assert (H : 0 < 5) by lia.
  split; [exact H|].
  destruct (NotificationsFacts.notify_shows_newest 5 4000 Notifications.initial
              (tickOf "1-0.5" 7) Notifications.n_success
              (js "Guardado") (js "Propiedad guardada") None H)
    as (n & _ & Hlist & _ & _ & _ & _ & _ & _ & _ & Htimer & _).
  exists n. split; [exact Hlist|].
  destruct (Htimer ltac:(vm_compute; reflexivity)) as (Hd & _ & Hp).
  split; [exact Hd | exact Hp].
Defined.

Lemma oneToast_state :
  oneToast =
  Notifications.mkState
    [Notifications.mkNotification (js "1-0.5") Notifications.n_success
       (js "Guardado") (js "Propiedad guardada") (Some 4000) None
       (js "2026-11-02T00:00:00.000Z")]
    (<[js "1-0.5" := 7]> ∅) (<[7 := js "1-0.5"]> ∅).
Proof. reflexivity. Qed.

Lemma oneToast_in_step : timersAgree oneToast.
Proof.
  rewrite oneToast_state. split; cbn [Notifications.timeoutRefs Notifications.pending].
  - intros i h. rewrite !lookup_insert_Some, !lookup_empty. split.
    + intros [[<- <-] | [_ H]]; [left; split; reflexivity | discriminate].
    + intros [[<- <-] | [_ H]]; [left; split; reflexivity | discriminate].
  - intros i. rewrite lookup_insert_Some, lookup_empty.
    intros [[_ H] | [_ H]]; discriminate.
Qed.

(** One toast with its timer, and then a second one. *)
Lemma timers_stay_in_step_witness :
  timersAgree oneToast /\
  Notifications.pending (Notifications.clearAll oneToast) = ∅ /\
  timersAgree
    (snd (Notifications.notify 5 4000 oneToast (tickOf "2-0.25" 8)
            Notifications.n_info (js "Aviso") (js "Reporte listo") None)).
Proof.
  split; [exact oneToast_in_step|].
  destruct (NotificationsFacts.timers_stay_in_step oneToast (js "1-0.5") 7 5 4000
              (tickOf "2-0.25" 8) Notifications.n_info (js "Aviso")
              (js "Reporte listo") None oneToast_in_step)
    as (_ & _ & _ & _ & Hclear & Hnotify).
  split; [exact Hclear|].
  apply Hnotify.
  - vm_compute. reflexivity.
  - vm_compute. reflexivity.
  - discriminate.
Defined.

(** The timer of the one toast fires. *)
Lemma fire_removes_notification_witness :
  timersAgree oneToast /\
  Notifications.pending oneToast !! 7 = Some (js "1-0.5") /\
  notShown (Notifications.fire oneToast 7) (js "1-0.5") /\
  Notifications.pending (Notifications.fire oneToast 7) !! 7 = None.
Proof.
  split; [exact oneToast_in_step|].
  assert (H : Notifications.pending oneToast !! 7 = Some (js "1-0.5"))
    by (vm_compute; reflexivity).
  split; [exact H|].
  destruct (proj1 (NotificationsFacts.fire_removes_notification oneToast 7
                     (js "1-0.5") oneToast_in_step) H) as (Hshown & _ & Hp & _).
  split; [exact Hshown | exact Hp].
Defined.

(** A workbook with one property and one tenant, imported and
    synchronised. *)
Lemma sync_hands_over_once_witness :
  ImportView.endsWith (js "rentas.xlsx") (js ".xlsx")
    || ImportView.endsWith (js "rentas.xlsx") (js ".xlsm") = true /\
  success (processFile propertyNow tenantNow tenantToday rentFile) = true /\
  ImportView.syncOffered
    (snd (ImportView.handleSync
            (ImportView.processExcelFile propertyNow tenantNow tenantToday idleView
               (js "rentas.xlsx") rentFile (tickOf "1-0.1" 1) (tickOf "2-0.2" 2)
               (tickOf "3-0.3" 3))
            (tickOf "4-0.4" 4))) = false.
Proof.
  assert (H1 : ImportView.endsWith (js "rentas.xlsx") (js ".xlsx")
               || ImportView.endsWith (js "rentas.xlsx") (js ".xlsm") = true)
    by (vm_compute; reflexivity).
  assert (H2 : success (processFile propertyNow tenantNow tenantToday rentFile) = true)
    by (vm_compute; reflexivity).
  split; [exact H1|]. split; [exact H2|].
  destruct (ImportViewFacts.sync_hands_over_once propertyNow tenantNow tenantToday
              idleView (js "rentas.xlsx") rentFile (tickOf "1-0.1" 1)
              (tickOf "2-0.2" 2) (tickOf "3-0.3" 3) (tickOf "4-0.4" 4)
              (tickOf "5-0.5" 5) H1 H2) as (_ & _ & _ & _ & Hoff & _).
  exact Hoff.
Defined.

End FurtherExamples.
